(** * check_linux_metrics: a shallow embedding of the probe script

    The development follows [check_linux_metrics.py] function by function.

    Modelling conventions.
    - Python [float] values are exact rationals ([Q]); rounding error, NaN and
      the infinities are outside the model.  [int] values are [Z].
    - Text is [string]; the kernel pseudo-files and the snapshot files are
      kept as raw text and cut up with the same string operations the script
      uses ([split], [strip], [startswith], [in]).
    - An uncaught Python exception is a value of [exn]; code that can raise
      lives in the error monad [res].
    - The snapshot directory is a finite map from path to file. *)

From Stdlib Require Import ZArith QArith Qround Qabs Lia Ascii.
From stdpp Require Import base option list gmap strings pretty.

Local Open Scope Z_scope.

(** ** Exceptions and the error monad *)

Inductive exn : Type :=
  | ZeroDivisionError
  | ValueError
  | IndexError
  | KeyError
  | UnboundLocalError.

Inductive res (A : Type) : Type :=
  | Ok (a : A)
  | Raise (e : exn).
Arguments Ok {A} a.
Arguments Raise {A} e.

#[global] Instance res_ret : MRet res := fun A a => Ok a.
#[global] Instance res_bind : MBind res := fun A B f m =>
  match m with
  | Ok a => f a
  | Raise e => Raise e
  end.

(** [[f(x) for x in l]] where [f] may raise: evaluation stops at the first
    exception. *)
Fixpoint res_map {A B} (f : A -> res B) (l : list A) : res (list B) :=
  match l with
  | [] => Ok []
  | x :: l' => y ← f x; ys ← res_map f l'; Ok (y :: ys)
  end.

(** ** Python sequence and dict access *)

(** [l[i]] for a literal non-negative index. *)
Definition idx {A} (l : list A) (i : nat) : res A :=
  match l !! i with
  | Some x => Ok x
  | None => Raise IndexError
  end.

(** [d[k]] on a dict. *)
Definition getitem {A} (d : gmap string A) (k : string) : res A :=
  match d !! k with
  | Some x => Ok x
  | None => Raise KeyError
  end.

(** ** Python [str] methods *)

Module Str.

(** [s.startswith(p)] *)
Fixpoint startswith (p s : string) : bool :=
  match p, s with
  | EmptyString, _ => true
  | String a p', String b s' => if decide (a = b) then startswith p' s' else false
  | String _ _, EmptyString => false
  end.

(** [sub in s] *)
Fixpoint contains (sub s : string) : bool :=
  startswith sub s ||
  match s with
  | EmptyString => false
  | String _ s' => contains sub s'
  end.

(** [s.split(sep)] for a non-empty separator.  [skip] counts the characters
    of a matched separator that are still to be dropped; [cur] is the
    current piece, reversed. *)
Fixpoint split_go (sep : string) (skip : nat) (cur : string) (s : string)
  : list string :=
  match s with
  | EmptyString => [String.rev cur]
  | String a s' =>
      match skip with
      | S k => split_go sep k cur s'
      | O =>
          if startswith sep s
          then String.rev cur :: split_go sep (String.length sep - 1) EmptyString s'
          else split_go sep O (String a cur) s'
      end
  end.
Definition split (sep s : string) : list string := split_go sep O EmptyString s.

(** [s.split()]: cut at runs of white space, no empty pieces. *)
Definition words (s : string) : list string := String.words s.

Fixpoint lstrip (s : string) : string :=
  match s with
  | EmptyString => EmptyString
  | String a s' => if Ascii.is_space a then lstrip s' else s
  end.
(** [s.strip()] *)
Definition strip (s : string) : string :=
  String.rev (lstrip (String.rev (lstrip s))).

(** [s.replace(a, b)] for single characters. *)
Fixpoint replace (a b : ascii) (s : string) : string :=
  match s with
  | EmptyString => EmptyString
  | String c s' => String (if decide (c = a) then b else c) (replace a b s')
  end.

Definition is_digit (a : ascii) : bool :=
  match Ascii.is_nat a with Some _ => true | None => false end.

Fixpoint all_digits (s : string) : bool :=
  match s with
  | EmptyString => true
  | String a s' => is_digit a && all_digits s'
  end.
(** [s.isdigit()] *)
Definition isdigit (s : string) : bool :=
  match s with
  | EmptyString => false
  | _ => all_digits s
  end.

(** The lines of a text file, each without its newline.  A final newline
    does not open one more line. *)
Fixpoint lines_go (cur : string) (s : string) : list string :=
  match s with
  | EmptyString => match cur with EmptyString => [] | _ => [String.rev cur] end
  | String a s' =>
      if decide (a = "010"%char)
      then String.rev cur :: lines_go EmptyString s'
      else lines_go (String a cur) s'
  end.
Definition splitlines (s : string) : list string := lines_go EmptyString s.

(** [f.readline()] on a freshly opened file, without the newline (every
    caller splits or strips the line at once). *)
Definition readline (s : string) : string :=
  match splitlines s with
  | [] => EmptyString
  | l :: _ => l
  end.

(** [sep.join(l)] *)
Fixpoint join (sep : string) (l : list string) : string :=
  match l with
  | [] => EmptyString
  | [x] => x
  | x :: l' => x +:+ sep +:+ join sep l'
  end.

End Str.

(** ** Number parsing: [int(s)] and [float(s)]

    Plain decimal notation is covered: surrounding white space, a sign,
    digits, for [float] a fraction and an exponent.  Digit-group underscores
    and the words [inf] and [nan] are not. *)

Module Num.

(** The digits at the head of [s], their value added to [acc], the number
    of digits read and the rest of [s]. *)
Fixpoint digits (acc : Z) (n : nat) (s : string) : Z * nat * string :=
  match s with
  | EmptyString => (acc, n, s)
  | String a s' =>
      match Ascii.is_nat a with
      | Some d => digits (10 * acc + Z.of_nat d) (S n) s'
      | None => (acc, n, s)
      end
  end.

(** An optional sign: [true] for minus. *)
Definition sign (s : string) : bool * string :=
  match s with
  | String "-"%char s' => (true, s')
  | String "+"%char s' => (false, s')
  | _ => (false, s)
  end.

Definition signed (neg : bool) (z : Z) : Z := if neg then - z else z.

(** [int(s)] *)
Definition py_int (s : string) : res Z :=
  let '(neg, s1) := sign (Str.strip s) in
  match digits 0 O s1 with
  | (v, S _, EmptyString) => Ok (signed neg v)
  | _ => Raise ValueError
  end.

(** The exponent part, if any: [e], a sign, digits. *)
Definition exponent (s : string) : option Z :=
  match s with
  | EmptyString => Some 0
  | String c s' =>
      if decide (c = "e"%char \/ c = "E"%char)
      then
        let '(neg, s1) := sign s' in
        match digits 0 O s1 with
        | (v, S _, EmptyString) => Some (signed neg v)
        | _ => None
        end
      else None
  end.

(** [float(s)] *)
Definition py_float (s : string) : res Q :=
  let '(neg, s1) := sign (Str.strip s) in
  let '(ip, n1, s2) := digits 0 O s1 in
  let '(m, n2, s3) :=
    match s2 with
    | String "."%char s' => digits ip O s'
    | _ => (ip, O, s2)
    end in
  match (n1 + n2)%nat, exponent s3 with
  | S _, Some e =>
      Ok (inject_Z (signed neg m) * Qpower (10 # 1) (e - Z.of_nat n2))%Q
  | _, _ => Raise ValueError
  end.

End Num.

(** ** Float arithmetic *)

Module Float.

(** [a / b] *)
Definition div (a b : Q) : res Q :=
  if Qeq_bool b 0 then Raise ZeroDivisionError else Ok (a / b)%Q.

(** [a >= b] *)
Definition ge (a b : Q) : bool := Qle_bool b a.

(** [a > b] *)
Definition gt (a b : Q) : bool := negb (Qle_bool a b).

(** [int(x)]: truncation towards zero. *)
Definition to_int (x : Q) : Z := Z.quot (Qnum x) (Z.pos (Qden x)).

(** Rounding to the nearest integer, ties to even. *)
Definition round_half_even (x : Q) : Z :=
  let f := Qfloor x in
  match Qcompare (x - inject_Z f) (1 # 2) with
  | Lt => f
  | Gt => f + 1
  | Eq => if Z.even f then f else f + 1
  end.

Definition two_digits (n : Z) : string :=
  if decide (n < 10) then "0" +:+ pretty n else pretty n.

(** [f"{x:.2f}"] *)
Definition fmt2f (x : Q) : string :=
  let n := round_half_even (Qabs x * (100 # 1)) in
  (if Qle_bool 0 x then "" else "-")
    +:+ pretty (n / 100) +:+ "." +:+ two_digits (n mod 100).

End Float.

(** The [for] loop with an accumulator whose body may raise. *)
Fixpoint res_fold {A B} (f : B -> A -> res B) (l : list A) (b : B) : res B :=
  match l with
  | [] => Ok b
  | x :: l' => b' ← f b x; res_fold f l' b'
  end.

(** ** The host: kernel counters, clock and snapshot directory *)

(** A snapshot file: its text and its modification time. *)
Record file : Type := File { f_content : string; f_mtime : Q }.

(** The fields of [os.statvfs] the script reads. *)
Record statvfs : Type := Statvfs {
  f_frsize : Z;
  f_blocks : Z;
  f_bfree : Z;
  f_bavail : Z
}.

(** What one invocation can observe.  Each pseudo-file has one content for
    the whole invocation.  [proc_dir] is [os.listdir('/proc')], each name
    with the first line of its [stat] file ([None] when opening or reading
    it raises).  [mount] is [None] for a path that is not a mount point. *)
Record host : Type := Host {
  now : Q;
  proc_stat : string;
  proc_loadavg : string;
  proc_file_nr : string;
  proc_diskstats : string;
  proc_meminfo : string;
  proc_net_dev : string;
  proc_dir : list (string * option string);
  realpath : string -> string;
  mount : string -> option statvfs;
  interim : gmap string file
}.

(** How an invocation ends: [sys.exit(code)] after one printed line, an
    uncaught exception, or the end of the script without [sys.exit]. *)
Inductive outcome : Type :=
  | Exited (code : Z) (line : string)
  | Uncaught (e : exn)
  | Fallthrough.

Record result : Type := Result {
  outcome_of : outcome;
  files_of : gmap string file
}.

(** The exit status the calling scheduler sees (an uncaught exception makes
    the interpreter exit with status 1 after a traceback). *)
Definition exit_status (o : outcome) : Z :=
  match o with
  | Exited code _ => code
  | Uncaught _ => 1
  | Fallthrough => 0
  end.

Definition INTERIM_DIR : string := "/var/tmp/linux_metrics".

(** [os.path.join(INTERIM_DIR, name)] for a relative [name]. *)
Definition interim_path (name : string) : string := INTERIM_DIR +:+ "/" +:+ name.

(** [shutil.copyfile(src, interim_file)] *)
Definition copyfile (w : host) (src : string) (interim_file : string)
  : gmap string file :=
  <[interim_file := File src (now w)]> (interim w).

(** The first-run exit shared by the delta probes: copy, print, [sys.exit(0)]. *)
Definition first_run (w : host) (src interim_file msg : string) : result :=
  Result (Exited 0 msg) (copyfile w src interim_file).

(** An exit that leaves the snapshot directory alone. *)
Definition exit_with (w : host) (code : Z) (line : string) : result :=
  Result (Exited code line) (interim w).

(** The end of a probe body: [body] is the status code, the status text and
    the performance data as printed; [save] is the snapshot written before
    printing.  An exception leaves the snapshot directory as it was. *)
Definition finish (w : host) (save : option (string * string))
    (body : res (Z * string * string)) : result :=
  match body with
  | Ok (status_code, status_outp, perfdata) =>
      Result (Exited status_code (status_outp +:+ " | " +:+ perfdata))
             (match save with
              | Some (src, interim_file) => copyfile w src interim_file
              | None => interim w
              end)
  | Raise e => Result (Uncaught e) (interim w)
  end.

(** ** The threshold block of the scalar probes

    The same [if]/[elif]/[else] is written out in [check_cpu],
    [check_openfiles], [check_disku], [check_memory] and [check_swap]. *)
Definition scalar_status (value : Q) (warn crit : option string)
    (status_outp : string) : res (Z * string) :=
  match warn, crit with
  | Some warn, Some crit =>
      c ← Num.py_float crit;
      if Float.ge value c then Ok (2, status_outp +:+ " (Critical)")
      else
        w ← Num.py_float warn;
        if Float.ge value w then Ok (1, status_outp +:+ " (Warning)")
        else Ok (0, status_outp +:+ " (OK)")
  | _, _ => Ok (0, status_outp)
  end.

(** [if warn is not None and crit is not None: perfdata += f";{warn};{crit}"] *)
Definition warn_crit_suffix (warn crit : option string) : string :=
  match warn, crit with
  | Some warn, Some crit => ";" +:+ warn +:+ ";" +:+ crit
  | _, _ => ""
  end.

(** ** check_cpu *)

Definition sum_Z (l : list Z) : Z := foldr Z.add 0 l.

(** [[int(b) - int(a) for a, b in zip(line1.split()[1:], line2.split()[1:])]] *)
Definition cpu_deltas (line1 line2 : string) : res (list Z) :=
  res_map (fun ab => b ← Num.py_int ab.2; a ← Num.py_int ab.1; Ok (b - a))
          (zip (tail (Str.words line1)) (tail (Str.words line2))).

(** [[100 - (100 * (float(total - x) / total)) for x in deltas]] *)
Definition cpu_percents (deltas : list Z) : res (list Q) :=
  let total := sum_Z deltas in
  res_map (fun x => q ← Float.div (inject_Z (total - x)) (inject_Z total);
                    Ok (100 - 100 * q)%Q)
          deltas.

Definition cpu_pcts (percents : list Q) : res (gmap string Q) :=
  user ← idx percents 0;
  nice ← idx percents 1;
  system ← idx percents 2;
  idle ← idx percents 3;
  iowait ← idx percents 4;
  irq ← idx percents 5;
  softirq ← idx percents 6;
  let d : gmap string Q :=
    <["softirq" := softirq]> (<["irq" := irq]> (<["iowait" := iowait]>
    (<["idle" := idle]> (<["system" := system]> (<["nice" := nice]>
    (<["user" := user]> ∅)))))) in
  steal ← (if decide (8 <= length percents)%nat then idx percents 7 else Ok 0%Q);
  let d := <["steal" := steal]> d in
  idle' ← getitem d "idle";
  Ok (<["cpu" := (100 - idle')%Q]> d).

Definition cpu_perfdata (pcts : gmap string Q) (warn crit : option string)
  : res string :=
  res_fold (fun perfdata x =>
              v ← getitem pcts x;
              Ok (perfdata +:+ x +:+ "=" +:+ Float.fmt2f v +:+ "%"
                    +:+ warn_crit_suffix warn crit +:+ " "))
           ["cpu"; "user"; "system"; "iowait"; "nice"; "irq"; "softirq"; "steal"]
           "".

Definition cpu_body (sample_period : Q) (line1 line2 : string)
    (warn crit : option string) : res (Z * string * string) :=
  deltas ← cpu_deltas line1 line2;
  percents ← cpu_percents deltas;
  pcts ← cpu_pcts percents;
  cpu ← getitem pcts "cpu";
  let status_outp :=
    "CPU Usage: " +:+ Float.fmt2f cpu +:+ "% [t:" +:+ Float.fmt2f sample_period +:+ "]" in
  '(status_code, status_outp) ← scalar_status cpu warn crit status_outp;
  perfdata ← cpu_perfdata pcts warn crit;
  Ok (status_code, status_outp, Str.strip perfdata).

Definition check_cpu (w : host) (warn crit : option string) : result :=
  let interim_file := interim_path "proc_stat" in
  match interim w !! interim_file with
  | None =>
      first_run w (proc_stat w) interim_file
        "This was the first run, run again to get values"
  | Some snap =>
      let sample_period := (now w - f_mtime snap)%Q in
      let line1 := Str.readline (f_content snap) in
      let line2 := Str.readline (proc_stat w) in
      finish w (Some (proc_stat w, interim_file))
        (cpu_body sample_period line1 line2 warn crit)
  end.

(** ** check_load *)

(** One round of the threshold loop of [check_load]; an empty string at
    position [i] of either array skips the position. *)
Definition load_step (load_avgs : list Q) (warn crit : list string)
    (st : Z * string) (i : nat) : res (Z * string) :=
  let '(status_code, status_outp) := st in
  ci ← idx crit i;
  if decide (ci = "") then Ok st else
  wi ← idx warn i;
  if decide (wi = "") then Ok st else
  v ← idx load_avgs i;
  c ← Num.py_float ci;
  if Float.ge v c then Ok (2, status_outp +:+ " (Critical)")
  else
    wv ← Num.py_float wi;
    if Float.ge v wv
    then Ok (if decide (status_code < 1) then 1 else status_code,
             status_outp +:+ " (Warning)")
    else Ok (status_code, status_outp +:+ " (OK)").

Definition load_status (load_avgs : list Q) (warn crit : option (list string))
    (status_outp : string) : res (Z * string) :=
  match warn, crit with
  | Some warn, Some crit =>
      res_fold (load_step load_avgs warn crit) (seq 0 (length warn)) (0, status_outp)
  | _, _ => Ok (0, status_outp)
  end.

(** [if len(warn) >= seq + 1: perfdata += f";{warn[seq]};{crit[seq]}"] *)
Definition tuple_suffix (warn crit : option (list string)) (seq : nat) : res string :=
  match warn, crit with
  | Some warn, Some crit =>
      if decide (seq + 1 <= length warn)%nat
      then wi ← idx warn seq; ci ← idx crit seq; Ok (";" +:+ wi +:+ ";" +:+ ci)
      else Ok ""
  | _, _ => Ok ""
  end.

Definition load_perfdata (load : gmap string Q) (warn crit : option (list string))
  : res string :=
  '(perfdata, _) ←
    res_fold (fun (acc : string * nat) x =>
                let '(perfdata, seq) := acc in
                v ← getitem load x;
                sfx ← tuple_suffix warn crit seq;
                Ok (perfdata +:+ x +:+ "=" +:+ Float.fmt2f v +:+ sfx +:+ " ", S seq))
             ["load1"; "load5"; "load15"] ("", O);
  Ok perfdata.

Definition load_body (line : string) (warn crit : option (list string))
  : res (Z * string * string) :=
  load_avgs ← res_map Num.py_float (take 3 (Str.words line));
  l1 ← idx load_avgs 0;
  l5 ← idx load_avgs 1;
  l15 ← idx load_avgs 2;
  let load : gmap string Q :=
    <["load15" := l15]> (<["load5" := l5]> (<["load1" := l1]> ∅)) in
  let status_outp :=
    "Load1: " +:+ Float.fmt2f l1 +:+ " Load5: " +:+ Float.fmt2f l5
      +:+ " Load15: " +:+ Float.fmt2f l15 in
  '(status_code, status_outp) ← load_status load_avgs warn crit status_outp;
  perfdata ← load_perfdata load warn crit;
  Ok (status_code, status_outp, Str.strip perfdata).

Definition check_load (w : host) (warn crit : option (list string)) : result :=
  finish w None (load_body (Str.readline (proc_loadavg w)) warn crit).

(** ** check_threads *)

(** The threshold block of [check_threads]: the bounds go through [int]. *)
Definition threads_status (running : Z) (warn crit : option string)
    (status_outp : string) : res (Z * string) :=
  match warn, crit with
  | Some warn, Some crit =>
      c ← Num.py_int crit;
      if decide (c <= running) then Ok (2, status_outp +:+ " (Critical)")
      else
        wv ← Num.py_int warn;
        if decide (wv <= running) then Ok (1, status_outp +:+ " (Warning)")
        else Ok (0, status_outp +:+ " (OK)")
  | _, _ => Ok (0, status_outp)
  end.

Definition threads_body (line : string) (warn crit : option string)
  : res (Z * string * string) :=
  t ← idx (Str.words line) 3;
  r ← idx (Str.split "/" t) 0;
  running ← Num.py_int r;
  tt ← idx (Str.split "/" t) 1;
  total ← Num.py_int tt;
  let threads : gmap string Z := <["total" := total]> (<["running" := running]> ∅) in
  let status_outp := "Threads: " +:+ t in
  '(status_code, status_outp) ← threads_status running warn crit status_outp;
  perfdata ←
    res_fold (fun perfdata x =>
                v ← getitem threads x;
                Ok (perfdata +:+ x +:+ "=" +:+ Float.fmt2f (inject_Z v)
                      +:+ (if decide (x = "running") then warn_crit_suffix warn crit else "")
                      +:+ " "))
             ["running"; "total"] "";
  Ok (status_code, status_outp, Str.strip perfdata).

Definition check_threads (w : host) (warn crit : option string) : result :=
  finish w None (threads_body (Str.readline (proc_loadavg w)) warn crit).

(** ** check_openfiles *)

Definition openfiles_body (line : string) (warn crit : option string)
  : res (Z * string * string) :=
  fd ← res_map Num.py_int (Str.words line);
  open ← idx fd 0;
  free ← idx fd 1;
  total ← idx fd 2;
  let ofiles : gmap string Z :=
    <["total" := total]> (<["free" := free]> (<["open" := open]> ∅)) in
  let status_outp :=
    "Open Files: " +:+ pretty open +:+ " (free: " +:+ pretty free +:+ ")" in
  '(status_code, status_outp) ← scalar_status (inject_Z open) warn crit status_outp;
  perfdata ←
    res_fold (fun perfdata x =>
                v ← getitem ofiles x;
                Ok (perfdata +:+ x +:+ "=" +:+ Float.fmt2f (inject_Z v)
                      +:+ (if decide (x = "open")
                           then match warn, crit with
                                | Some warn, Some crit =>
                                    ";" +:+ warn +:+ ";" +:+ crit +:+ ";0;" +:+ pretty total
                                | _, _ => ""
                                end
                           else "")
                      +:+ " "))
             ["open"; "free"] "";
  Ok (status_code, status_outp, Str.strip perfdata).

Definition check_openfiles (w : host) (warn crit : option string) : result :=
  finish w None (openfiles_body (Str.readline (proc_file_nr w)) warn crit).

(** ** check_procs *)

(** The loop over the lines of one copy of [/proc/stat]: every line that
    starts with [processes ] assigns, through [assign], from its second
    field. *)
Definition scan_processes (content : string) (assign : Z -> Z) (init : Z) : res Z :=
  res_fold (fun acc line =>
              if Str.startswith "processes " line
              then fld ← idx (Str.words line) 1; v ← Num.py_int fld; Ok (assign v)
              else Ok acc)
           (Str.splitlines content) init.

(** [forks], from the current file first and the snapshot second. *)
Definition procs_forks (current snapshot : string) : res Z :=
  curr_forks ← scan_processes current (fun v => v) 0;
  scan_processes snapshot (fun v => curr_forks - v) 0.

(** [states_procs]: a dict from state letter to the names seen in that
    state, in insertion order. *)
Definition states := list (string * list string).

(** [if k not in d: d[k] = []] followed by [d[k].append(v)] *)
Fixpoint setdefault_append (k v : string) (d : states) : states :=
  match d with
  | [] => [(k, [v])]
  | (k', l) :: d' =>
      if decide (k' = k) then (k', l ++ [v]) :: d'
      else (k', l) :: setdefault_append k v d'
  end.

(** One entry of [os.listdir('/proc')]. *)
Definition procs_scan_step (acc : Z * states) (entry : string * option string)
  : res (Z * states) :=
  let '(p_total, states_procs) := acc in
  if Str.isdigit entry.1 then
    let p_total := p_total + 1 in
    match entry.2 with
    | None => Ok (p_total, states_procs)
    | Some first_line =>
        let line := take 2 (drop 1 (Str.words first_line)) in
        state ← idx line 1;
        name ← idx line 0;
        Ok (p_total, setdefault_append state name states_procs)
    end
  else Ok acc.

Definition procs_scan (entries : list (string * option string)) : res (Z * states) :=
  res_fold procs_scan_step entries (0, []).

(** The dict [p]. *)
Record procs : Type := Procs {
  p_total : Z;
  p_forks : Q;
  p_running : Z;
  p_sleeping : Z;
  p_waiting : Z;
  p_zombie : Z;
  p_others : Z
}.

(** One round of [for state in states_procs]. *)
Definition tally_step (p : procs) (entry : string * list string) : procs :=
  let '(state, names) := entry in
  let n := Z.of_nat (length names) in
  if decide (state = "R") then
    Procs (p_total p) (p_forks p) (p_running p + n) (p_sleeping p) (p_waiting p)
          (p_zombie p) (p_others p)
  else if decide (state = "S") then
    Procs (p_total p) (p_forks p) (p_running p) (p_sleeping p + n) (p_waiting p)
          (p_zombie p) (p_others p)
  else if decide (state = "D") then
    Procs (p_total p) (p_forks p) (p_running p) (p_sleeping p) (p_waiting p + n)
          (p_zombie p) (p_others p)
  else if decide (state = "Z") then
    Procs (p_total p) (p_forks p) (p_running p) (p_sleeping p) (p_waiting p)
          (p_zombie p + n) (p_others p)
  else
    Procs (p_total p) (p_forks p) (p_running p) (p_sleeping p) (p_waiting p)
          (p_zombie p) (p_others p + n).

Definition procs_tally (total : Z) (forks_ps : Q) (states_procs : states) : procs :=
  foldl tally_step (Procs total forks_ps 0 0 0 0 0) states_procs.

(** [p[x]], as the number the format and the comparisons see. *)
Definition procs_get (p : procs) (x : string) : res Q :=
  if decide (x = "total") then Ok (inject_Z (p_total p))
  else if decide (x = "forks") then Ok (p_forks p)
  else if decide (x = "running") then Ok (inject_Z (p_running p))
  else if decide (x = "sleeping") then Ok (inject_Z (p_sleeping p))
  else if decide (x = "waiting") then Ok (inject_Z (p_waiting p))
  else if decide (x = "zombie") then Ok (inject_Z (p_zombie p))
  else if decide (x = "others") then Ok (inject_Z (p_others p))
  else Raise KeyError.

Definition param : list string := ["total"; "running"; "waiting"].

(** One round of the threshold loop of [check_procs]. *)
Definition procs_step (p : procs) (warn crit : list string)
    (st : Z * string) (i : nat) : res (Z * string) :=
  let '(status_code, status_outp) := st in
  ci ← idx crit i;
  if decide (ci = "") then Ok st else
  wi ← idx warn i;
  if decide (wi = "") then Ok st else
  name ← idx param i;
  v ← procs_get p name;
  c ← Num.py_float ci;
  if Float.ge v c then Ok (2, status_outp +:+ " (Critical " +:+ name +:+ ")")
  else
    wv ← Num.py_float wi;
    if Float.ge v wv
    then Ok (if decide (status_code < 1) then 1 else status_code,
             status_outp +:+ " (Warning " +:+ name +:+ ")")
    else Ok (status_code, status_outp +:+ " (OK)").

Definition procs_status (p : procs) (warn crit : option (list string))
    (status_outp : string) : res (Z * string) :=
  match warn, crit with
  | Some warn, Some crit =>
      res_fold (procs_step p warn crit) (seq 0 (length warn)) (0, status_outp)
  | _, _ => Ok (0, status_outp)
  end.

Definition procs_perfdata (p : procs) (warn crit : option (list string)) : res string :=
  '(perfdata, _) ←
    res_fold (fun (acc : string * nat) x =>
                let '(perfdata, seq) := acc in
                v ← procs_get p x;
                let perfdata := perfdata +:+ x +:+ "=" +:+ Float.fmt2f v in
                if decide (x ∈ param) then
                  sfx ← tuple_suffix warn crit seq;
                  Ok (perfdata +:+ sfx +:+ " ",
                      if decide (sfx = "") then seq else S seq)
                else Ok (perfdata +:+ " ", seq))
             ["total"; "forks"; "sleeping"; "running"; "waiting"; "zombie"; "others"]
             ("", O);
  Ok perfdata.

Definition procs_status_line (p : procs) : string :=
  "Total: " +:+ pretty (p_total p) +:+ " Running: " +:+ pretty (p_running p)
    +:+ " Sleeping: " +:+ pretty (p_sleeping p) +:+ " Waiting: " +:+ pretty (p_waiting p)
    +:+ " Zombie: " +:+ pretty (p_zombie p) +:+ " Others: " +:+ pretty (p_others p)
    +:+ " New_Forks: " +:+ Float.fmt2f (p_forks p) +:+ "/s".

Definition procs_body (w : host) (snapshot : string) (sample_period : Q)
    (warn crit : option (list string)) : res (Z * string * string) :=
  forks ← procs_forks (proc_stat w) snapshot;
  forks_ps ← Float.div (inject_Z forks) sample_period;
  '(total, states_procs) ← procs_scan (proc_dir w);
  let p := procs_tally total forks_ps states_procs in
  '(status_code, status_outp) ← procs_status p warn crit (procs_status_line p);
  perfdata ← procs_perfdata p warn crit;
  Ok (status_code, status_outp, Str.strip perfdata).

Definition check_procs (w : host) (warn crit : option (list string)) : result :=
  let interim_file := interim_path "proc_stat_processes" in
  match interim w !! interim_file with
  | None =>
      first_run w (proc_stat w) interim_file
        "This was the first run, run again to get values"
  | Some snap =>
      let sample_period := (now w - f_mtime snap)%Q in
      finish w (Some (proc_stat w, interim_file))
        (procs_body w (f_content snap) sample_period warn crit)
  end.

(** ** check_diskio *)

(** The search loop over the lines of a diskstats text: the fields after
    [sep] on the first line that contains it.  [None]: no line does, and the
    loop variable is never bound. *)
Fixpoint find_device (sep : string) (lines : list string) : res (option (list string)) :=
  match lines with
  | [] => Ok None
  | line :: lines' =>
      if Str.contains sep line
      then rest ← idx (Str.split sep (Str.strip line)) 1; Ok (Some (Str.words rest))
      else find_device sep lines'
  end.

(** [(int(proc_line[i]) - int(interim_line[i])) / sample_period] *)
Definition diskio_rate (proc_line : list string) (interim_line : option (list string))
    (sample_period : Q) (i : nat) : res Q :=
  a ← idx proc_line i;
  a ← Num.py_int a;
  il ← from_option Ok (Raise UnboundLocalError) interim_line;
  b ← idx il i;
  b ← Num.py_int b;
  Float.div (inject_Z (a - b)) sample_period.

(** The threshold block shared by [check_diskio] and, with its own labels,
    [check_net]: two values against two pairs of bounds, joined by [or]. *)
Definition pair_ge (v0 v1 : Q) (bound : list string) : res bool :=
  b0 ← idx bound 0;
  b0 ← Num.py_float b0;
  if Float.ge v0 b0 then Ok true
  else b1 ← idx bound 1; b1 ← Num.py_float b1; Ok (Float.ge v1 b1).

Definition diskio_status (read_sectors write_sectors : Q)
    (warn crit : option (list string)) (status_outp : string) : res (Z * string) :=
  match warn, crit with
  | Some warn, Some crit =>
      is_crit ← pair_ge read_sectors write_sectors crit;
      if (is_crit : bool) then Ok (2, status_outp +:+ " (Critical)")
      else
        is_warn ← pair_ge read_sectors write_sectors warn;
        if (is_warn : bool) then Ok (1, status_outp +:+ " (Warning)")
        else Ok (0, status_outp +:+ " (OK)")
  | _, _ => Ok (0, status_outp)
  end.

(** [f";{warn[i]};{crit[i]}"] when both arrays are given. *)
Definition pair_suffix (warn crit : option (list string)) (i : nat) : res string :=
  match warn, crit with
  | Some warn, Some crit =>
      wi ← idx warn i; ci ← idx crit i; Ok (";" +:+ wi +:+ ";" +:+ ci)
  | _, _ => Ok ""
  end.

Definition diskio_body (dev device : string) (proc_line : list string)
    (interim_line : option (list string)) (sample_period : Q)
    (warn crit : option (list string)) : res (Z * string * string) :=
  read_operations ← diskio_rate proc_line interim_line sample_period 0;
  read_sectors ← diskio_rate proc_line interim_line sample_period 2;
  read_time ← diskio_rate proc_line interim_line sample_period 3;
  write_operations ← diskio_rate proc_line interim_line sample_period 4;
  write_sectors ← diskio_rate proc_line interim_line sample_period 6;
  write_time ← diskio_rate proc_line interim_line sample_period 7;
  let d : gmap string Q :=
    <["write_time" := write_time]> (<["write_sectors" := write_sectors]>
    (<["write_operations" := write_operations]> (<["read_time" := read_time]>
    (<["read_sectors" := read_sectors]> (<["read_operations" := read_operations]> ∅))))) in
  let status_outp :=
    dev +:+ " (" +:+ device +:+ ") Read: " +:+ Float.fmt2f read_sectors +:+ " sec/s ("
      +:+ Float.fmt2f read_operations +:+ " t/s) Write: " +:+ Float.fmt2f write_sectors
      +:+ " sec/s (" +:+ Float.fmt2f write_operations +:+ " t/s) [t:"
      +:+ Float.fmt2f sample_period +:+ "]" in
  '(status_code, status_outp) ← diskio_status read_sectors write_sectors warn crit status_outp;
  perfdata ←
    res_fold (fun perfdata x =>
                v ← getitem d x;
                sfx ← (if decide (x = "read_sectors") then pair_suffix warn crit 0
                       else if decide (x = "write_sectors") then pair_suffix warn crit 1
                       else Ok "");
                Ok (perfdata +:+ x +:+ "=" +:+ Float.fmt2f v +:+ sfx +:+ " "))
             ["read_operations"; "read_sectors"; "read_time";
              "write_operations"; "write_sectors"; "write_time"] "";
  Ok (status_code, status_outp, Str.strip perfdata).

(** The device name: a path is resolved and must lie under [/dev/]. *)
Definition diskio_device (w : host) (dev : string) : option string :=
  if Str.startswith "/" dev then
    let real_path := realpath w dev in
    if Str.startswith "/dev/" real_path
    then Some (String.string_of_list_ascii (drop 5 (String.list_ascii_of_string real_path)))
    else None
  else Some dev.

Definition check_diskio (w : host) (dev : string) (warn crit : option (list string))
  : result :=
  match diskio_device w dev with
  | None => exit_with w 3 ("Plugin Error: Block device not found: " +:+ dev)
  | Some device =>
      let sep := device +:+ " " in
      match find_device sep (Str.splitlines (proc_diskstats w)) with
      | Raise e => Result (Uncaught e) (interim w)
      | Ok None =>
          exit_with w 3 ("Plugin Error: Block device not found: (" +:+ device +:+ ")")
      | Ok (Some proc_line) =>
          let interim_file :=
            interim_path ("proc_diskstats_" +:+ Str.replace "/"%char "_"%char device) in
          match interim w !! interim_file with
          | None =>
              first_run w (proc_diskstats w) interim_file
                ("This was the first run, run again to get values: diskio("
                   +:+ device +:+ ")")
          | Some snap =>
              let sample_period := (now w - f_mtime snap)%Q in
              finish w (Some (proc_diskstats w, interim_file))
                (interim_line ← find_device sep (Str.splitlines (f_content snap));
                 diskio_body dev device proc_line interim_line sample_period warn crit)
          end
      end
  end.

(** ** check_disku *)

Definition GiB (bytes : Z) : Q := (inject_Z bytes / 1024 / 1024 / 1024)%Q.

Definition disku_body (mountpoint : string) (st : statvfs) (warn crit : option string)
  : res (Z * string * string) :=
  let size := GiB (f_frsize st * f_blocks st) in
  let free := GiB (f_frsize st * f_bfree st) in
  let avail := GiB (f_frsize st * f_bavail st) in
  ratio ← Float.div (size - avail)%Q size;
  let used_pc := (ratio * 100)%Q in
  let status_outp :=
    mountpoint +:+ " Used: " +:+ Float.fmt2f (size - avail)%Q +:+ " GB / "
      +:+ Float.fmt2f size +:+ " GB (" +:+ Float.fmt2f used_pc +:+ "%)" in
  '(status_code, status_outp) ← scalar_status used_pc warn crit status_outp;
  let perfdata := "used=" +:+ Float.fmt2f used_pc +:+ "%" +:+ warn_crit_suffix warn crit in
  Ok (status_code, status_outp, perfdata).

Definition check_disku (w : host) (mountpoint : string) (warn crit : option string)
  : result :=
  match mount w mountpoint with
  | Some st => finish w None (disku_body mountpoint st warn crit)
  | None =>
      exit_with w 3 ("Plugin Error: Mount point not valid: (" +:+ mountpoint +:+ ")")
  end.

(** ** check_memory and check_swap *)

(** The scan of [/proc/meminfo]: an [if]/[elif] chain of [startswith] tests,
    given as a table from prefix to dict key; the first prefix that matches
    a line stores the line's second field. *)
Definition meminfo_scan (table : list (string * string)) (content : string)
  : res (gmap string Z) :=
  res_fold (fun (mem : gmap string Z) line =>
              match List.find (fun pk => Str.startswith pk.1 line) table with
              | Some (_, key) =>
                  fld ← idx (Str.words line) 1;
                  v ← Num.py_int fld;
                  Ok (<[key := v]> mem)
              | None => Ok mem
              end)
           (Str.splitlines content) ∅.

Definition memory_table : list (string * string) :=
  [("MemTotal: ", "total"); ("Active: ", "active"); ("MemFree: ", "free");
   ("Cached: ", "cached"); ("Buffers: ", "buffers")].

Definition swap_table : list (string * string) :=
  [("SwapTotal: ", "total"); ("SwapFree: ", "free"); ("SwapCached: ", "cached")].

(** The thresholds and range printed next to [used], in megabytes:
    [int(total * float(warn) / 100)] and [int(total * float(crit) / 100)]
    when both bounds are given, [;;] otherwise, then [;0;int(total)]. *)
Definition used_suffix (total : Q) (warn crit : option string) : res string :=
  bounds ← match warn, crit with
           | Some warn, Some crit =>
               wv ← Num.py_float warn;
               let warn_mb := Float.to_int (total * wv / 100)%Q in
               c ← Num.py_float crit;
               let crit_mb := Float.to_int (total * c / 100)%Q in
               Ok (";" +:+ pretty warn_mb +:+ ";" +:+ pretty crit_mb)
           | _, _ => Ok ";;"
           end;
  Ok (bounds +:+ ";0;" +:+ pretty (Float.to_int total)).

(** The perfdata loop of both probes over the keys [xs] of the dict [m]. *)
Definition usage_perfdata (m : gmap string Q) (xs : list string)
    (warn crit : option string) : res string :=
  res_fold (fun perfdata x =>
              v ← getitem m x;
              let perfdata := perfdata +:+ x +:+ "=" +:+ Float.fmt2f v in
              sfx ← (if decide (x = "used")
                     then total ← getitem m "total"; used_suffix total warn crit
                     else Ok "");
              Ok (perfdata +:+ sfx +:+ " "))
           xs "".

Definition memory_body (content : string) (warn crit : option string)
  : res (Z * string * string) :=
  mem ← meminfo_scan memory_table content;
  total ← getitem mem "total";
  active ← getitem mem "active";
  cached ← getitem mem "cached";
  buffers ← getitem mem "buffers";
  free ← getitem mem "free";
  let used_kb := total - free - cached - buffers in
  ratio ← Float.div (inject_Z used_kb) (inject_Z total);
  let used_p := (ratio * 100)%Q in
  let m : gmap string Q :=
    <["used_p" := used_p]> (<["used" := (inject_Z used_kb / 1024)%Q]>
    (<["cached" := (inject_Z (cached + buffers) / 1024)%Q]>
    (<["active" := (inject_Z active / 1024)%Q]>
    (<["total" := (inject_Z total / 1024)%Q]> ∅)))) in
  m_used ← getitem m "used";
  m_total ← getitem m "total";
  let status_outp :=
    "Memory Used: " +:+ Float.fmt2f m_used +:+ "MB / " +:+ Float.fmt2f m_total
      +:+ "MB (" +:+ Float.fmt2f used_p +:+ "%)" in
  '(status_code, status_outp) ← scalar_status used_p warn crit status_outp;
  perfdata ← usage_perfdata m ["used"; "cached"; "active"] warn crit;
  Ok (status_code, status_outp, Str.strip perfdata).

Definition check_memory (w : host) (warn crit : option string) : result :=
  finish w None (memory_body (proc_meminfo w) warn crit).

Definition swap_body (content : string) (warn crit : option string)
  : res (Z * string * string) :=
  swap ← meminfo_scan swap_table content;
  total ← getitem swap "total";
  if decide (total = 0)
  then Ok (0, "No swap space configured on this system", "")
  else
    cached ← getitem swap "cached";
    free ← getitem swap "free";
    let used_kb := total - free - cached in
    ratio ← Float.div (inject_Z used_kb) (inject_Z total);
    let used_p := (ratio * 100)%Q in
    let s : gmap string Q :=
      <["used_p" := used_p]> (<["used" := (inject_Z used_kb / 1024)%Q]>
      (<["cached" := (inject_Z cached / 1024)%Q]>
      (<["total" := (inject_Z total / 1024)%Q]> ∅))) in
    s_used ← getitem s "used";
    s_total ← getitem s "total";
    let status_outp :=
      "Swap Used: " +:+ Float.fmt2f s_used +:+ "MB / " +:+ Float.fmt2f s_total
        +:+ "MB (" +:+ Float.fmt2f used_p +:+ "%)" in
    '(status_code, status_outp) ← scalar_status used_p warn crit status_outp;
    perfdata ← usage_perfdata s ["used"; "cached"] warn crit;
    Ok (status_code, status_outp, Str.strip perfdata).

Definition check_swap (w : host) (warn crit : option string) : result :=
  finish w None (swap_body (proc_meminfo w) warn crit).

(** ** check_net *)

Definition net_fields : list string :=
  ["r_bytes"; "r_packets"; "r_errs"; "r_drop"; "r_fifo"; "r_frame";
   "r_compressed"; "r_multicast";
   "t_bytes"; "t_packets"; "t_errs"; "t_drop"; "t_fifo"; "t_colls";
   "t_carrier"; "t_compressed"].

Definition net_error_fields : list string :=
  ["r_errs"; "r_drop"; "r_fifo"; "r_frame";
   "t_errs"; "t_drop"; "t_fifo"; "t_colls"; "t_carrier"].

(** The first line that, stripped, starts with [prefix]. *)
Definition net_line (prefix : string) (content : string) : option string :=
  List.find (Str.startswith prefix) (Str.strip <$> Str.splitlines content).

(** [int(line.split(f"{interface}:")[1].split()[seq])] *)
Definition net_value (prefix line : string) (seq : nat) : res Z :=
  rest ← idx (Str.split prefix line) 1;
  fld ← idx (Str.words rest) seq;
  Num.py_int fld.

(** The inner loop over the sixteen field names; [store] is the assignment
    of the branch taken for the file at hand. *)
Definition net_fill (prefix : string) (line : option string)
    (store : string -> Z -> gmap string Z -> res (gmap string Z))
    (d : gmap string Z) : res (gmap string Z) :=
  match line with
  | None => Ok d
  | Some line =>
      '(d, _) ←
        res_fold (fun (acc : gmap string Z * nat) x =>
                    let '(d, seq) := acc in
                    v ← net_value prefix line seq;
                    d' ← store x v d;
                    Ok (d', S seq))
                 net_fields (d, O);
      Ok d
  end.

(** [int_t] and [int_d], from the current file first and the snapshot second. *)
Definition net_read (interface current snapshot : string)
  : res (gmap string Z * gmap string Z) :=
  let prefix := interface +:+ ":" in
  int_t ← net_fill prefix (net_line prefix current)
            (fun x v d => Ok (<[x := v]> d)) ∅;
  int_d ← net_fill prefix (net_line prefix snapshot)
            (fun x interim_value d => t ← getitem int_t x; Ok (<[x := t - interim_value]> d)) ∅;
  Ok (int_t, int_d).

(** One round of the loop over the hard-error counters: a counter that went
    up is added to [PK_ERRORS], sets the status code and is named in the
    status text. *)
Definition net_error_step (int_d : gmap string Z) (acc : Z * string * Z) (x : string)
  : res (Z * string * Z) :=
  let '(status_code, status_outp, pk_errors) := acc in
  v ← getitem int_d x;
  if decide (0 < v)
  then Ok (2, status_outp +:+ " (Critical " +:+ x +:+ ":" +:+ pretty v +:+ ")",
           pk_errors + v)
  else Ok acc.

(** The loop over the hard-error counters: status code, status text and
    [PK_ERRORS]. *)
Definition net_errors (int_d : gmap string Z) (status_outp : string)
  : res (Z * string * Z) :=
  res_fold (net_error_step int_d) net_error_fields (0, status_outp, 0).

(** The bandwidth block, entered only when [PK_ERRORS == 0]. *)
Definition net_status (rx tx : Q) (warn crit : option (list string))
    (st : Z * string * Z) : res (Z * string) :=
  let '(status_code, status_outp, pk_errors) := st in
  match warn, crit with
  | Some warn, Some crit =>
      if decide (pk_errors = 0) then
        is_crit ← pair_ge rx tx crit;
        if (is_crit : bool) then Ok (2, status_outp +:+ " (Critical BW)")
        else
          is_warn ← pair_ge rx tx warn;
          if (is_warn : bool)
          then Ok (if decide (status_code < 1) then 1 else status_code,
                   status_outp +:+ " (Warning BW)")
          else Ok (status_code, status_outp +:+ " (OK)")
      else Ok (status_code, status_outp)
  | _, _ => Ok (status_code, status_outp)
  end.

Definition net_body (interface : string) (int_d : gmap string Z) (sample_period : Q)
    (warn crit : option (list string)) : res (Z * string * string) :=
  r_bytes ← getitem int_d "r_bytes";
  rx_mbps ← Float.div (inject_Z r_bytes / 1024 / 1024)%Q sample_period;
  t_bytes ← getitem int_d "t_bytes";
  tx_mbps ← Float.div (inject_Z t_bytes / 1024 / 1024)%Q sample_period;
  r_packets ← getitem int_d "r_packets";
  rx_pkps ← Float.div (inject_Z r_packets) sample_period;
  t_packets ← getitem int_d "t_packets";
  tx_pkps ← Float.div (inject_Z t_packets) sample_period;
  let status_outp :=
    interface +:+ " Rx: " +:+ Float.fmt2f rx_mbps +:+ " MB/s (" +:+ Float.fmt2f rx_pkps
      +:+ " p/s)" +:+ " Tx: " +:+ Float.fmt2f tx_mbps +:+ " MB/s ("
      +:+ Float.fmt2f tx_pkps +:+ " p/s)" +:+ " [t:" +:+ Float.fmt2f sample_period +:+ "]" in
  st ← net_errors int_d status_outp;
  '(status_code, status_outp) ← net_status rx_mbps tx_mbps warn crit st;
  let rates : gmap string Q :=
    <["PK_ERRORS" := inject_Z st.2]> (<["TX_PKps" := tx_pkps]> (<["RX_PKps" := rx_pkps]>
    (<["TX_MBps" := tx_mbps]> (<["RX_MBps" := rx_mbps]> ∅)))) in
  perfdata ←
    res_fold (fun perfdata x =>
                v ← getitem rates x;
                sfx ← (if decide (x = "RX_MBps") then pair_suffix warn crit 0
                       else if decide (x = "TX_MBps") then pair_suffix warn crit 1
                       else Ok "");
                Ok (perfdata +:+ x +:+ "=" +:+ Float.fmt2f v +:+ sfx +:+ " "))
             ["RX_MBps"; "RX_PKps"; "TX_MBps"; "TX_PKps"; "PK_ERRORS"] "";
  Ok (status_code, status_outp, Str.strip perfdata).

Definition check_net (w : host) (interface : string) (warn crit : option (list string))
  : result :=
  let interim_file := interim_path ("proc_net_dev_" +:+ interface) in
  match interim w !! interim_file with
  | None =>
      first_run w (proc_net_dev w) interim_file
        ("This was the first run, run again to get values: net:" +:+ interface)
  | Some snap =>
      let sample_period := (now w - f_mtime snap)%Q in
      match net_read interface (proc_net_dev w) (f_content snap) with
      | Raise e => Result (Uncaught e) (interim w)
      | Ok (int_t, int_d) =>
          if decide (int_t = ∅ \/ int_d = ∅)
          then exit_with w 3
                 ("Plugin Error: Network device not found: (" +:+ interface +:+ ")")
          else finish w (Some (proc_net_dev w, interim_file))
                 (net_body interface int_d sample_period warn crit)
      end
  end.

(** ** The command line *)

(** [str(sys.argv)] for arguments without quotes or escapes. *)
Definition repr_argv (argv : list string) : string :=
  "[" +:+ Str.join ", " ((fun s => "'" +:+ s +:+ "'") <$> argv) +:+ "]".

Definition invalid_arguments (w : host) (command : string) (argv : list string)
  : result :=
  exit_with w 3
    ("Plugin Error: Invalid arguments for " +:+ command +:+ ": (" +:+ repr_argv argv +:+ ")").

(** [float(crit) > float(warn)], the test of the scalar commands. *)
Definition scalar_accepts (warn crit : string) : res bool :=
  c ← Num.py_float crit;
  wv ← Num.py_float warn;
  Ok (Float.gt c wv).

(** [any(float(w) > float(c) for w, c in pairs)] *)
Fixpoint any_gt (pairs : list (string * string)) : res bool :=
  match pairs with
  | [] => Ok false
  | (wi, ci) :: pairs' =>
      wv ← Num.py_float wi;
      c ← Num.py_float ci;
      if Float.gt wv c then Ok true else any_gt pairs'
  end.

(** [len(warn_arr) != len(crit_arr) or any(...)], the test of the tuple
    commands. *)
Definition tuple_rejects (warn_arr crit_arr : list string) : res bool :=
  if decide (length warn_arr ≠ length crit_arr) then Ok true
  else any_gt (zip warn_arr crit_arr).

(** A scalar command once the count of threshold arguments is known. *)
Definition scalar_command (w : host) (command : string) (argv : list string)
    (probe : option string -> option string -> result) (thresholds : list string)
  : result :=
  match thresholds with
  | [] => probe None None
  | [warn; crit] =>
      match scalar_accepts warn crit with
      | Ok true => probe (Some warn) (Some crit)
      | Ok false => invalid_arguments w command argv
      | Raise e => Result (Uncaught e) (interim w)
      end
  | _ => invalid_arguments w command argv
  end.

(** A tuple command: any other count of arguments runs off the end of the
    script. *)
Definition tuple_command (w : host) (command : string) (argv : list string)
    (probe : option (list string) -> option (list string) -> result)
    (thresholds : list string) : result :=
  match thresholds with
  | [] => probe None None
  | [warn; crit] =>
      let warn_arr := Str.split "," warn in
      let crit_arr := Str.split "," crit in
      match tuple_rejects warn_arr crit_arr with
      | Ok true => invalid_arguments w command argv
      | Ok false => probe (Some warn_arr) (Some crit_arr)
      | Raise e => Result (Uncaught e) (interim w)
      end
  | _ => Result Fallthrough (interim w)
  end.

Definition main (w : host) (argv : list string) : result :=
  match argv with
  | _ :: command :: args =>
      if decide (command = "cpu") then
        scalar_command w command argv (check_cpu w) args
      else if decide (command = "procs") then
        tuple_command w command argv (check_procs w) args
      else if decide (command = "load") then
        tuple_command w command argv (check_load w) args
      else if decide (command = "threads") then
        scalar_command w command argv (check_threads w) args
      else if decide (command = "files") then
        scalar_command w command argv (check_openfiles w) args
      else if decide (command = "diskio") then
        match args with
        | dev :: thresholds =>
            match thresholds with
            | [] | [_; _] => tuple_command w command argv (check_diskio w dev) thresholds
            | _ => Result Fallthrough (interim w)
            end
        | [] => Result Fallthrough (interim w)
        end
      else if decide (command = "disku") then
        match args with
        | mountpoint :: thresholds =>
            scalar_command w command argv (check_disku w mountpoint) thresholds
        | [] => invalid_arguments w command argv
        end
      else if decide (command = "memory") then
        scalar_command w command argv (check_memory w) args
      else if decide (command = "swap") then
        scalar_command w command argv (check_swap w) args
      else if decide (command = "network") then
        match args with
        | interface :: thresholds =>
            match thresholds with
            | [] | [_; _] => tuple_command w command argv (check_net w interface) thresholds
            | _ => Result Fallthrough (interim w)
            end
        | [] => Result Fallthrough (interim w)
        end
      else exit_with w 3 ("Plugin Error: Unknown command " +:+ command)
  | _ => Result Fallthrough (interim w)
  end.
(** ** Vocabulary of the statements *)

(** What "the run created exactly one snapshot file, [path], from the text
    [src]" means for the snapshot directory. *)
Definition creates_one_snapshot (w : host) (path src : string) (r : result) : Prop :=
  (path ∉ dom (interim w))
  /\ dom (files_of r) = {[path]} ∪ dom (interim w)
  /\ (files_of r !! path) = Some (File src (now w))
  /\ (forall p, p ≠ path -> (files_of r !! p) = (interim w !! p)).

Definition first_run_msg : string := "This was the first run, run again to get values".

(** The same host at another reading of the clock. *)
Definition at_time (t : Q) (w : host) : host :=
  Host t (proc_stat w) (proc_loadavg w) (proc_file_nr w) (proc_diskstats w)
       (proc_meminfo w) (proc_net_dev w) (proc_dir w) (realpath w) (mount w) (interim w).

(** The status code of a probe body, or the exception it raises. *)
Definition body_code (body : res (Z * string * string)) : res Z :=
  '(status_code, _, _) ← body; Ok status_code.

(** The commands whose thresholds are two scalars, and those whose thresholds
    are two comma-separated arrays; [pre] is what precedes the thresholds on
    the command line (a mount point, a device, an interface). *)
Definition takes_scalar (command : string) (pre : list string) : Prop :=
  (command ∈ ["cpu"; "threads"; "files"; "memory"; "swap"] /\ pre = [])
  \/ (command = "disku" /\ exists mountpoint, pre = [mountpoint]).

Definition takes_tuple (command : string) (pre : list string) : Prop :=
  (command ∈ ["procs"; "load"] /\ pre = [])
  \/ (command ∈ ["diskio"; "network"] /\ exists entity, pre = [entity]).

(** A pair of bounds that parses, with [warn <= crit]. *)
Definition ordered_pair (p : string * string) : Prop :=
  exists wv c, Num.py_float p.1 = Ok wv /\ Num.py_float p.2 = Ok c /\ (wv <= c)%Q.

(** The two-element bound array [arr] parses to [q0] and [q1]. *)
Definition bounds_parse (arr : list string) (q0 q1 : Q) : Prop :=
  exists b0 b1, (arr !! 0%nat) = Some b0 /\ (arr !! 1%nat) = Some b1
                /\ Num.py_float b0 = Ok q0 /\ Num.py_float b1 = Ok q1.

(** *** The classification policy in the specification's words *)

(** [value >= crit] is CRITICAL (2), else [value >= warn] is WARNING (1),
    else OK (0). *)
Definition severity (value warn crit : Q) : Z :=
  if Float.ge value crit then 2 else if Float.ge value warn then 1 else 0.

(** A sub-metric of a multi-value probe: its name, its value and its parsed
    bounds [(warn, crit)], [None] when the position is skipped. *)
Definition sub_metric : Type := string * Q * option (Q * Q).

(** The sub-metrics that are evaluated, each with its severity. *)
Definition evaluated (subs : list sub_metric) : list (string * Z) :=
  omap (fun sub : sub_metric =>
          match sub with
          | (name, value, Some (warn, crit)) => Some (name, severity value warn crit)
          | (_, _, None) => None
          end) subs.

(** The maximum severity, OK when nothing is evaluated. *)
Definition overall (ev : list (string * Z)) : Z := foldr Z.max 0 (ev.*2).

(** The annotation of the scalar probes and of [check_load]. *)
Definition verdict_text (sev : Z) : string :=
  if decide (sev = 2) then " (Critical)"
  else if decide (sev = 1) then " (Warning)"
  else " (OK)".

(** The annotations of [check_procs] and of [check_load]. *)
Definition procs_annotation (e : string * Z) : string :=
  if decide (e.2 = 2) then " (Critical " +:+ e.1 +:+ ")"
  else if decide (e.2 = 1) then " (Warning " +:+ e.1 +:+ ")"
  else " (OK)".

Definition load_annotation (e : string * Z) : string := verdict_text e.2.

Definition annotations (ann : string * Z -> string) (ev : list (string * Z)) : string :=
  foldr (fun e acc => ann e +:+ acc) "" ev.

(** Position [i] of the two threshold arrays holds the bounds [b]. *)
Definition bounds_at (warn crit : list string) (i : nat) (b : option (Q * Q)) : Prop :=
  exists wi ci, (warn !! i) = Some wi /\ (crit !! i) = Some ci
    /\ match b with
       | None => ci = "" \/ wi = ""
       | Some (wv, c) => Num.py_float wi = Ok wv /\ Num.py_float ci = Ok c
       end.

(** *** Counting the process table *)

(** The processes of the listing whose [stat] file could not be read. *)
Fixpoint unreadable (entries : list (string * option string)) : Z :=
  match entries with
  | [] => 0
  | (name, r) :: rest =>
      (if Str.isdigit name then match r with None => 1 | Some _ => 0 end else 0)
      + unreadable rest
  end.

(** The sum of the five per-state tallies. *)
Definition tallied (p : procs) : Z :=
  p_running p + p_sleeping p + p_waiting p + p_zombie p + p_others p.

(** The number of names held by [states_procs]. *)
Definition names_count (d : states) : Z :=
  foldr (fun e acc => Z.of_nat (length e.2) + acc) 0 d.

(** Every [stat] line that was read has the three fields the probe indexes. *)
Definition stat_lines_complete (entries : list (string * option string)) : Prop :=
  forall name line, (name, Some line) ∈ entries -> Str.isdigit name = true ->
                    (3 <= length (Str.words line))%nat.

(** Every process of the listing was readable. *)
Definition all_readable (entries : list (string * option string)) : Prop :=
  forall name r, (name, r) ∈ entries -> Str.isdigit name = true -> r ≠ None.

(** What the perfdata loop of a probe appends for the key [used]. *)
Definition used_token (used total wv c : Q) : string :=
  "used=" +:+ Float.fmt2f used
    +:+ ";" +:+ pretty (Float.to_int (total * wv / 100)%Q)
    +:+ ";" +:+ pretty (Float.to_int (total * c / 100)%Q)
    +:+ ";0;" +:+ pretty (Float.to_int total) +:+ " ".

(** Some hard-error counter of [int_d] went up. *)
Definition error_counted (int_d : gmap string Z) : Prop :=
  exists x v, x ∈ net_error_fields /\ (int_d !! x) = Some v /\ 0 < v.

(** No hard-error counter of [int_d] went up. *)
Definition no_error_counted (int_d : gmap string Z) : Prop :=
  forall x v, x ∈ net_error_fields -> (int_d !! x) = Some v -> v <= 0.

(** Both threshold arrays, when given, have the two positions the perfdata
    loop prints. *)
Definition printable (warn crit : option (list string)) : Prop :=
  match warn, crit with
  | Some warn, Some crit => (2 <= length warn)%nat /\ (2 <= length crit)%nat
  | _, _ => True
  end.

(** The field deltas between two parsed tick readings. *)
Definition tick_deltas (prev cur : list Z) : list Z :=
  zip_with (fun a b => b - a) prev cur.

(** The percentage [check_cpu] computes for a field whose delta is [x]. *)
Definition cpu_percent (total x : Z) : Q :=
  (100 - 100 * (inject_Z (total - x) / inject_Z total))%Q.

(** ** Example hosts *)

Definition nl : string := String "010"%char "".

(** A text file from its lines. *)
Definition text (lines : list string) : string :=
  foldr (fun l acc => l +:+ nl +:+ acc) "" lines.

(** Two readings of [/proc/stat]: user 100 to 150, system 50 to 70, idle 850
    to 870, ten forks in between. *)
Definition stat_before : string :=
  text ["cpu  100 0 50 850 0 0 0 0 0 0"; "cpu0 100 0 50 850 0 0 0 0 0 0";
        "processes 1000"].

Definition stat_after : string :=
  text ["cpu  150 0 70 870 0 0 0 0 0 0"; "cpu0 150 0 70 870 0 0 0 0 0 0";
        "processes 1010"].

Definition loadavg_text : string := text ["0.50 1.25 2.00 3/456 7890"].

Definition file_nr_text : string := text ["1024 0 9223372036854775807"].

Definition diskstats_before : string :=
  text ["   8       0 sda 100 5 2000 30 400 6 8000 70 0 1 2";
        "   8       1 sda1 1 1 1 1 1 1 1 1 1 1 1"].

Definition diskstats_after : string :=
  text ["   8       0 sda 110 5 2200 35 440 6 8800 77 0 1 2";
        "   8       1 sda1 1 1 1 1 1 1 1 1 1 1 1"].

Definition meminfo_text : string :=
  text ["MemTotal:       16384000 kB"; "MemFree:         4096000 kB";
        "MemAvailable:    8000000 kB"; "Buffers:          512000 kB";
        "Cached:          2048000 kB"; "SwapCached:            0 kB";
        "Active:          5000000 kB"; "Active(anon):       1000 kB";
        "SwapTotal:       2048000 kB"; "SwapFree:        1024000 kB"].

Definition meminfo_no_swap : string :=
  text ["MemTotal:       16384000 kB"; "MemFree:         4096000 kB";
        "Buffers:          512000 kB"; "Cached:          2048000 kB";
        "SwapCached:            0 kB"; "Active:          5000000 kB";
        "SwapTotal:             0 kB"; "SwapFree:              0 kB"].

(** [eth0] received and sent 20 MiB and 300 packets, with 10 receive errors. *)
Definition net_before : string :=
  text ["Inter-|   Receive                |  Transmit";
        " face |bytes packets errs drop fifo frame compressed multicast|bytes packets errs drop fifo colls carrier compressed";
        "    lo: 100 1 0 0 0 0 0 0 100 1 0 0 0 0 0 0";
        "  eth0: 20971520 300 10 0 0 0 0 0 20971520 300 0 0 0 0 0 0"].

(** [eth0] after the counters started again from zero. *)
Definition net_restarted : string :=
  text ["Inter-|   Receive                |  Transmit";
        " face |bytes packets errs drop fifo frame compressed multicast|bytes packets errs drop fifo colls carrier compressed";
        "    lo: 100 1 0 0 0 0 0 0 100 1 0 0 0 0 0 0";
        "  eth0: 10485760 100 0 0 0 0 0 0 10485760 100 0 0 0 0 0 0"].

(** [eth0] ten seconds after [net_before]: 10 MiB more each way and two
    more dropped packets. *)
Definition net_after : string :=
  text ["Inter-|   Receive                |  Transmit";
        " face |bytes packets errs drop fifo frame compressed multicast|bytes packets errs drop fifo colls carrier compressed";
        "    lo: 100 1 0 0 0 0 0 0 100 1 0 0 0 0 0 0";
        "  eth0: 31457280 1300 10 2 0 0 0 0 31457280 1300 0 0 0 0 0 0"].

(** Six processes; the [stat] file of process 18 vanished before it was read. *)
Definition proc_listing : list (string * option string) :=
  [("1", Some "1 (systemd) S 0 1 1"); ("self", None); ("cpuinfo", None);
   ("2", Some "2 (kthreadd) S 0 0 0"); ("17", Some "17 (python3) R 1 17 17");
   ("18", None); ("19", Some "19 (kworker) D 2 0 0");
   ("20", Some "20 (sh) Z 1 20 20")].

Definition only_root_mounted (path : string) : option statvfs :=
  if decide (path = "/") then Some (Statvfs 4096 26214400 6000000 5242880) else None.

(** A host at time [t] with the snapshot directory [snapshots]. *)
Definition host_at (t : Q) (stat diskstats net_dev : string) (snapshots : gmap string file)
  : host :=
  Host t stat loadavg_text file_nr_text diskstats meminfo_text net_dev proc_listing
       (fun path => path) only_root_mounted snapshots.

(** No probe has run yet. *)
Definition fresh_host : host := host_at 100 stat_before diskstats_before net_before ∅.

(** The delta probes ran at time 100; it is now time 110. *)
Definition snapshots_at_100 : gmap string file :=
  <[interim_path "proc_net_dev_eth0" := File net_before 100]>
  (<[interim_path "proc_diskstats_sda" := File diskstats_before 100]>
  (<[interim_path "proc_stat_processes" := File stat_before 100]>
  (<[interim_path "proc_stat" := File stat_before 100]> ∅))).

Definition later_host : host :=
  host_at 110 stat_after diskstats_after net_after snapshots_at_100.

(** A second invocation within the same instant: nothing has moved since the
    snapshots were written. *)
Definition same_instant : host :=
  host_at 100 stat_before diskstats_before net_before snapshots_at_100.

(** The wall clock was set back by twelve seconds after the snapshots were
    written. *)
Definition clock_set_back : host :=
  host_at 98 stat_after diskstats_after net_after snapshots_at_100.

(** The machine restarted: the interface counters are below the snapshot. *)
Definition restarted_host : host :=
  host_at 110 stat_after diskstats_after net_restarted snapshots_at_100.

(** A machine without swap. *)
Definition swapless_host : host :=
  Host 100 stat_before loadavg_text file_nr_text diskstats_before meminfo_no_swap
       net_before proc_listing (fun path => path) only_root_mounted ∅.

(** The counter deltas of [eth0] between [net_before] and [net_after]. *)
Definition eth0_deltas : gmap string Z :=
  list_to_map (zip net_fields
                   [10485760; 1000; 0; 2; 0; 0; 0; 0; 10485760; 1000; 0; 0; 0; 0; 0; 0]).

(** The dict [p] of a host with six processes, one of them running. *)
Definition six_processes : procs := Procs 6 1 1 2 1 1 0.

(** The tick deltas between [stat_before] and [stat_after]. *)
Definition spec_deltas : list Z := [50; 0; 20; 20; 0; 0; 0; 0; 0; 0].

(** The tick fields of the first line of [stat_before] and of [stat_after]. *)
Definition spec_ticks_before : list Z := [100; 0; 50; 850; 0; 0; 0; 0; 0; 0].

Definition spec_ticks_after : list Z := [150; 0; 70; 870; 0; 0; 0; 0; 0; 0].

(** ** Vocabulary of the further properties *)

(** The ten commands of the script. *)
Definition commands : list string :=
  ["cpu"; "procs"; "load"; "threads"; "files"; "diskio"; "disku"; "memory"; "swap"; "network"].

(** The exit discipline of a monitoring plugin: 0, 1 or 2, or 3 after a
    [Plugin Error: ] line. *)
Definition disciplined (r : result) : Prop :=
  match outcome_of r with
  | Exited code line =>
      0 <= code <= 2 \/ (code = 3 /\ Str.startswith "Plugin Error: " line = true)
  | Uncaught _ => True
  | Fallthrough => True
  end.

Definition code_in_range (body : res (Z * string * string)) : Prop :=
  match body with
  | Ok (status_code, _, _) => 0 <= status_code <= 2
  | Raise _ => True
  end.

(** The invocation reported a measurement or a first run: it printed a line
    and exited with 0, 1 or 2. *)
Definition completed (o : outcome) : Prop :=
  match o with
  | Exited code _ => 0 <= code <= 2
  | Uncaught _ => False
  | Fallthrough => False
  end.

(** The snapshot directory after [r]: [path] holds the text [src], written
    now, when the invocation completed; nothing has changed when it did
    not. *)
Definition refreshes (w : host) (path src : string) (r : result) : Prop :=
  (completed (outcome_of r) -> files_of r = <[path := File src (now w)]> (interim w))
  /\ (~ completed (outcome_of r) -> files_of r = interim w).

(** The same host with another snapshot directory. *)
Definition with_interim (files : gmap string file) (w : host) : host :=
  Host (now w) (proc_stat w) (proc_loadavg w) (proc_file_nr w) (proc_diskstats w)
       (proc_meminfo w) (proc_net_dev w) (proc_dir w) (realpath w) (mount w) files.

(** ** Further example hosts *)

(** A reading of [/proc/net/dev] with a wireless interface and no [eth0]. *)
Definition net_with_wlan0 : string :=
  text ["Inter-|   Receive                |  Transmit";
        " face |bytes packets errs drop fifo frame compressed multicast|bytes packets errs drop fifo colls carrier compressed";
        "    lo: 100 1 0 0 0 0 0 0 100 1 0 0 0 0 0 0";
        " wlan0: 1000 10 0 0 0 0 0 0 2000 20 0 0 0 0 0 0"].

(** The first run for [wlan0] took its snapshot on a machine that has no
    such interface. *)
Definition wlan0_absent : host :=
  host_at 110 stat_after diskstats_after net_after
    (<[interim_path "proc_net_dev_wlan0" := File net_before 100]> ∅).

(** The snapshot for [wlan0] was taken while the interface was up; it is
    gone now. *)
Definition wlan0_gone : host :=
  host_at 110 stat_after diskstats_after net_after
    (<[interim_path "proc_net_dev_wlan0" := File net_with_wlan0 100]> ∅).

(** ** Process states *)

(** The state of a process as [check_procs] reads it: the third field of the
    [stat] line, cut at white space. *)
Definition state_of (line : string) : option string := Str.words line !! 2%nat.

(** The processes of the listing that were read and whose state is selected
    by [sel]. *)
Fixpoint in_state (sel : string -> bool) (entries : list (string * option string)) : Z :=
  match entries with
  | [] => 0
  | (name, r) :: rest =>
      (if Str.isdigit name
       then match r ≫= state_of with
            | Some state => if sel state then 1 else 0
            | None => 0
            end
       else 0)
      + in_state sel rest
  end.

(** The names [states_procs] holds under the keys selected by [sel]. *)
Definition state_names (sel : string -> bool) (d : states) : Z :=
  foldr (fun e acc => (if sel e.1 then Z.of_nat (length e.2) else 0) + acc) 0 d.

Definition is_state (k state : string) : bool := bool_decide (state = k).

(** A state that is none of [R], [S], [D], [Z]. *)
Definition other_state (state : string) : bool :=
  negb (is_state "R" state || is_state "S" state || is_state "D" state || is_state "Z" state).

(** A listing with a process whose name contains a space. *)
Definition listing_with_space : list (string * option string) :=
  [("1", Some "1 (systemd) S 0 1 1"); ("7", Some "7 (Web Content) S 1 7 7")].

(** The sum of a list of floats. *)
Definition sum_Q (l : list Q) : Q := foldr Qplus 0%Q l.

(** A pseudo file system: the kernel reports no blocks for it. *)
Definition proc_mounted (path : string) : option statvfs :=
  if decide (path = "/proc") then Some (Statvfs 4096 0 0 0) else None.

Definition host_with_proc_mount : host :=
  Host 100 stat_before loadavg_text file_nr_text diskstats_before meminfo_text
       net_before proc_listing (fun path => path) proc_mounted ∅.

(** ** Hard errors *)

(** What a hard-error counter went up by. *)
Definition increase (int_d : gmap string Z) (x : string) : Z :=
  Z.max 0 (default 0 (int_d !! x)).

(** The sum of the increases over [fields]. *)
Definition increases (int_d : gmap string Z) (fields : list string) : Z :=
  foldr (fun x acc => increase int_d x + acc) 0 fields.

(** * Properties *)

Local Open Scope Z_scope.

(** ** Tactics and arithmetic of the model *)

Ltac res_simpl := cbn [mbind res_bind mret res_ret].

Lemma div_by_zero a b : (b == 0)%Q -> Float.div a b = Raise ZeroDivisionError.
Proof.
  intros H. unfold Float.div.
  by rewrite (proj2 (Qeq_bool_iff b 0) H).
Qed.

Lemma div_nonzero a b : ~ (b == 0)%Q -> Float.div a b = Ok (a / b)%Q.
Proof.
  intros H. unfold Float.div.
  destruct (Qeq_bool b 0) eqn:E; [|done].
  by apply Qeq_bool_iff in E.
Qed.

(** ** No swap *)

Lemma swap_body_no_swap content swap warn crit :
  meminfo_scan swap_table content = Ok swap ->
  (swap !! "total") = Some 0 ->
  swap_body content warn crit = Ok (0, "No swap space configured on this system", "").
Proof.
  intros Hscan Htotal. unfold swap_body. rewrite Hscan. res_simpl.
  unfold getitem. rewrite Htotal. res_simpl. done.
Qed.

(** ** Division by a zero total or a zero period *)

Lemma cpu_percents_zero_total deltas :
  deltas ≠ [] -> sum_Z deltas = 0 -> cpu_percents deltas = Raise ZeroDivisionError.
Proof.
  intros Hne Hsum. unfold cpu_percents. rewrite Hsum.
  destruct deltas as [|x deltas]; [done|].
  cbn [res_map]. rewrite div_by_zero; [done|]. reflexivity.
Qed.

Lemma check_cpu_zero_total w snap deltas warn crit :
  (interim w !! interim_path "proc_stat") = Some snap ->
  cpu_deltas (Str.readline (f_content snap)) (Str.readline (proc_stat w)) = Ok deltas ->
  deltas ≠ [] ->
  sum_Z deltas = 0 ->
  check_cpu w warn crit = Result (Uncaught ZeroDivisionError) (interim w).
Proof.
  intros Hsnap Hd Hne Hsum. unfold check_cpu. rewrite Hsnap.
  unfold cpu_body. rewrite Hd. res_simpl.
  by rewrite (cpu_percents_zero_total _ Hne Hsum).
Qed.

Lemma check_procs_zero_period w snap forks warn crit :
  (interim w !! interim_path "proc_stat_processes") = Some snap ->
  procs_forks (proc_stat w) (f_content snap) = Ok forks ->
  (now w == f_mtime snap)%Q ->
  check_procs w warn crit = Result (Uncaught ZeroDivisionError) (interim w).
Proof.
  intros Hsnap Hf Ht. unfold check_procs. rewrite Hsnap.
  unfold procs_body. rewrite Hf. res_simpl.
  rewrite div_by_zero; [done|]. rewrite Ht. ring.
Qed.

Lemma idx_lookup {A} (l : list A) i x : (l !! i) = Some x -> idx l i = Ok x.
Proof. intros H. unfold idx. by rewrite H. Qed.

Lemma getitem_lookup {A} (d : gmap string A) k x : (d !! k) = Some x -> getitem d k = Ok x.
Proof. intros H. unfold getitem. by rewrite H. Qed.

Lemma period_zero (t m : Q) : (t == m)%Q -> (t - m == 0)%Q.
Proof. intros H. rewrite H. ring. Qed.

Lemma diskio_rate_zero_period proc_line interim_line sample_period i a va b vb :
  (proc_line !! i) = Some a -> Num.py_int a = Ok va ->
  (interim_line !! i) = Some b -> Num.py_int b = Ok vb ->
  (sample_period == 0)%Q ->
  diskio_rate proc_line (Some interim_line) sample_period i = Raise ZeroDivisionError.
Proof.
  intros Ha Hva Hb Hvb Hz. unfold diskio_rate.
  rewrite (idx_lookup _ _ _ Ha). res_simpl. rewrite Hva. res_simpl.
  cbn [from_option]. res_simpl.
  rewrite (idx_lookup _ _ _ Hb). res_simpl. rewrite Hvb. res_simpl.
  by apply div_by_zero.
Qed.

Lemma check_diskio_zero_period w dev device proc_line snap interim_line a va b vb warn crit :
  diskio_device w dev = Some device ->
  find_device (device +:+ " ") (Str.splitlines (proc_diskstats w)) = Ok (Some proc_line) ->
  (interim w !! interim_path ("proc_diskstats_" +:+ Str.replace "/" "_" device)) = Some snap ->
  find_device (device +:+ " ") (Str.splitlines (f_content snap)) = Ok (Some interim_line) ->
  (proc_line !! 0%nat) = Some a -> Num.py_int a = Ok va ->
  (interim_line !! 0%nat) = Some b -> Num.py_int b = Ok vb ->
  (now w == f_mtime snap)%Q ->
  check_diskio w dev warn crit = Result (Uncaught ZeroDivisionError) (interim w).
Proof.
  intros Hd Hf Hsnap Hi Ha Hva Hb Hvb Ht.
  unfold check_diskio. rewrite Hd, Hf, Hsnap, Hi. res_simpl.
  unfold diskio_body.
  by rewrite (diskio_rate_zero_period _ _ _ _ _ _ _ _ Ha Hva Hb Hvb (period_zero _ _ Ht)).
Qed.

Lemma check_net_zero_period w interface snap int_t int_d r_bytes warn crit :
  (interim w !! interim_path ("proc_net_dev_" +:+ interface)) = Some snap ->
  net_read interface (proc_net_dev w) (f_content snap) = Ok (int_t, int_d) ->
  int_t ≠ ∅ ->
  (int_d !! "r_bytes") = Some r_bytes ->
  (now w == f_mtime snap)%Q ->
  check_net w interface warn crit = Result (Uncaught ZeroDivisionError) (interim w).
Proof.
  intros Hsnap Hr Ht Hb Hz.
  unfold check_net. rewrite Hsnap, Hr.
  destruct (decide (int_t = ∅ \/ int_d = ∅)) as [[?|Hd]|_]; [done| |].
  - rewrite Hd in Hb. by rewrite lookup_empty in Hb.
  - unfold net_body. rewrite (getitem_lookup _ _ _ Hb). res_simpl.
    by rewrite (div_by_zero _ _ (period_zero _ _ Hz)).
Qed.

Lemma procs_perfdata_no_thresholds p :
  exists perfdata, procs_perfdata p None None = Ok perfdata.
Proof. eexists. cbv -[Float.fmt2f String.append inject_Z]. reflexivity. Qed.

(** With no thresholds and any elapsed time other than zero, a negative one
    included, [check_procs] reports the rate [forks / elapsed] and exits 0. *)
Lemma check_procs_nonzero_period w snap forks total states_procs :
  (interim w !! interim_path "proc_stat_processes") = Some snap ->
  procs_forks (proc_stat w) (f_content snap) = Ok forks ->
  procs_scan (proc_dir w) = Ok (total, states_procs) ->
  ~ (now w == f_mtime snap)%Q ->
  let p := procs_tally total (inject_Z forks / (now w - f_mtime snap))%Q states_procs in
  exists perfdata,
    check_procs w None None
    = Result (Exited 0 (procs_status_line p +:+ " | " +:+ perfdata))
        (copyfile w (proc_stat w) (interim_path "proc_stat_processes")).
Proof.
  intros Hsnap Hf Hscan Ht p.
  destruct (procs_perfdata_no_thresholds p) as [perfdata Hp].
  exists (Str.strip perfdata).
  unfold check_procs. rewrite Hsnap.
  unfold procs_body. rewrite Hf. res_simpl.
  rewrite div_nonzero.
  2:{ intros H. apply Ht. rewrite <- (Qplus_0_l (f_mtime snap)), <- H. ring. }
  res_simpl. rewrite Hscan. res_simpl. fold p.
  cbn [procs_status]. res_simpl. rewrite Hp. res_simpl. reflexivity.
Qed.

(** ** The clock and check_cpu *)

Lemma scalar_status_code value warn crit outp outp' :
  (scalar_status value warn crit outp ≫= λ r, Ok r.1)
  = (scalar_status value warn crit outp' ≫= λ r, Ok r.1).
Proof.
  unfold scalar_status.
  destruct warn as [wn|], crit as [cr|]; try reflexivity.
  destruct (Num.py_float cr) as [c|e]; res_simpl; [|reflexivity].
  destruct (Float.ge value c); [reflexivity|].
  destruct (Num.py_float wn) as [wv|e]; res_simpl; [|reflexivity].
  destruct (Float.ge value wv); reflexivity.
Qed.

Lemma cpu_body_code_period sp sp' line1 line2 warn crit :
  body_code (cpu_body sp line1 line2 warn crit)
  = body_code (cpu_body sp' line1 line2 warn crit).
Proof.
  unfold body_code, cpu_body.
  destruct (cpu_deltas line1 line2) as [deltas|e]; res_simpl; [|reflexivity].
  destruct (cpu_percents deltas) as [percents|e]; res_simpl; [|reflexivity].
  destruct (cpu_pcts percents) as [pcts|e]; res_simpl; [|reflexivity].
  destruct (getitem pcts "cpu") as [cpu|e]; res_simpl; [|reflexivity].
  pose proof (scalar_status_code cpu warn crit
    ("CPU Usage: " +:+ Float.fmt2f cpu +:+ "% [t:" +:+ Float.fmt2f sp +:+ "]")
    ("CPU Usage: " +:+ Float.fmt2f cpu +:+ "% [t:" +:+ Float.fmt2f sp' +:+ "]")) as H.
  destruct (scalar_status cpu warn crit
    ("CPU Usage: " +:+ Float.fmt2f cpu +:+ "% [t:" +:+ Float.fmt2f sp +:+ "]")) as [[c1 o1]|e1],
    (scalar_status cpu warn crit
    ("CPU Usage: " +:+ Float.fmt2f cpu +:+ "% [t:" +:+ Float.fmt2f sp' +:+ "]")) as [[c2 o2]|e2];
    cbn in H; try discriminate; res_simpl.
  - injection H as ->.
    destruct (cpu_perfdata pcts warn crit); reflexivity.
  - by injection H as ->.
Qed.

Lemma finish_exit_status w save body :
  exit_status (outcome_of (finish w save body))
  = match body_code body with Ok code => code | Raise _ => 1 end.
Proof. destruct body as [[[code outp] perf]|e]; reflexivity. Qed.

(** [check_cpu] never divides by the elapsed time: its exit status is the
    same at every reading of the clock. *)
Lemma check_cpu_clock_irrelevant w t warn crit :
  exit_status (outcome_of (check_cpu (at_time t w) warn crit))
  = exit_status (outcome_of (check_cpu w warn crit)).
Proof.
  unfold check_cpu. cbn [interim at_time proc_stat now].
  destruct (interim w !! interim_path "proc_stat") as [snap|]; [|reflexivity].
  rewrite !finish_exit_status.
  by rewrite (cpu_body_code_period _ (now w - f_mtime snap)%Q).
Qed.

(** ** The first run *)

Section FirstRun.
Variable w : host.

Lemma first_run_creates src path msg :
  (interim w !! path) = None ->
  creates_one_snapshot w path src (first_run w src path msg).
Proof.
  intros Hnone. unfold creates_one_snapshot, first_run, copyfile. simpl.
  repeat split.
  - by apply not_elem_of_dom.
  - apply dom_insert_L.
  - apply lookup_insert_eq.
  - intros p Hp. by apply lookup_insert_ne.
Qed.

Lemma check_cpu_first_run warn crit :
  (interim w !! interim_path "proc_stat") = None ->
  check_cpu w warn crit = first_run w (proc_stat w) (interim_path "proc_stat") first_run_msg.
Proof. intros H. unfold check_cpu. by rewrite H. Qed.

Lemma check_procs_first_run warn crit :
  (interim w !! interim_path "proc_stat_processes") = None ->
  check_procs w warn crit
  = first_run w (proc_stat w) (interim_path "proc_stat_processes") first_run_msg.
Proof. intros H. unfold check_procs. by rewrite H. Qed.

Lemma check_net_first_run interface warn crit :
  (interim w !! interim_path ("proc_net_dev_" +:+ interface)) = None ->
  check_net w interface warn crit
  = first_run w (proc_net_dev w) (interim_path ("proc_net_dev_" +:+ interface))
      (first_run_msg +:+ ": net:" +:+ interface).
Proof. intros H. unfold check_net. by rewrite H. Qed.

Lemma check_diskio_first_run dev device proc_line warn crit :
  diskio_device w dev = Some device ->
  find_device (device +:+ " ") (Str.splitlines (proc_diskstats w)) = Ok (Some proc_line) ->
  (interim w !! interim_path ("proc_diskstats_" +:+ Str.replace "/" "_" device)) = None ->
  check_diskio w dev warn crit
  = first_run w (proc_diskstats w)
      (interim_path ("proc_diskstats_" +:+ Str.replace "/" "_" device))
      (first_run_msg +:+ ": diskio(" +:+ device +:+ ")").
Proof. intros Hd Hf H. unfold check_diskio. by rewrite Hd, Hf, H. Qed.
End FirstRun.
(** ** Comparisons *)

Lemma ge_true a b : (b <= a)%Q -> Float.ge a b = true.
Proof. intros H. unfold Float.ge. by apply Qle_bool_iff. Qed.

Lemma ge_false a b : (a < b)%Q -> Float.ge a b = false.
Proof.
  intros H. unfold Float.ge. destruct (Qle_bool b a) eqn:E; [|done].
  apply Qle_bool_iff in E. exfalso. by apply (Qlt_not_le a b).
Qed.

Lemma gt_true a b : (b < a)%Q -> Float.gt a b = true.
Proof.
  intros H. unfold Float.gt. destruct (Qle_bool a b) eqn:E; [|done].
  apply Qle_bool_iff in E. exfalso. by apply (Qlt_not_le b a).
Qed.

Lemma gt_false a b : (a <= b)%Q -> Float.gt a b = false.
Proof. intros H. unfold Float.gt. by rewrite (proj2 (Qle_bool_iff a b) H). Qed.

(** ** Validation of the command line *)

Lemma scalar_accepts_false warn crit wv c :
  Num.py_float crit = Ok c -> Num.py_float warn = Ok wv -> (c <= wv)%Q ->
  scalar_accepts warn crit = Ok false.
Proof.
  intros Hc Hw Hle. unfold scalar_accepts. rewrite Hc. res_simpl. rewrite Hw. res_simpl.
  by rewrite gt_false.
Qed.

Lemma scalar_accepts_raise warn crit :
  Num.py_float crit = Raise ValueError
  \/ ((exists c, Num.py_float crit = Ok c) /\ Num.py_float warn = Raise ValueError) ->
  scalar_accepts warn crit = Raise ValueError.
Proof.
  unfold scalar_accepts. intros [Hc|[[c Hc] Hw]]; rewrite Hc; res_simpl; [done|].
  by rewrite Hw.
Qed.

Lemma any_gt_ordered pairs :
  Forall ordered_pair pairs -> any_gt pairs = Ok false.
Proof.
  induction 1 as [|[wi ci] pairs (wv & c & Hw & Hc & Hle) _ IH]; [done|].
  cbn [any_gt]. cbn in Hw, Hc. rewrite Hw. res_simpl. rewrite Hc. res_simpl.
  by rewrite gt_false.
Qed.

Lemma any_gt_violation pre wi ci post wv c :
  Forall ordered_pair pre ->
  Num.py_float wi = Ok wv -> Num.py_float ci = Ok c -> (c < wv)%Q ->
  any_gt (pre ++ (wi, ci) :: post) = Ok true.
Proof.
  intros Hpre Hw Hc Hlt.
  induction Hpre as [|[wj cj] pre (wv' & c' & Hw' & Hc' & Hle) _ IH].
  - cbn [app any_gt]. rewrite Hw. res_simpl. rewrite Hc. res_simpl.
    by rewrite gt_true.
  - cbn [app any_gt]. cbn in Hw', Hc'. rewrite Hw'. res_simpl. rewrite Hc'. res_simpl.
    by rewrite gt_false.
Qed.

Lemma any_gt_value_error pre wi ci post :
  Forall ordered_pair pre ->
  Num.py_float wi = Raise ValueError
  \/ ((exists wv, Num.py_float wi = Ok wv) /\ Num.py_float ci = Raise ValueError) ->
  any_gt (pre ++ (wi, ci) :: post) = Raise ValueError.
Proof.
  intros Hpre Hbad.
  induction Hpre as [|[wj cj] pre (wv' & c' & Hw' & Hc' & Hle) _ IH].
  - cbn [app any_gt]. destruct Hbad as [Hw|[[wv Hw] Hc]]; rewrite Hw; res_simpl; [done|].
    by rewrite Hc.
  - cbn [app any_gt]. cbn in Hw', Hc'. rewrite Hw'. res_simpl. rewrite Hc'. res_simpl.
    by rewrite gt_false.
Qed.

Lemma main_scalar w prog command pre warn crit :
  takes_scalar command pre ->
  exists probe,
    main w (prog :: command :: pre ++ [warn; crit])
    = scalar_command w command (prog :: command :: pre ++ [warn; crit]) probe [warn; crit].
Proof.
  intros [[Hin ->]|[-> [m ->]]].
  - repeat (apply elem_of_cons in Hin as [->|Hin]); try (by apply elem_of_nil in Hin);
      eexists; reflexivity.
  - eexists; reflexivity.
Qed.

Lemma main_tuple w prog command pre warn crit :
  takes_tuple command pre ->
  exists probe,
    main w (prog :: command :: pre ++ [warn; crit])
    = tuple_command w command (prog :: command :: pre ++ [warn; crit]) probe [warn; crit].
Proof.
  intros [[Hin ->]|[Hin [m ->]]];
    repeat (apply elem_of_cons in Hin as [->|Hin]); try (by apply elem_of_nil in Hin);
      eexists; reflexivity.
Qed.

Section Validation.
Variables (w : host) (prog command : string) (pre : list string) (warn crit : string).

Lemma main_scalar_rejects wv c :
  takes_scalar command pre ->
  Num.py_float crit = Ok c -> Num.py_float warn = Ok wv -> (c <= wv)%Q ->
  main w (prog :: command :: pre ++ [warn; crit]) = invalid_arguments w command (prog :: command :: pre ++ [warn; crit]).
Proof.
  intros Hs Hc Hw Hle. destruct (main_scalar w prog command pre warn crit Hs) as [probe ->].
  unfold scalar_command. by rewrite (scalar_accepts_false _ _ _ _ Hc Hw Hle).
Qed.

Lemma main_scalar_value_error :
  takes_scalar command pre ->
  Num.py_float crit = Raise ValueError
  \/ ((exists c, Num.py_float crit = Ok c) /\ Num.py_float warn = Raise ValueError) ->
  main w (prog :: command :: pre ++ [warn; crit]) = Result (Uncaught ValueError) (interim w).
Proof.
  intros Hs Hbad. destruct (main_scalar w prog command pre warn crit Hs) as [probe ->].
  unfold scalar_command. by rewrite (scalar_accepts_raise _ _ Hbad).
Qed.

Lemma main_tuple_rejects :
  takes_tuple command pre ->
  tuple_rejects (Str.split "," warn) (Str.split "," crit) = Ok true ->
  main w (prog :: command :: pre ++ [warn; crit]) = invalid_arguments w command (prog :: command :: pre ++ [warn; crit]).
Proof.
  intros Hs Hr. destruct (main_tuple w prog command pre warn crit Hs) as [probe ->].
  unfold tuple_command. by rewrite Hr.
Qed.

Lemma main_tuple_value_error :
  takes_tuple command pre ->
  tuple_rejects (Str.split "," warn) (Str.split "," crit) = Raise ValueError ->
  main w (prog :: command :: pre ++ [warn; crit]) = Result (Uncaught ValueError) (interim w).
Proof.
  intros Hs Hr. destruct (main_tuple w prog command pre warn crit Hs) as [probe ->].
  unfold tuple_command. by rewrite Hr.
Qed.
End Validation.

Lemma tuple_rejects_length warn_arr crit_arr :
  length warn_arr ≠ length crit_arr -> tuple_rejects warn_arr crit_arr = Ok true.
Proof. intros H. unfold tuple_rejects. by rewrite decide_True. Qed.

Lemma tuple_rejects_violation warn_arr crit_arr pre wi ci post wv c :
  length warn_arr = length crit_arr ->
  zip warn_arr crit_arr = pre ++ (wi, ci) :: post ->
  Forall ordered_pair pre ->
  Num.py_float wi = Ok wv -> Num.py_float ci = Ok c -> (c < wv)%Q ->
  tuple_rejects warn_arr crit_arr = Ok true.
Proof.
  intros Hlen Hzip Hpre Hw Hc Hlt. unfold tuple_rejects.
  rewrite decide_False by (by intros ?). rewrite Hzip.
  by eapply any_gt_violation.
Qed.

Lemma tuple_rejects_value_error warn_arr crit_arr pre wi ci post :
  length warn_arr = length crit_arr ->
  zip warn_arr crit_arr = pre ++ (wi, ci) :: post ->
  Forall ordered_pair pre ->
  Num.py_float wi = Raise ValueError
  \/ ((exists wv, Num.py_float wi = Ok wv) /\ Num.py_float ci = Raise ValueError) ->
  tuple_rejects warn_arr crit_arr = Raise ValueError.
Proof.
  intros Hlen Hzip Hpre Hbad. unfold tuple_rejects.
  rewrite decide_False by (by intros ?). rewrite Hzip.
  by eapply any_gt_value_error.
Qed.

(** ** Inclusive comparison, probe by probe *)

Section Inclusive.
Variables (warn crit : string) (wv c : Q).
Hypothesis Hwarn : Num.py_float warn = Ok wv.
Hypothesis Hcrit : Num.py_float crit = Ok c.

Lemma scalar_status_at_crit value outp :
  (value == c)%Q ->
  scalar_status value (Some warn) (Some crit) outp = Ok (2, outp +:+ " (Critical)").
Proof.
  intros Hv. unfold scalar_status. rewrite Hcrit. res_simpl.
  rewrite ge_true; [done|]. rewrite Hv. apply Qle_refl.
Qed.

Lemma scalar_status_at_warn value outp :
  (value == wv)%Q -> (value < c)%Q ->
  scalar_status value (Some warn) (Some crit) outp = Ok (1, outp +:+ " (Warning)").
Proof.
  intros Hv Hlt. unfold scalar_status. rewrite Hcrit. res_simpl.
  rewrite ge_false by done. rewrite Hwarn. res_simpl.
  rewrite ge_true; [done|]. rewrite Hv. apply Qle_refl.
Qed.
End Inclusive.

Lemma threads_status_at_crit warn crit c running outp :
  Num.py_int crit = Ok c -> running = c ->
  threads_status running (Some warn) (Some crit) outp = Ok (2, outp +:+ " (Critical)").
Proof.
  intros Hc ->. unfold threads_status. rewrite Hc. res_simpl.
  by rewrite decide_True by lia.
Qed.

Lemma threads_status_at_warn warn crit wv c running outp :
  Num.py_int warn = Ok wv -> Num.py_int crit = Ok c -> running = wv -> running < c ->
  threads_status running (Some warn) (Some crit) outp = Ok (1, outp +:+ " (Warning)").
Proof.
  intros Hw Hc -> Hlt. unfold threads_status. rewrite Hc. res_simpl.
  rewrite decide_False by lia. rewrite Hw. res_simpl.
  by rewrite decide_True by lia.
Qed.

Lemma py_float_nonempty s q : Num.py_float s = Ok q -> s ≠ "".
Proof. intros H ->. discriminate H. Qed.

Section InclusiveTuple.
Variables (warn crit : list string) (i : nat) (wi ci : string) (wv c : Q).
Hypothesis Hwi : (warn !! i) = Some wi.
Hypothesis Hci : (crit !! i) = Some ci.
Hypothesis Hwarn : Num.py_float wi = Ok wv.
Hypothesis Hcrit : Num.py_float ci = Ok c.

Lemma load_step_at_crit load_avgs v status_code outp :
  (load_avgs !! i) = Some v -> (v == c)%Q ->
  load_step load_avgs warn crit (status_code, outp) i = Ok (2, outp +:+ " (Critical)").
Proof.
  intros Hv Heq. unfold load_step.
  rewrite (idx_lookup _ _ _ Hci). res_simpl.
  rewrite decide_False by (by eapply py_float_nonempty).
  rewrite (idx_lookup _ _ _ Hwi). res_simpl.
  rewrite decide_False by (by eapply py_float_nonempty).
  rewrite (idx_lookup _ _ _ Hv). res_simpl. rewrite Hcrit. res_simpl.
  rewrite ge_true; [done|]. rewrite Heq. apply Qle_refl.
Qed.

Lemma load_step_at_warn load_avgs v status_code outp :
  (load_avgs !! i) = Some v -> (v == wv)%Q -> (v < c)%Q ->
  load_step load_avgs warn crit (status_code, outp) i
  = Ok (Z.max 1 status_code, outp +:+ " (Warning)").
Proof.
  intros Hv Heq Hlt. unfold load_step.
  rewrite (idx_lookup _ _ _ Hci). res_simpl.
  rewrite decide_False by (by eapply py_float_nonempty).
  rewrite (idx_lookup _ _ _ Hwi). res_simpl.
  rewrite decide_False by (by eapply py_float_nonempty).
  rewrite (idx_lookup _ _ _ Hv). res_simpl. rewrite Hcrit. res_simpl.
  rewrite ge_false by done. rewrite Hwarn. res_simpl.
  rewrite ge_true by (rewrite Heq; apply Qle_refl).
  do 2 f_equal. case_decide; lia.
Qed.

Lemma procs_step_at_crit p name v status_code outp :
  (param !! i) = Some name -> procs_get p name = Ok v -> (v == c)%Q ->
  procs_step p warn crit (status_code, outp) i
  = Ok (2, outp +:+ " (Critical " +:+ name +:+ ")").
Proof.
  intros Hn Hv Heq. unfold procs_step.
  rewrite (idx_lookup _ _ _ Hci). res_simpl.
  rewrite decide_False by (by eapply py_float_nonempty).
  rewrite (idx_lookup _ _ _ Hwi). res_simpl.
  rewrite decide_False by (by eapply py_float_nonempty).
  rewrite (idx_lookup _ _ _ Hn). res_simpl. rewrite Hv. res_simpl.
  rewrite Hcrit. res_simpl.
  rewrite ge_true; [done|]. rewrite Heq. apply Qle_refl.
Qed.

Lemma procs_step_at_warn p name v status_code outp :
  (param !! i) = Some name -> procs_get p name = Ok v -> (v == wv)%Q -> (v < c)%Q ->
  procs_step p warn crit (status_code, outp) i
  = Ok (Z.max 1 status_code, outp +:+ " (Warning " +:+ name +:+ ")").
Proof.
  intros Hn Hv Heq Hlt. unfold procs_step.
  rewrite (idx_lookup _ _ _ Hci). res_simpl.
  rewrite decide_False by (by eapply py_float_nonempty).
  rewrite (idx_lookup _ _ _ Hwi). res_simpl.
  rewrite decide_False by (by eapply py_float_nonempty).
  rewrite (idx_lookup _ _ _ Hn). res_simpl. rewrite Hv. res_simpl.
  rewrite Hcrit. res_simpl.
  rewrite ge_false by done. rewrite Hwarn. res_simpl.
  rewrite ge_true by (rewrite Heq; apply Qle_refl).
  do 2 f_equal. case_decide; lia.
Qed.
End InclusiveTuple.

(** Two values against a pair of bounds. *)
Section InclusivePair.
Variables (bound : list string) (b0 b1 : string) (q0 q1 : Q).
Hypothesis H0 : (bound !! 0%nat) = Some b0.
Hypothesis H1 : (bound !! 1%nat) = Some b1.
Hypothesis Hq0 : Num.py_float b0 = Ok q0.
Hypothesis Hq1 : Num.py_float b1 = Ok q1.

Lemma pair_ge_value v0 v1 : pair_ge v0 v1 bound = Ok (Float.ge v0 q0 || Float.ge v1 q1).
Proof.
  unfold pair_ge. rewrite (idx_lookup _ _ _ H0). res_simpl. rewrite Hq0. res_simpl.
  destruct (Float.ge v0 q0); [done|].
  rewrite (idx_lookup _ _ _ H1). res_simpl. by rewrite Hq1.
Qed.
End InclusivePair.

Lemma pair_ge_parsed bound q0 q1 v0 v1 :
  bounds_parse bound q0 q1 -> pair_ge v0 v1 bound = Ok (Float.ge v0 q0 || Float.ge v1 q1).
Proof. intros (b0 & b1 & H0 & H1 & Hq0 & Hq1). by eapply pair_ge_value. Qed.

Section InclusivePairs.
Variables (warn crit : list string) (w0 w1 c0 c1 : Q).
Hypothesis Hwarn : bounds_parse warn w0 w1.
Hypothesis Hcrit : bounds_parse crit c0 c1.

Lemma at_bound_true v0 v1 q0 q1 :
  (v0 == q0)%Q \/ (v1 == q1)%Q -> Float.ge v0 q0 || Float.ge v1 q1 = true.
Proof.
  intros [H|H].
  - rewrite (ge_true v0 q0); [done|]. rewrite H. apply Qle_refl.
  - rewrite (ge_true v1 q1); [apply orb_true_r|]. rewrite H. apply Qle_refl.
Qed.

Lemma below_false v0 v1 q0 q1 :
  (v0 < q0)%Q -> (v1 < q1)%Q -> Float.ge v0 q0 || Float.ge v1 q1 = false.
Proof. intros H0 H1. by rewrite !ge_false. Qed.

Lemma diskio_status_at_crit rs ws outp :
  (rs == c0)%Q \/ (ws == c1)%Q ->
  diskio_status rs ws (Some warn) (Some crit) outp = Ok (2, outp +:+ " (Critical)").
Proof.
  intros H. unfold diskio_status. rewrite (pair_ge_parsed _ _ _ _ _ Hcrit). res_simpl.
  by rewrite at_bound_true.
Qed.

Lemma diskio_status_at_warn rs ws outp :
  (rs < c0)%Q -> (ws < c1)%Q -> (rs == w0)%Q \/ (ws == w1)%Q ->
  diskio_status rs ws (Some warn) (Some crit) outp = Ok (1, outp +:+ " (Warning)").
Proof.
  intros Hr Hw H. unfold diskio_status. rewrite (pair_ge_parsed _ _ _ _ _ Hcrit). res_simpl.
  rewrite below_false by done.
  rewrite (pair_ge_parsed _ _ _ _ _ Hwarn). res_simpl.
  by rewrite at_bound_true.
Qed.

Lemma net_status_at_crit rx tx status_code outp :
  (rx == c0)%Q \/ (tx == c1)%Q ->
  net_status rx tx (Some warn) (Some crit) (status_code, outp, 0)
  = Ok (2, outp +:+ " (Critical BW)").
Proof.
  intros H. unfold net_status. rewrite decide_True by done.
  rewrite (pair_ge_parsed _ _ _ _ _ Hcrit). res_simpl.
  by rewrite at_bound_true.
Qed.

Lemma net_status_at_warn rx tx status_code outp :
  (rx < c0)%Q -> (tx < c1)%Q -> (rx == w0)%Q \/ (tx == w1)%Q ->
  net_status rx tx (Some warn) (Some crit) (status_code, outp, 0)
  = Ok (Z.max 1 status_code, outp +:+ " (Warning BW)").
Proof.
  intros Hr Hw H. unfold net_status. rewrite decide_True by done.
  rewrite (pair_ge_parsed _ _ _ _ _ Hcrit). res_simpl.
  rewrite below_false by done.
  rewrite (pair_ge_parsed _ _ _ _ _ Hwarn). res_simpl.
  rewrite at_bound_true by done.
  do 2 f_equal. case_decide; lia.
Qed.
End InclusivePairs.

(** ** Strings and severities *)

Lemma app_nil_r (s : string) : s +:+ "" = s.
Proof.
  induction s as [|a s IH]; [done|].
  change (String a (s +:+ "") = String a s). by rewrite IH.
Qed.

Lemma app_assoc (s1 s2 s3 : string) : (s1 +:+ s2) +:+ s3 = s1 +:+ s2 +:+ s3.
Proof.
  induction s1 as [|a s1 IH]; [done|].
  change (String a ((s1 +:+ s2) +:+ s3) = String a (s1 +:+ s2 +:+ s3)). by rewrite IH.
Qed.

Lemma severity_range v wv c : 0 <= severity v wv c <= 2.
Proof. unfold severity. destruct (Float.ge v c), (Float.ge v wv); lia. Qed.

Lemma overall_range ev : 0 <= overall ev.
Proof. unfold overall. induction ev as [|[name sev] ev IH]; cbn; lia. Qed.

Lemma evaluated_cons_some name v wv c subs :
  evaluated ((name, v, Some (wv, c)) :: subs) = (name, severity v wv c) :: evaluated subs.
Proof. reflexivity. Qed.

Lemma evaluated_cons_none name v subs :
  evaluated ((name, v, None) :: subs) = evaluated subs.
Proof. reflexivity. Qed.

Lemma overall_cons e ev : overall (e :: ev) = Z.max e.2 (overall ev).
Proof. reflexivity. Qed.

Lemma annotations_cons ann e ev : annotations ann (e :: ev) = ann e +:+ annotations ann ev.
Proof. reflexivity. Qed.

(** ** The threshold loop computes the maximum severity *)

Section Aggregation.
Variable step : Z * string -> nat -> res (Z * string).
Variable ann : string * Z -> string.
Variable subs : list sub_metric.

Hypothesis step_evaluated : forall i name v wv c code outp,
  (subs !! i) = Some (name, v, Some (wv, c)) -> 0 <= code <= 2 ->
  step (code, outp) i
  = Ok (Z.max code (severity v wv c), outp +:+ ann (name, severity v wv c)).

Hypothesis step_skipped : forall i name v code outp,
  (subs !! i) = Some (name, v, None) -> step (code, outp) i = Ok (code, outp).

Lemma loop_from n : forall k code outp,
  (k + n)%nat = length subs -> 0 <= code <= 2 ->
  res_fold step (seq k n) (code, outp)
  = Ok (Z.max code (overall (evaluated (drop k subs))),
        outp +:+ annotations ann (evaluated (drop k subs))).
Proof.
  induction n as [|n IH]; intros k code outp Hlen Hcode.
  - rewrite drop_ge by lia. cbn. rewrite app_nil_r. do 2 f_equal. lia.
  - destruct (lookup_lt_is_Some_2 subs k) as [[[name v] b] Hsub]; [lia|].
    rewrite (drop_S _ _ _ Hsub). cbn [seq res_fold].
    destruct b as [[wv c]|].
    + rewrite (step_evaluated _ _ _ _ _ _ _ Hsub Hcode). res_simpl.
      pose proof (severity_range v wv c).
      rewrite IH by lia.
      rewrite evaluated_cons_some, overall_cons, annotations_cons, app_assoc.
      cbn [snd]. do 2 f_equal. lia.
    + rewrite (step_skipped _ _ _ _ _ Hsub). res_simpl.
      rewrite IH by lia. by rewrite evaluated_cons_none.
Qed.

Lemma loop_all outp :
  res_fold step (seq 0 (length subs)) (0, outp)
  = Ok (overall (evaluated subs), outp +:+ annotations ann (evaluated subs)).
Proof.
  rewrite loop_from by lia. rewrite drop_0. do 2 f_equal.
  pose proof (overall_range (evaluated subs)). lia.
Qed.
End Aggregation.

Lemma overall_upper ev e : e ∈ ev -> e.2 <= overall ev.
Proof.
  induction 1 as [e ev|e e' ev _ IH]; rewrite overall_cons; lia.
Qed.

Lemma overall_attained ev : overall ev = 0 \/ exists e, e ∈ ev /\ e.2 = overall ev.
Proof.
  induction ev as [|e ev IH]; [by left|].
  rewrite overall_cons.
  destruct (Z.max_spec e.2 (overall ev)) as [[_ ->]|[_ ->]].
  - destruct IH as [->|(e' & Hin & <-)]; [by left|].
    right. exists e'. split; [by apply list_elem_of_further|done].
  - right. exists e. split; [apply list_elem_of_here|done].
Qed.

Section ProcsLoop.
Variables (p : procs) (warn crit : list string) (subs : list sub_metric).
Hypothesis Hsubs : forall i name v b,
  (subs !! i) = Some (name, v, b) ->
  bounds_at warn crit i b /\ (param !! i) = Some name /\ procs_get p name = Ok v.

Lemma procs_step_evaluated i name v wv c code outp :
  (subs !! i) = Some (name, v, Some (wv, c)) -> 0 <= code <= 2 ->
  procs_step p warn crit (code, outp) i
  = Ok (Z.max code (severity v wv c), outp +:+ procs_annotation (name, severity v wv c)).
Proof.
  intros Hsub Hcode.
  destruct (Hsubs _ _ _ _ Hsub) as ((wi & ci & Hwi & Hci & Hw & Hc) & Hname & Hv).
  unfold procs_step.
  rewrite (idx_lookup _ _ _ Hci). res_simpl.
  rewrite decide_False by (by eapply py_float_nonempty).
  rewrite (idx_lookup _ _ _ Hwi). res_simpl.
  rewrite decide_False by (by eapply py_float_nonempty).
  rewrite (idx_lookup _ _ _ Hname). res_simpl. rewrite Hv. res_simpl.
  rewrite Hc. res_simpl. unfold severity, procs_annotation.
  destruct (Float.ge v c); cbn [fst snd].
  { rewrite decide_True by done. do 2 f_equal. lia. }
  rewrite Hw. res_simpl.
  destruct (Float.ge v wv); cbn [fst snd].
  - rewrite (decide_False (P := 1 = 2)) by done. rewrite (decide_True (P := 1 = 1)) by done.
    do 2 f_equal. case_decide; lia.
  - rewrite (decide_False (P := 0 = 2)) by done. rewrite (decide_False (P := 0 = 1)) by done.
    do 2 f_equal. lia.
Qed.

Lemma procs_step_skipped i name v code outp :
  (subs !! i) = Some (name, v, None) ->
  procs_step p warn crit (code, outp) i = Ok (code, outp).
Proof.
  intros Hsub.
  destruct (Hsubs _ _ _ _ Hsub) as ((wi & ci & Hwi & Hci & Hskip) & _).
  unfold procs_step. rewrite (idx_lookup _ _ _ Hci). res_simpl.
  destruct (decide (ci = "")) as [|Hne]; [done|].
  rewrite (idx_lookup _ _ _ Hwi). res_simpl.
  destruct Hskip as [? | ->]; [done|]. by rewrite decide_True.
Qed.

Lemma procs_status_overall outp :
  length subs = length warn ->
  procs_status p (Some warn) (Some crit) outp
  = Ok (overall (evaluated subs),
        outp +:+ annotations procs_annotation (evaluated subs)).
Proof.
  intros Hlen. unfold procs_status. rewrite <- Hlen.
  apply loop_all.
  - apply procs_step_evaluated.
  - apply procs_step_skipped.
Qed.
End ProcsLoop.

Section LoadLoop.
Variables (load_avgs : list Q) (warn crit : list string) (subs : list sub_metric).
Hypothesis Hsubs : forall i name v b,
  (subs !! i) = Some (name, v, b) ->
  bounds_at warn crit i b /\ (load_avgs !! i) = Some v.

Lemma load_step_evaluated i name v wv c code outp :
  (subs !! i) = Some (name, v, Some (wv, c)) -> 0 <= code <= 2 ->
  load_step load_avgs warn crit (code, outp) i
  = Ok (Z.max code (severity v wv c), outp +:+ load_annotation (name, severity v wv c)).
Proof.
  intros Hsub Hcode.
  destruct (Hsubs _ _ _ _ Hsub) as ((wi & ci & Hwi & Hci & Hw & Hc) & Hv).
  unfold load_step.
  rewrite (idx_lookup _ _ _ Hci). res_simpl.
  rewrite decide_False by (by eapply py_float_nonempty).
  rewrite (idx_lookup _ _ _ Hwi). res_simpl.
  rewrite decide_False by (by eapply py_float_nonempty).
  rewrite (idx_lookup _ _ _ Hv). res_simpl.
  rewrite Hc. res_simpl. unfold severity, load_annotation, verdict_text.
  destruct (Float.ge v c); cbn [fst snd].
  { rewrite decide_True by done. do 2 f_equal. lia. }
  rewrite Hw. res_simpl.
  destruct (Float.ge v wv); cbn [fst snd].
  - rewrite (decide_False (P := 1 = 2)) by done. rewrite (decide_True (P := 1 = 1)) by done.
    do 2 f_equal. case_decide; lia.
  - rewrite (decide_False (P := 0 = 2)) by done. rewrite (decide_False (P := 0 = 1)) by done.
    do 2 f_equal. lia.
Qed.

Lemma load_step_skipped i name v code outp :
  (subs !! i) = Some (name, v, None) ->
  load_step load_avgs warn crit (code, outp) i = Ok (code, outp).
Proof.
  intros Hsub.
  destruct (Hsubs _ _ _ _ Hsub) as ((wi & ci & Hwi & Hci & Hskip) & _).
  unfold load_step. rewrite (idx_lookup _ _ _ Hci). res_simpl.
  destruct (decide (ci = "")) as [|Hne]; [done|].
  rewrite (idx_lookup _ _ _ Hwi). res_simpl.
  destruct Hskip as [? | ->]; [done|]. by rewrite decide_True.
Qed.

Lemma load_status_overall outp :
  length subs = length warn ->
  load_status load_avgs (Some warn) (Some crit) outp
  = Ok (overall (evaluated subs),
        outp +:+ annotations load_annotation (evaluated subs)).
Proof.
  intros Hlen. unfold load_status. rewrite <- Hlen.
  apply loop_all.
  - apply load_step_evaluated.
  - apply load_step_skipped.
Qed.
End LoadLoop.

Lemma severity_critical v wv c : (c <= v)%Q -> severity v wv c = 2.
Proof. intros H. unfold severity. by rewrite ge_true. Qed.

Lemma severity_ok v wv c : (v < wv)%Q -> (v < c)%Q -> severity v wv c = 0.
Proof. intros Hw Hc. unfold severity. by rewrite !ge_false. Qed.

(** Only [running] reaches its critical bound; [total] and [waiting] stay
    below both of theirs. *)
Lemma procs_only_running_critical p sw0 sw1 sw2 sc0 sc1 sc2 w0 w1 w2 c0 c1 c2 outp :
  Num.py_float sw0 = Ok w0 -> Num.py_float sw1 = Ok w1 -> Num.py_float sw2 = Ok w2 ->
  Num.py_float sc0 = Ok c0 -> Num.py_float sc1 = Ok c1 -> Num.py_float sc2 = Ok c2 ->
  (inject_Z (p_total p) < w0)%Q -> (inject_Z (p_total p) < c0)%Q ->
  (c1 <= inject_Z (p_running p))%Q ->
  (inject_Z (p_waiting p) < w2)%Q -> (inject_Z (p_waiting p) < c2)%Q ->
  procs_status p (Some [sw0; sw1; sw2]) (Some [sc0; sc1; sc2]) outp
  = Ok (2, outp +:+ " (OK) (Critical running) (OK)").
Proof.
  intros Hw0 Hw1 Hw2 Hc0 Hc1 Hc2 Ht Ht' Hr Hwa Hwa'.
  rewrite (procs_status_overall p _ _
    [("total", inject_Z (p_total p), Some (w0, c0));
     ("running", inject_Z (p_running p), Some (w1, c1));
     ("waiting", inject_Z (p_waiting p), Some (w2, c2))]); [|..|done].
  - rewrite !evaluated_cons_some.
    rewrite (severity_ok _ _ _ Ht Ht'), (severity_critical _ _ _ Hr),
      (severity_ok _ _ _ Hwa Hwa').
    reflexivity.
  - intros [|[|[|i]]] name v b Hsub; [| | |done]; cbn in Hsub; simplify_eq;
      (split; [eexists _, _; repeat split; try reflexivity; done|by split]).
Qed.

(** ** Percentages of check_cpu *)

Lemma inject_Z_nonzero z : z ≠ 0 -> ~ (inject_Z z == 0)%Q.
Proof.
  intros Hz H. apply Hz. unfold Qeq in H. cbn in H. lia.
Qed.

Lemma cpu_percent_forms total d :
  total ≠ 0 ->
  (100 - 100 * (inject_Z (total - d) / inject_Z total)
   == 100 * inject_Z d / inject_Z total)%Q.
Proof.
  intros Hz. unfold Zminus. rewrite inject_Z_plus, inject_Z_opp.
  field. by apply inject_Z_nonzero.
Qed.

Section CpuPercents.
Variable total : Z.
Hypothesis Htotal : total ≠ 0.

Lemma cpu_percents_map l :
  res_map (fun x => q ← Float.div (inject_Z (total - x)) (inject_Z total);
                    Ok (100 - 100 * q)%Q) l
  = Ok (cpu_percent total <$> l).
Proof.
  induction l as [|x l IH]; [done|].
  cbn [res_map]. rewrite div_nonzero by (by apply inject_Z_nonzero). res_simpl.
  rewrite IH. reflexivity.
Qed.
End CpuPercents.

Lemma cpu_pcts_cpu percents :
  (7 <= length percents)%nat ->
  exists pcts idle,
    cpu_pcts percents = Ok pcts
    /\ (percents !! 3%nat) = Some idle
    /\ (pcts !! "idle") = Some idle
    /\ (pcts !! "cpu") = Some (100 - idle)%Q.
Proof.
  intros Hlen.
  destruct percents as [|p0 [|p1 [|p2 [|p3 [|p4 [|p5 [|p6 rest]]]]]]]; cbn in Hlen; try lia.
  unfold cpu_pcts. cbn [idx lookup list_lookup]. res_simpl.
  assert (exists steal,
    (if decide (8 <= length (p0 :: p1 :: p2 :: p3 :: p4 :: p5 :: p6 :: rest))%nat
     then idx (p0 :: p1 :: p2 :: p3 :: p4 :: p5 :: p6 :: rest) 7 else Ok 0%Q) = Ok steal)
    as [steal ->].
  { destruct rest as [|p7 rest]; [by eexists|]. rewrite decide_True by (cbn; lia). by eexists. }
  res_simpl. unfold getitem.
  eexists _, p3. 
  rewrite lookup_insert_ne by done.
  do 3 (rewrite lookup_insert_ne by done). rewrite lookup_insert_eq. res_simpl.
  split; [reflexivity|]. split; [reflexivity|]. split.
  - do 5 (rewrite lookup_insert_ne by done). by rewrite lookup_insert_eq.
  - by rewrite lookup_insert_eq.
Qed.

(** The deltas of two readings whose fields parse to [prev] and [cur]. *)
Lemma cpu_deltas_parsed line1 line2 prev cur :
  Forall2 (fun s z => Num.py_int s = Ok z) (tail (Str.words line1)) prev ->
  Forall2 (fun s z => Num.py_int s = Ok z) (tail (Str.words line2)) cur ->
  cpu_deltas line1 line2 = Ok (zip_with (fun a b => b - a) prev cur).
Proof.
  unfold cpu_deltas.
  generalize (tail (Str.words line1)), (tail (Str.words line2)).
  intros l1 l2 H1. revert l2 cur.
  induction H1 as [|s1 a l1 prev Ha _ IH]; intros l2 cur H2.
  - by destruct H2.
  - destruct H2 as [|s2 b l2 cur Hb H2]; [done|].
    cbn [zip zip_with res_map fst snd]. rewrite Hb. res_simpl. rewrite Ha. res_simpl.
    by rewrite (IH _ _ H2).
Qed.

(** ** The process table *)

Lemma names_count_setdefault_append k v d :
  names_count (setdefault_append k v d) = names_count d + 1.
Proof.
  induction d as [|[k' l] d IH]; [done|].
  cbn [setdefault_append]. case_decide.
  - unfold names_count. cbn [foldr snd]. rewrite length_app. cbn [length]. lia.
  - unfold names_count in *. cbn [foldr snd]. rewrite IH. lia.
Qed.

Lemma names_count_nonneg d : 0 <= names_count d.
Proof. induction d as [|e d IH]; unfold names_count in *; cbn [foldr]; lia. Qed.

Lemma tally_step_tallied p e :
  tallied (tally_step p e) = tallied p + Z.of_nat (length e.2)
  /\ p_total (tally_step p e) = p_total p.
Proof.
  destruct e as [state names]. unfold tally_step, tallied.
  repeat case_decide; cbn; split; lia.
Qed.

Lemma foldl_tally_step states_procs : forall p,
  tallied (foldl tally_step p states_procs) = tallied p + names_count states_procs
  /\ p_total (foldl tally_step p states_procs) = p_total p.
Proof.
  induction states_procs as [|e d IH]; intros p.
  - unfold names_count. cbn. split; lia.
  - cbn [foldl]. destruct (IH (tally_step p e)) as [-> ->].
    destruct (tally_step_tallied p e) as [-> ->].
    unfold names_count. cbn [foldr]. split; lia.
Qed.

Lemma procs_tally_counts total forks states_procs :
  tallied (procs_tally total forks states_procs) = names_count states_procs
  /\ p_total (procs_tally total forks states_procs) = total.
Proof.
  unfold procs_tally.
  destruct (foldl_tally_step states_procs (Procs total forks 0 0 0 0 0)) as [-> ->].
  unfold tallied. cbn. split; lia.
Qed.

Lemma stat_lines_complete_cons e entries :
  stat_lines_complete (e :: entries) -> stat_lines_complete entries.
Proof.
  intros H name line Hin. apply H. by apply list_elem_of_further.
Qed.

Lemma procs_scan_step_other total states_procs name r :
  Str.isdigit name = false ->
  procs_scan_step (total, states_procs) (name, r) = Ok (total, states_procs).
Proof. intros H. unfold procs_scan_step. cbn [fst snd]. by rewrite H. Qed.

Lemma procs_scan_step_vanished total states_procs name :
  Str.isdigit name = true ->
  procs_scan_step (total, states_procs) (name, None) = Ok (total + 1, states_procs).
Proof. intros H. unfold procs_scan_step. cbn [fst snd]. by rewrite H. Qed.

Lemma procs_scan_step_read total states_procs name line f0 f1 f2 fs :
  Str.isdigit name = true ->
  Str.words line = f0 :: f1 :: f2 :: fs ->
  procs_scan_step (total, states_procs) (name, Some line)
  = Ok (total + 1, setdefault_append f2 f1 states_procs).
Proof.
  intros H Hw. unfold procs_scan_step. cbn [fst snd]. rewrite H, Hw. reflexivity.
Qed.

Lemma procs_scan_from entries : forall total states_procs,
  stat_lines_complete entries ->
  exists total' states_procs',
    res_fold procs_scan_step entries (total, states_procs) = Ok (total', states_procs')
    /\ total' = total + names_count states_procs' - names_count states_procs
                + unreadable entries.
Proof.
  induction entries as [|[name r] entries IH]; intros total states_procs Hc.
  - exists total, states_procs. split; [done|]. cbn. lia.
  - cbn [res_fold unreadable].
    pose proof (stat_lines_complete_cons _ _ Hc) as Hc'.
    destruct (Str.isdigit name) eqn:Hd.
    + destruct r as [line|].
      * assert (3 <= length (Str.words line))%nat as Hlen.
        { apply (Hc name); [apply list_elem_of_here|done]. }
        destruct (Str.words line) as [|f0 [|f1 [|f2 fs]]] eqn:Hw; cbn in Hlen; try lia.
        rewrite (procs_scan_step_read _ _ _ _ _ _ _ _ Hd Hw). res_simpl.
        destruct (IH (total + 1) (setdefault_append f2 f1 states_procs) Hc')
          as (t' & s' & -> & ->).
        eexists _, s'. split; [reflexivity|].
        rewrite names_count_setdefault_append. lia.
      * rewrite (procs_scan_step_vanished _ _ _ Hd). res_simpl.
        destruct (IH (total + 1) states_procs Hc') as (t' & s' & -> & ->).
        eexists _, s'. split; [reflexivity|]. lia.
    + rewrite (procs_scan_step_other _ _ _ _ Hd). res_simpl.
      destruct (IH total states_procs Hc') as (t' & s' & -> & ->).
      eexists _, s'. split; [reflexivity|]. lia.
Qed.

Lemma unreadable_nonneg entries : 0 <= unreadable entries.
Proof.
  induction entries as [|[name r] entries IH]; cbn [unreadable]; [lia|].
  destruct (Str.isdigit name), r; lia.
Qed.

Lemma unreadable_zero entries : unreadable entries = 0 <-> all_readable entries.
Proof.
  induction entries as [|[name r] entries IH].
  - split; [|done]. intros _ name r Hin. by apply elem_of_nil in Hin.
  - cbn [unreadable]. pose proof (unreadable_nonneg entries) as Hnn. split.
    + intros Hz name' r' Hin Hd.
      apply elem_of_cons in Hin as [Heq|Hin].
      * injection Heq as -> ->. rewrite Hd in Hz. destruct r; [done|lia].
      * apply (proj1 IH) with (name := name'); [|done..].
        destruct (Str.isdigit name), r; lia.
    + intros Hall.
      assert (all_readable entries) as Hall'.
      { intros name' r' Hin. apply Hall. by apply list_elem_of_further. }
      rewrite (proj2 IH Hall').
      destruct (Str.isdigit name) eqn:Hd; [|done].
      destruct r; [done|].
      exfalso. by apply (Hall name None); [apply list_elem_of_here|..].
Qed.

(** ** Performance data of check_memory and check_swap *)

Lemma scalar_status_severity value warn crit wv c outp :
  Num.py_float warn = Ok wv -> Num.py_float crit = Ok c ->
  scalar_status value (Some warn) (Some crit) outp
  = Ok (severity value wv c, outp +:+ verdict_text (severity value wv c)).
Proof.
  intros Hw Hc. unfold scalar_status, severity. rewrite Hc. res_simpl.
  destruct (Float.ge value c); [done|].
  rewrite Hw. res_simpl. by destruct (Float.ge value wv).
Qed.

Lemma used_suffix_megabytes total warn crit wv c :
  Num.py_float warn = Ok wv -> Num.py_float crit = Ok c ->
  used_suffix total (Some warn) (Some crit)
  = Ok ((";" +:+ pretty (Float.to_int (total * wv / 100)%Q)
           +:+ ";" +:+ pretty (Float.to_int (total * c / 100)%Q))
          +:+ ";0;" +:+ pretty (Float.to_int total)).
Proof. intros Hw Hc. unfold used_suffix. rewrite Hw. res_simpl. by rewrite Hc. Qed.

Section UsagePerfdata.
Variables (m : gmap string Q) (used total : Q).
Hypothesis Hused : (m !! "used") = Some used.
Hypothesis Htotal : (m !! "total") = Some total.
Variables (warn crit : string) (wv c : Q).
Hypothesis Hwarn : Num.py_float warn = Ok wv.
Hypothesis Hcrit : Num.py_float crit = Ok c.

Lemma usage_perfdata_used_first xs :
  "used" ∉ xs ->
  (forall x, x ∈ xs -> is_Some (m !! x)) ->
  exists rest,
    usage_perfdata m ("used" :: xs) (Some warn) (Some crit) = Ok (used_token used total wv c +:+ rest).
Proof.
  intros Hnot Hin. unfold usage_perfdata. cbn [res_fold].
  rewrite (getitem_lookup _ _ _ Hused). res_simpl.
  rewrite decide_True by done.
  rewrite (getitem_lookup _ _ _ Htotal). res_simpl.
  rewrite (used_suffix_megabytes _ _ _ _ _ Hwarn Hcrit). res_simpl.
  assert (("" +:+ "used" +:+ "=" +:+ Float.fmt2f used)
          +:+ ((";" +:+ pretty (Float.to_int (total * wv / 100)%Q)
                  +:+ ";" +:+ pretty (Float.to_int (total * c / 100)%Q))
                 +:+ ";0;" +:+ pretty (Float.to_int total)) +:+ " "
          = used_token used total wv c) as ->.
  { unfold used_token.
    change ("" +:+ "used" +:+ "=" +:+ Float.fmt2f used) with ("used=" +:+ Float.fmt2f used).
    by rewrite !app_assoc. }
  generalize (used_token used total wv c). clear Hused.
  induction xs as [|x xs' IH]; intros acc.
  - exists "". cbn [res_fold]. by rewrite app_nil_r.
  - cbn [res_fold].
    destruct (Hin x) as [v Hv]; [apply list_elem_of_here|].
    rewrite (getitem_lookup _ _ _ Hv). res_simpl.
    rewrite decide_False.
    2:{ intros ->. apply Hnot, list_elem_of_here. }
    res_simpl.
    destruct (IH (λ H, Hnot (list_elem_of_further _ _ _ H))
                 (λ y H, Hin y (list_elem_of_further _ _ _ H))
                 ((acc +:+ x +:+ "=" +:+ Float.fmt2f v) +:+ "" +:+ " ")) as [rest ->].
    eexists. by rewrite !app_assoc.
Qed.
End UsagePerfdata.

Section Memory.
Variables (content : string) (mem : gmap string Z).
Variables (total active cached buffers free : Z).
Hypothesis Hscan : meminfo_scan memory_table content = Ok mem.
Hypothesis Htotal : (mem !! "total") = Some total.
Hypothesis Hactive : (mem !! "active") = Some active.
Hypothesis Hcached : (mem !! "cached") = Some cached.
Hypothesis Hbuffers : (mem !! "buffers") = Some buffers.
Hypothesis Hfree : (mem !! "free") = Some free.
Hypothesis Hnonzero : total ≠ 0.
Variables (warn crit : string) (wv c : Q).
Hypothesis Hwarn : Num.py_float warn = Ok wv.
Hypothesis Hcrit : Num.py_float crit = Ok c.

Lemma memory_body_thresholds :
  exists status_outp rest,
  memory_body content (Some warn) (Some crit)
  = Ok (severity (inject_Z (total - free - cached - buffers) / inject_Z total * 100)%Q
                 wv c,
        status_outp,
        Str.strip (used_token (inject_Z (total - free - cached - buffers) / 1024)%Q
                              (inject_Z total / 1024)%Q wv c +:+ rest)).
Proof.
  unfold memory_body. rewrite Hscan. res_simpl.
  rewrite (getitem_lookup _ _ _ Htotal), (getitem_lookup _ _ _ Hactive),
    (getitem_lookup _ _ _ Hcached), (getitem_lookup _ _ _ Hbuffers),
    (getitem_lookup _ _ _ Hfree). res_simpl.
  rewrite div_nonzero by (by apply inject_Z_nonzero). res_simpl.
  set (m := <["used_p":=_]> _).
  assert ((m !! "used") = Some (inject_Z (total - free - cached - buffers) / 1024)%Q)
    as Hu by reflexivity.
  assert ((m !! "total") = Some (inject_Z total / 1024)%Q) as Ht by reflexivity.
  rewrite (getitem_lookup _ _ _ Hu), (getitem_lookup _ _ _ Ht). res_simpl.
  rewrite (scalar_status_severity _ _ _ _ _ _ Hwarn Hcrit). res_simpl.
  destruct (usage_perfdata_used_first m _ _ Hu Ht warn crit wv c Hwarn Hcrit
              ["cached"; "active"]) as [rest ->].
  { by rewrite !elem_of_cons, elem_of_nil; intros [|[|]]. }
  { intros x Hx. repeat (apply elem_of_cons in Hx as [->|Hx]); [by eexists..|].
    by apply elem_of_nil in Hx. }
  res_simpl. by eexists _, rest.
Qed.
End Memory.

Section Swap.
Variables (content : string) (swap : gmap string Z).
Variables (total cached free : Z).
Hypothesis Hscan : meminfo_scan swap_table content = Ok swap.
Hypothesis Htotal : (swap !! "total") = Some total.
Hypothesis Hcached : (swap !! "cached") = Some cached.
Hypothesis Hfree : (swap !! "free") = Some free.
Hypothesis Hnonzero : total ≠ 0.
Variables (warn crit : string) (wv c : Q).
Hypothesis Hwarn : Num.py_float warn = Ok wv.
Hypothesis Hcrit : Num.py_float crit = Ok c.

Lemma swap_body_thresholds :
  exists status_outp rest,
  swap_body content (Some warn) (Some crit)
  = Ok (severity (inject_Z (total - free - cached) / inject_Z total * 100)%Q wv c,
        status_outp,
        Str.strip (used_token (inject_Z (total - free - cached) / 1024)%Q
                              (inject_Z total / 1024)%Q wv c +:+ rest)).
Proof.
  unfold swap_body. rewrite Hscan. res_simpl.
  rewrite (getitem_lookup _ _ _ Htotal). res_simpl.
  rewrite decide_False by done.
  rewrite (getitem_lookup _ _ _ Hcached), (getitem_lookup _ _ _ Hfree). res_simpl.
  rewrite div_nonzero by (by apply inject_Z_nonzero). res_simpl.
  set (s := <["used_p":=_]> _).
  assert ((s !! "used") = Some (inject_Z (total - free - cached) / 1024)%Q) as Hu
    by reflexivity.
  assert ((s !! "total") = Some (inject_Z total / 1024)%Q) as Ht by reflexivity.
  rewrite (getitem_lookup _ _ _ Hu), (getitem_lookup _ _ _ Ht). res_simpl.
  rewrite (scalar_status_severity _ _ _ _ _ _ Hwarn Hcrit). res_simpl.
  destruct (usage_perfdata_used_first s _ _ Hu Ht warn crit wv c Hwarn Hcrit
              ["cached"]) as [rest ->].
  { by rewrite !elem_of_cons, elem_of_nil; intros [|]. }
  { intros x Hx. repeat (apply elem_of_cons in Hx as [->|Hx]); [by eexists..|].
    by apply elem_of_nil in Hx. }
  res_simpl. by eexists _, rest.
Qed.
End Swap.

(** ** Hard errors of check_net *)

Section NetErrors.
Variable int_d : gmap string Z.

Lemma net_error_step_up code outp pk x v :
  (int_d !! x) = Some v -> 0 < v ->
  net_error_step int_d (code, outp, pk) x
  = Ok (2, outp +:+ " (Critical " +:+ x +:+ ":" +:+ pretty v +:+ ")", pk + v).
Proof.
  intros Hv Hpos. unfold net_error_step. rewrite (getitem_lookup _ _ _ Hv). res_simpl.
  by rewrite decide_True.
Qed.

Lemma net_error_step_not_up code outp pk x v :
  (int_d !! x) = Some v -> ~ 0 < v ->
  net_error_step int_d (code, outp, pk) x = Ok (code, outp, pk).
Proof.
  intros Hv Hneg. unfold net_error_step. rewrite (getitem_lookup _ _ _ Hv). res_simpl.
  by rewrite decide_False.
Qed.

Lemma net_errors_loop fields : forall code outp pk,
  (forall x, x ∈ fields -> is_Some (int_d !! x)) ->
  exists code' outp' pk',
    res_fold (net_error_step int_d) fields (code, outp, pk) = Ok (code', outp', pk')
    /\ pk <= pk'
    /\ (code = 2 -> code' = 2)
    /\ ((exists x v, x ∈ fields /\ (int_d !! x) = Some v /\ 0 < v) -> code' = 2 /\ pk < pk')
    /\ ((forall x v, x ∈ fields -> (int_d !! x) = Some v -> v <= 0) ->
        code' = code /\ outp' = outp /\ pk' = pk).
Proof.
  induction fields as [|x fields IH]; intros code outp pk Hall.
  - exists code, outp, pk. split; [done|]. split; [lia|]. split; [done|]. split.
    + intros (x & v & Hin & _). by apply elem_of_nil in Hin.
    + done.
  - destruct (Hall x) as [v Hv]; [apply list_elem_of_here|].
    assert (forall y, y ∈ fields -> is_Some (int_d !! y)) as Hall'.
    { intros y Hy. apply Hall. by apply list_elem_of_further. }
    cbn [res_fold].
    destruct (decide (0 < v)) as [Hpos|Hneg].
    + rewrite (net_error_step_up _ _ _ _ _ Hv Hpos). res_simpl.
      destruct (IH 2 (outp +:+ " (Critical " +:+ x +:+ ":" +:+ pretty v +:+ ")")
                  (pk + v) Hall') as (code' & outp' & pk' & Hrun & Hle & H2 & _ & _).
      exists code', outp', pk'. split; [done|].
      split; [lia|]. split; [auto|]. split.
      * intros _. split; [auto|lia].
      * intros Hno. exfalso. specialize (Hno x v (list_elem_of_here _ _) Hv). lia.
    + rewrite (net_error_step_not_up _ _ _ _ _ Hv Hneg). res_simpl.
      destruct (IH code outp pk Hall') as (code' & outp' & pk' & Hrun & Hle & H2 & Hsome & Hnone).
      exists code', outp', pk'. split; [done|].
      split; [done|]. split; [done|]. split.
      * intros (y & vy & Hin & Hy & Hpos). apply Hsome.
        apply elem_of_cons in Hin as [->|Hin]; [|by eauto].
        rewrite Hv in Hy. injection Hy as ->. lia.
      * intros Hno. apply Hnone. intros y vy Hin. apply Hno.
        by apply list_elem_of_further.
Qed.
End NetErrors.

Lemma net_errors_counted int_d outp :
  (forall x, x ∈ net_error_fields -> is_Some (int_d !! x)) ->
  error_counted int_d ->
  exists outp' pk, net_errors int_d outp = Ok (2, outp', pk) /\ 0 < pk.
Proof.
  intros Hall Herr.
  destruct (net_errors_loop int_d net_error_fields 0 outp 0 Hall)
    as (code' & outp' & pk' & Hrun & _ & _ & Hsome & _).
  destruct (Hsome Herr) as [-> Hpk]. by exists outp', pk'.
Qed.

Lemma net_errors_none int_d outp :
  (forall x, x ∈ net_error_fields -> is_Some (int_d !! x)) ->
  no_error_counted int_d ->
  net_errors int_d outp = Ok (0, outp, 0).
Proof.
  intros Hall Hno.
  destruct (net_errors_loop int_d net_error_fields 0 outp 0 Hall)
    as (code' & outp' & pk' & Hrun & _ & _ & _ & Hnone).
  destruct (Hnone Hno) as (-> & -> & ->). done.
Qed.

(** With [PK_ERRORS] non-zero the bandwidth block is not entered, whatever
    the rates and the thresholds. *)
Lemma net_status_skipped rx tx warn crit code outp pk :
  pk ≠ 0 -> net_status rx tx warn crit (code, outp, pk) = Ok (code, outp).
Proof.
  intros Hpk. unfold net_status. destruct warn, crit; try done.
  by rewrite decide_False.
Qed.

Lemma pair_suffix_printable warn crit i :
  printable warn crit -> (i < 2)%nat -> exists sfx, pair_suffix warn crit i = Ok sfx.
Proof.
  unfold printable, pair_suffix. intros Hp Hi.
  destruct warn as [warn|], crit as [crit|]; try by eexists.
  destruct Hp as [Hw Hc].
  destruct (lookup_lt_is_Some_2 warn i) as [wi Hwi]; [lia|].
  destruct (lookup_lt_is_Some_2 crit i) as [ci Hci]; [lia|].
  rewrite (idx_lookup _ _ _ Hwi), (idx_lookup _ _ _ Hci). by eexists.
Qed.

Lemma net_error_fields_present (int_d : gmap string Z) :
  (forall x, x ∈ net_fields -> is_Some (int_d !! x)) ->
  forall x, x ∈ net_error_fields -> is_Some (int_d !! x).
Proof.
  intros Hfields x Hx. apply Hfields. unfold net_error_fields in Hx. unfold net_fields.
  repeat (apply elem_of_cons in Hx as [->|Hx]); [set_solver..|].
  by apply elem_of_nil in Hx.
Qed.

Section NetBody.
Variables (interface : string) (int_d : gmap string Z) (sample_period : Q).
Variables (warn crit : option (list string)).
Hypothesis Hfields : forall x, x ∈ net_fields -> is_Some (int_d !! x).
Hypothesis Hperiod : ~ (sample_period == 0)%Q.
Hypothesis Hprintable : printable warn crit.

Lemma net_body_errors_critical :
  error_counted int_d ->
  exists outp perfdata,
    net_body interface int_d sample_period warn crit = Ok (2, outp, perfdata).
Proof.
  intros Herr. unfold net_body.
  destruct (Hfields "r_bytes") as [rb Hrb]; [set_solver|].
  destruct (Hfields "t_bytes") as [tb Htb]; [set_solver|].
  destruct (Hfields "r_packets") as [rp Hrp]; [set_solver|].
  destruct (Hfields "t_packets") as [tp Htp]; [set_solver|].
  rewrite (getitem_lookup _ _ _ Hrb), (getitem_lookup _ _ _ Htb),
    (getitem_lookup _ _ _ Hrp), (getitem_lookup _ _ _ Htp). res_simpl.
  rewrite !(div_nonzero _ _ Hperiod). res_simpl.
  match goal with |- context [net_errors int_d ?o] =>
    destruct (net_errors_counted int_d o (net_error_fields_present int_d Hfields) Herr)
      as (outp' & pk & -> & Hpk)
  end.
  res_simpl. rewrite net_status_skipped by lia. res_simpl.
  destruct (pair_suffix_printable warn crit 0 Hprintable) as [s0 Hs0]; [lia|].
  destruct (pair_suffix_printable warn crit 1 Hprintable) as [s1 Hs1]; [lia|].
  do 2 eexists.
  set (rates := <["PK_ERRORS":=_]> _).
  cbn [res_fold].
  rewrite (getitem_lookup rates "RX_MBps" _ eq_refl),
    (getitem_lookup rates "RX_PKps" _ eq_refl),
    (getitem_lookup rates "TX_MBps" _ eq_refl),
    (getitem_lookup rates "TX_PKps" _ eq_refl),
    (getitem_lookup rates "PK_ERRORS" _ eq_refl).
  res_simpl.
  repeat first [ rewrite (decide_True (P := _ = _)) by reflexivity
               | rewrite (decide_False (P := _ = _)) by discriminate
               | rewrite Hs0 | rewrite Hs1 | progress res_simpl ].
  reflexivity.
Qed.
End NetBody.

(** * The claims *)

(** ** C1: elapsed time and total tick delta *)

(** C1, as the code has it.  No delta probe checks its sample.
    [check_cpu]: when the field deltas are not empty and sum to zero, the run
    ends in an uncaught [ZeroDivisionError] and the snapshot is not
    rewritten; the elapsed time never changes its exit status.
    [check_procs], [check_diskio], [check_net]: when the elapsed time is
    exactly zero and the counters parse, the run ends in an uncaught
    [ZeroDivisionError] and the snapshot is not rewritten.  When the elapsed
    time is anything but zero, negative included, [check_procs] without
    thresholds divides by it, reports the rate and exits 0. *)
Theorem unchecked_sample :
  (forall w snap deltas warn crit,
     (interim w !! interim_path "proc_stat") = Some snap ->
     cpu_deltas (Str.readline (f_content snap)) (Str.readline (proc_stat w)) = Ok deltas ->
     deltas ≠ [] ->
     sum_Z deltas = 0 ->
     check_cpu w warn crit = Result (Uncaught ZeroDivisionError) (interim w))
  /\ (forall w t warn crit,
        exit_status (outcome_of (check_cpu (at_time t w) warn crit))
        = exit_status (outcome_of (check_cpu w warn crit)))
  /\ (forall w snap forks warn crit,
        (interim w !! interim_path "proc_stat_processes") = Some snap ->
        procs_forks (proc_stat w) (f_content snap) = Ok forks ->
        (now w == f_mtime snap)%Q ->
        check_procs w warn crit = Result (Uncaught ZeroDivisionError) (interim w))
  /\ (forall w dev device proc_line snap interim_line a va b vb warn crit,
        diskio_device w dev = Some device ->
        find_device (device +:+ " ") (Str.splitlines (proc_diskstats w))
        = Ok (Some proc_line) ->
        (interim w !! interim_path ("proc_diskstats_" +:+ Str.replace "/" "_" device))
        = Some snap ->
        find_device (device +:+ " ") (Str.splitlines (f_content snap))
        = Ok (Some interim_line) ->
        (proc_line !! 0%nat) = Some a -> Num.py_int a = Ok va ->
        (interim_line !! 0%nat) = Some b -> Num.py_int b = Ok vb ->
        (now w == f_mtime snap)%Q ->
        check_diskio w dev warn crit = Result (Uncaught ZeroDivisionError) (interim w))
  /\ (forall w interface snap int_t int_d r_bytes warn crit,
        (interim w !! interim_path ("proc_net_dev_" +:+ interface)) = Some snap ->
        net_read interface (proc_net_dev w) (f_content snap) = Ok (int_t, int_d) ->
        int_t ≠ ∅ ->
        (int_d !! "r_bytes") = Some r_bytes ->
        (now w == f_mtime snap)%Q ->
        check_net w interface warn crit = Result (Uncaught ZeroDivisionError) (interim w))
  /\ (forall w snap forks total states_procs,
        (interim w !! interim_path "proc_stat_processes") = Some snap ->
        procs_forks (proc_stat w) (f_content snap) = Ok forks ->
        procs_scan (proc_dir w) = Ok (total, states_procs) ->
        ~ (now w == f_mtime snap)%Q ->
        exists perfdata,
          check_procs w None None
          = Result (Exited 0
                      (procs_status_line
                         (procs_tally total (inject_Z forks / (now w - f_mtime snap))%Q
                                      states_procs)
                       +:+ " | " +:+ perfdata))
                   (copyfile w (proc_stat w) (interim_path "proc_stat_processes"))).
Proof.
  split; [exact check_cpu_zero_total|].
  split; [exact check_cpu_clock_irrelevant|].
  split; [exact check_procs_zero_period|].
  split; [exact check_diskio_zero_period|].
  split; [exact check_net_zero_period|].
  exact check_procs_nonzero_period.
Qed.

Lemma unchecked_sample_witness :
  check_cpu same_instant None None
  = Result (Uncaught ZeroDivisionError) (interim same_instant)
  /\ check_procs same_instant None None
     = Result (Uncaught ZeroDivisionError) (interim same_instant)
  /\ check_diskio same_instant "sda" None None
     = Result (Uncaught ZeroDivisionError) (interim same_instant)
  /\ check_net same_instant "eth0" None None
     = Result (Uncaught ZeroDivisionError) (interim same_instant)
  /\ exit_status (outcome_of (check_cpu (at_time 98 later_host) None None))
     = exit_status (outcome_of (check_cpu later_host None None))
  /\ exists perfdata,
       outcome_of (check_procs clock_set_back None None)
       = Exited 0 ("Total: 6 Running: 1 Sleeping: 2 Waiting: 1 Zombie: 1 Others: 0 New_Forks: -5.00/s"
                   +:+ " | " +:+ perfdata).
Proof.
  destruct unchecked_sample as (Hcpu & Hclock & Hprocs & Hdiskio & Hnet & Hback).
  split.
  { eapply (Hcpu same_instant (File stat_before 100) [0; 0; 0; 0; 0; 0; 0; 0; 0; 0]);
      [vm_compute; reflexivity | vm_compute; reflexivity | discriminate | reflexivity]. }
  split.
  { eapply (Hprocs same_instant (File stat_before 100) 0);
      [vm_compute; reflexivity | vm_compute; reflexivity | vm_compute; reflexivity]. }
  split.
  { eapply (Hdiskio same_instant "sda" "sda" _ (File diskstats_before 100) _ "100" 100 "100" 100);
      vm_compute; reflexivity. }
  split.
  { eapply (Hnet same_instant "eth0" (File net_before 100) _ _ 0);
      [vm_compute; reflexivity | vm_compute; reflexivity | vm_compute; discriminate
      | vm_compute; reflexivity | vm_compute; reflexivity]. }
  split; [apply Hclock|].
  destruct (Hback clock_set_back (File stat_before 100) 10 6
              [("S", ["(systemd)"; "(kthreadd)"]); ("R", ["(python3)"]);
               ("D", ["(kworker)"]); ("Z", ["(sh)"])])
    as [perfdata Hrun];
    [vm_compute; reflexivity | vm_compute; reflexivity | vm_compute; reflexivity
    | vm_compute; discriminate |].
  exists perfdata. rewrite Hrun. vm_compute. reflexivity.
Defined.

(** C1 as stated fails.  A second invocation in the same instant ends in an
    uncaught [ZeroDivisionError] (exit status 1, no status line), and with
    the clock set back behind the snapshot [check_procs] prints a negative
    rate and exits 0. *)
Lemma insufficient_sample_undetected :
  (now same_instant - 100 == 0)%Q
  /\ outcome_of (check_cpu same_instant None None) = Uncaught ZeroDivisionError
  /\ exit_status (outcome_of (check_cpu same_instant None None)) = 1
  /\ outcome_of (check_procs same_instant None None) = Uncaught ZeroDivisionError
  /\ (now clock_set_back - 100 < 0)%Q
  /\ outcome_of (check_procs clock_set_back None None)
     = Exited 0 "Total: 6 Running: 1 Sleeping: 2 Waiting: 1 Zombie: 1 Others: 0 New_Forks: -5.00/s | total=6.00 forks=-5.00 sleeping=2.00 running=1.00 waiting=1.00 zombie=1.00 others=0.00".
Proof. repeat split; vm_compute; reflexivity. Qed.

(** ** C2: argument validation *)




(** ** C3: inclusive bounds *)



(** ** C4: hard errors on the interface *)

(** C4, as the code has it.  For a snapshot/current pair whose sixteen
    counters were all read: when some hard-error counter went up, the error
    loop sets the status code to 2 with a positive [PK_ERRORS], the
    bandwidth block is then skipped whatever the rates and thresholds, and
    the probe body ends with status code 2; when no hard-error counter went
    up (deltas zero or negative) the error loop leaves status code 0 and
    [PK_ERRORS] 0. *)
Theorem network_errors_dominate interface int_d sample_period warn crit :
  (forall x, x ∈ net_fields -> is_Some (int_d !! x)) ->
  ~ (sample_period == 0)%Q ->
  printable warn crit ->
  (error_counted int_d ->
   (forall base, exists outp pk,
      net_errors int_d base = Ok (2, outp, pk) /\ 0 < pk
      /\ forall rx tx warn' crit',
           net_status rx tx warn' crit' (2, outp, pk) = Ok (2, outp))
   /\ exists outp perfdata,
        net_body interface int_d sample_period warn crit = Ok (2, outp, perfdata))
  /\ (no_error_counted int_d -> forall base, net_errors int_d base = Ok (0, base, 0)).
Proof.
  intros Hfields Hperiod Hprint. split.
  - intros Herr. split.
    + intros base.
      destruct (net_errors_counted int_d base (net_error_fields_present int_d Hfields) Herr)
        as (outp & pk & Hrun & Hpk).
      exists outp, pk. split; [done|]. split; [done|].
      intros rx tx warn' crit'. apply net_status_skipped. lia.
    + by apply net_body_errors_critical.
  - intros Hno base. apply net_errors_none; [|done].
    by apply net_error_fields_present.
Qed.

Lemma network_errors_dominate_witness :
  exists outp perfdata,
    net_body "eth0" eth0_deltas 10 (Some ["5"; "5"]) (Some ["9"; "9"])
    = Ok (2, outp, perfdata).
Proof.
  apply (network_errors_dominate "eth0" eth0_deltas 10 (Some ["5"; "5"]) (Some ["9"; "9"])).
  - intros x Hx. unfold net_fields in Hx.
    repeat (apply elem_of_cons in Hx as [->|Hx]); [by eexists..|].
    by apply elem_of_nil in Hx.
  - by vm_compute.
  - split; simpl; lia.
  - exists "r_drop", 2. split; [set_solver|]. split; [reflexivity|lia].
Defined.

(** C4 as stated fails for a counter that went down.  After a restart the
    receive-error counter of [eth0] is ten below the snapshot: the delta is
    non-zero, yet the status is not Critical and the bandwidth bounds are
    evaluated, here to OK. *)
Lemma negative_error_delta_ignored :
  (exists int_t int_d,
     net_read "eth0" (proc_net_dev restarted_host) net_before = Ok (int_t, int_d)
     /\ (int_d !! "r_errs") = Some (-10))
  /\ outcome_of (check_net restarted_host "eth0" (Some ["1"; "1"]) (Some ["5"; "5"]))
     = Exited 0 "eth0 Rx: -1.00 MB/s (-20.00 p/s) Tx: -1.00 MB/s (-20.00 p/s) [t:10.00] (OK) | RX_MBps=-1.00;1;5 RX_PKps=-20.00 TX_MBps=-1.00;1;5 TX_PKps=-20.00 PK_ERRORS=0.00".
Proof.
  split.
  - eexists _, _. split; vm_compute; reflexivity.
  - vm_compute. reflexivity.
Qed.

(** ** C5: aggregation over sub-metrics *)



(** ** C6: the percentages of check_cpu *)



(** The two readings of the specification, one second apart: deltas of 50,
    0, 20 and 20 ticks, busy 77.78 per cent. *)
Example cpu_rate_example :
  cpu_deltas (Str.readline stat_before) (Str.readline stat_after)
  = Ok spec_deltas
  /\ Float.fmt2f (700 # 9) = "77.78"
  /\ outcome_of (check_cpu (at_time 101 later_host) None None)
     = Exited 0 "CPU Usage: 77.78% [t:1.00] | cpu=77.78% user=55.56% system=22.22% iowait=0.00% nice=0.00% irq=0.00% softirq=0.00% steal=0.00%".
Proof. repeat split; vm_compute; reflexivity. Qed.

(** A file system filled to 80 per cent sits exactly on a warning bound of
    80: the status is Warning. *)
Example disku_at_warning_bound :
  outcome_of (check_disku later_host "/" (Some "80") (Some "90"))
  = Exited 1 "/ Used: 80.00 GB / 100.00 GB (80.00%) (Warning) | used=80.00%;80;90".
Proof. vm_compute. reflexivity. Qed.

(** ** C7: the first run *)

(** C7, as the code has it.  With no snapshot for its stream, [check_cpu],
    [check_procs] and [check_net] copy the current text of their source to
    exactly one new snapshot file, print the first-run line and exit 0,
    whatever the thresholds; [check_diskio] does so once the device name has
    been resolved and found in [/proc/diskstats]. *)
Theorem first_run_bootstrap w :
  (forall warn crit,
     (interim w !! interim_path "proc_stat") = None ->
     outcome_of (check_cpu w warn crit) = Exited 0 first_run_msg
     /\ creates_one_snapshot w (interim_path "proc_stat") (proc_stat w)
          (check_cpu w warn crit))
  /\ (forall warn crit,
        (interim w !! interim_path "proc_stat_processes") = None ->
        outcome_of (check_procs w warn crit) = Exited 0 first_run_msg
        /\ creates_one_snapshot w (interim_path "proc_stat_processes") (proc_stat w)
             (check_procs w warn crit))
  /\ (forall interface warn crit,
        (interim w !! interim_path ("proc_net_dev_" +:+ interface)) = None ->
        outcome_of (check_net w interface warn crit)
        = Exited 0 (first_run_msg +:+ ": net:" +:+ interface)
        /\ creates_one_snapshot w (interim_path ("proc_net_dev_" +:+ interface))
             (proc_net_dev w) (check_net w interface warn crit))
  /\ (forall dev device proc_line warn crit,
        diskio_device w dev = Some device ->
        find_device (device +:+ " ") (Str.splitlines (proc_diskstats w))
        = Ok (Some proc_line) ->
        (interim w !! interim_path ("proc_diskstats_" +:+ Str.replace "/" "_" device))
        = None ->
        outcome_of (check_diskio w dev warn crit)
        = Exited 0 (first_run_msg +:+ ": diskio(" +:+ device +:+ ")")
        /\ creates_one_snapshot w
             (interim_path ("proc_diskstats_" +:+ Str.replace "/" "_" device))
             (proc_diskstats w) (check_diskio w dev warn crit)).
Proof.
  split; [|split; [|split]].
  - intros warn crit Hnone. rewrite (check_cpu_first_run w warn crit Hnone).
    split; [reflexivity|]. by apply first_run_creates.
  - intros warn crit Hnone. rewrite (check_procs_first_run w warn crit Hnone).
    split; [reflexivity|]. by apply first_run_creates.
  - intros interface warn crit Hnone.
    rewrite (check_net_first_run w interface warn crit Hnone).
    split; [reflexivity|]. by apply first_run_creates.
  - intros dev device proc_line warn crit Hdev Hfind Hnone.
    rewrite (check_diskio_first_run w dev device proc_line warn crit Hdev Hfind Hnone).
    split; [reflexivity|]. by apply first_run_creates.
Qed.

Lemma first_run_bootstrap_witness :
  outcome_of (check_cpu fresh_host (Some "80") (Some "90")) = Exited 0 first_run_msg
  /\ outcome_of (check_procs fresh_host None None) = Exited 0 first_run_msg
  /\ outcome_of (check_net fresh_host "eth0" None None)
     = Exited 0 "This was the first run, run again to get values: net:eth0"
  /\ outcome_of (check_diskio fresh_host "sda" None None)
     = Exited 0 "This was the first run, run again to get values: diskio(sda)"
  /\ creates_one_snapshot fresh_host (interim_path "proc_diskstats_sda")
       diskstats_before (check_diskio fresh_host "sda" None None).
Proof.
  destruct (first_run_bootstrap fresh_host) as (Hcpu & Hprocs & Hnet & Hdiskio).
  split; [apply (Hcpu (Some "80") (Some "90")); reflexivity|].
  split; [apply (Hprocs None None); reflexivity|].
  split; [apply (Hnet "eth0" None None); reflexivity|].
  apply (Hdiskio "sda" "sda"
           ["100"; "5"; "2000"; "30"; "400"; "6"; "8000"; "70"; "0"; "1"; "2"] None None);
    [reflexivity | vm_compute; reflexivity | reflexivity].
Defined.

(** C7 as stated fails for [check_diskio]: with no snapshot and a device
    that [/proc/diskstats] does not list, the run exits 3 and writes no
    snapshot. *)
Lemma diskio_unknown_device_no_bootstrap :
  (interim fresh_host !! interim_path "proc_diskstats_sdb") = None
  /\ check_diskio fresh_host "sdb" None None
     = Result (Exited 3 "Plugin Error: Block device not found: (sdb)") ∅.
Proof. split; vm_compute; reflexivity. Qed.

(** ** C8: no swap configured *)

(** C8.  When the scan of [/proc/meminfo] finds a total swap of zero,
    [check_swap] exits 0 with the explanatory line and an empty performance
    part, whatever the thresholds (parsable or not); so does the [swap]
    command for every threshold pair it accepts. *)
Theorem swap_short_circuit w swap :
  meminfo_scan swap_table (proc_meminfo w) = Ok swap ->
  (swap !! "total") = Some 0 ->
  (forall warn crit,
     check_swap w warn crit
     = Result (Exited 0 "No swap space configured on this system | ") (interim w))
  /\ (forall prog,
        main w [prog; "swap"]
        = Result (Exited 0 "No swap space configured on this system | ") (interim w))
  /\ (forall prog warn crit,
        scalar_accepts warn crit = Ok true ->
        main w [prog; "swap"; warn; crit]
        = Result (Exited 0 "No swap space configured on this system | ") (interim w)).
Proof.
  intros Hscan Htotal.
  assert (forall warn crit,
            check_swap w warn crit
            = Result (Exited 0 "No swap space configured on this system | ") (interim w))
    as Hcheck.
  { intros warn crit. unfold check_swap.
    by rewrite (swap_body_no_swap _ _ warn crit Hscan Htotal). }
  split; [exact Hcheck|]. split.
  - intros prog. apply Hcheck.
  - intros prog warn crit Hacc.
    change (main w [prog; "swap"; warn; crit])
      with (scalar_command w "swap" [prog; "swap"; warn; crit] (check_swap w) [warn; crit]).
    unfold scalar_command. rewrite Hacc. apply Hcheck.
Qed.

Lemma swap_short_circuit_witness :
  check_swap swapless_host (Some "not a number") (Some "90")
  = Result (Exited 0 "No swap space configured on this system | ") (interim swapless_host)
  /\ main swapless_host ["check"; "swap"; "50"; "90"]
     = Result (Exited 0 "No swap space configured on this system | ") (interim swapless_host).
Proof.
  destruct (swap_short_circuit swapless_host
              (<["free" := 0]> (<["total" := 0]> (<["cached" := 0]> ∅))))
    as (Hcheck & _ & Hmain); [vm_compute; reflexivity | reflexivity |].
  split; [apply Hcheck|]. apply Hmain. reflexivity.
Defined.

(** ** C9: process entries that vanish *)

(** C9.  When every [stat] line that could be read has its three fields, the
    scan of the process table succeeds, and the total is the sum of the five
    state tallies plus the number of processes whose [stat] file could not be
    read: the total is never below the sum, and equals it exactly when every
    listed process was readable. *)
Theorem procs_total_covers_tallies entries forks_ps :
  stat_lines_complete entries ->
  exists total states_procs,
    procs_scan entries = Ok (total, states_procs)
    /\ p_total (procs_tally total forks_ps states_procs)
       = tallied (procs_tally total forks_ps states_procs) + unreadable entries
    /\ tallied (procs_tally total forks_ps states_procs)
       <= p_total (procs_tally total forks_ps states_procs)
    /\ (p_total (procs_tally total forks_ps states_procs)
        = tallied (procs_tally total forks_ps states_procs)
        <-> all_readable entries).
Proof.
  intros Hcomplete.
  destruct (procs_scan_from entries 0 [] Hcomplete) as (total & states_procs & Hscan & Htotal).
  exists total, states_procs. split; [exact Hscan|].
  destruct (procs_tally_counts total forks_ps states_procs) as [-> ->].
  change (names_count []) with 0 in Htotal.
  pose proof (unreadable_nonneg entries) as Hnn.
  split; [lia|]. split; [lia|].
  rewrite <- unreadable_zero. lia.
Qed.

Lemma procs_total_covers_tallies_witness :
  exists total states_procs,
    procs_scan proc_listing = Ok (total, states_procs)
    /\ p_total (procs_tally total 1 states_procs)
       = tallied (procs_tally total 1 states_procs) + unreadable proc_listing
    /\ tallied (procs_tally total 1 states_procs)
       <= p_total (procs_tally total 1 states_procs)
    /\ (p_total (procs_tally total 1 states_procs)
        = tallied (procs_tally total 1 states_procs)
        <-> all_readable proc_listing).
Proof.
  apply (procs_total_covers_tallies proc_listing 1).
  intros name line Hin _. unfold proc_listing in Hin.
  repeat (apply elem_of_cons in Hin as [Heq|Hin]; [simplify_eq; vm_compute; lia|]).
  by apply elem_of_nil in Hin.
Defined.

(** Six processes are listed, five are tallied, one vanished. *)
Example procs_vanished_example :
  (exists states_procs,
     procs_scan proc_listing = Ok (6, states_procs)
     /\ tallied (procs_tally 6 1 states_procs) = 5)
  /\ unreadable proc_listing = 1.
Proof. split; [eexists; split|]; vm_compute; reflexivity. Qed.

(** ** C10: the thresholds printed by check_memory and check_swap *)



(** Bounds of 50 and 90 per cent of 16000 MB are printed as 8000 and 14400,
    and the status is decided on 59.38 per cent. *)
Example memory_thresholds_example :
  used_token 9500 16000 50 90 = "used=9500.00;8000;14400;0;16000 "
  /\ outcome_of (check_memory later_host (Some "50") (Some "90"))
     = Exited 1 "Memory Used: 9500.00MB / 16000.00MB (59.38%) (Warning) | used=9500.00;8000;14400;0;16000 cached=2500.00 active=4882.81".
Proof. split; vm_compute; reflexivity. Qed.

(** * Further properties of the code *)

(** ** The command line *)

(** Case analysis on a scalar and on a tuple command. *)
Lemma scalar_command_cases (w : host) (P : result -> Prop) command argv probe thresholds :
  (forall e, P (Result (Uncaught e) (interim w))) ->
  P (invalid_arguments w command argv) ->
  (forall warn crit, P (probe warn crit)) ->
  P (scalar_command w command argv probe thresholds).
Proof.
  intros Hexn Hinv Hprobe. unfold scalar_command.
  destruct thresholds as [|warn [|crit [|extra thresholds]]]; auto.
  destruct (scalar_accepts warn crit) as [[|]|e]; auto.
Qed.

Lemma tuple_command_cases (w : host) (P : result -> Prop) command argv probe thresholds :
  P (Result Fallthrough (interim w)) ->
  (forall e, P (Result (Uncaught e) (interim w))) ->
  P (invalid_arguments w command argv) ->
  (forall warn crit, P (probe warn crit)) ->
  P (tuple_command w command argv probe thresholds).
Proof.
  intros Hfall Hexn Hinv Hprobe. unfold tuple_command.
  destruct thresholds as [|warn [|crit [|extra thresholds]]]; auto.
  destruct (tuple_rejects _ _) as [[|]|e]; auto.
Qed.

(** Case analysis on an invocation, command by command: what holds of every
    way a command can end holds of [main] on that command. *)
Lemma main_by_command (w : host) (P : string -> result -> Prop) :
  (forall command, P command (Result Fallthrough (interim w))) ->
  (forall command e, P command (Result (Uncaught e) (interim w))) ->
  (forall command argv, P command (invalid_arguments w command argv)) ->
  (forall command, command ∉ commands ->
     P command (exit_with w 3 ("Plugin Error: Unknown command " +:+ command))) ->
  (forall warn crit, P "cpu" (check_cpu w warn crit)) ->
  (forall warn crit, P "procs" (check_procs w warn crit)) ->
  (forall warn crit, P "load" (check_load w warn crit)) ->
  (forall warn crit, P "threads" (check_threads w warn crit)) ->
  (forall warn crit, P "files" (check_openfiles w warn crit)) ->
  (forall dev warn crit, P "diskio" (check_diskio w dev warn crit)) ->
  (forall mountpoint warn crit, P "disku" (check_disku w mountpoint warn crit)) ->
  (forall warn crit, P "memory" (check_memory w warn crit)) ->
  (forall warn crit, P "swap" (check_swap w warn crit)) ->
  (forall interface warn crit, P "network" (check_net w interface warn crit)) ->
  forall prog command args, P command (main w (prog :: command :: args)).
Proof.
  intros Hfall Hexn Hinv Hunk Hcpu Hprocs Hload Hthreads Hfiles Hdiskio Hdisku Hmem Hswap
    Hnet prog command args.
  unfold main.
  repeat case_decide; subst;
    try (apply scalar_command_cases; by auto);
    try (apply tuple_command_cases; by auto).
  - destruct args as [|dev [|warn [|crit [|extra thresholds]]]]; auto;
      apply tuple_command_cases; auto.
  - destruct args as [|mountpoint thresholds]; auto.
    apply scalar_command_cases; auto.
  - destruct args as [|interface [|warn [|crit [|extra thresholds]]]]; auto;
      apply tuple_command_cases; auto.
  - apply Hunk. unfold commands. intros Hin. apply list_elem_of_In in Hin. simpl in Hin.
    intuition congruence.
Qed.

(** The same without the command. *)
Lemma main_cases (w : host) (P : result -> Prop) :
  P (Result Fallthrough (interim w)) ->
  (forall e, P (Result (Uncaught e) (interim w))) ->
  (forall command argv, P (invalid_arguments w command argv)) ->
  (forall command, P (exit_with w 3 ("Plugin Error: Unknown command " +:+ command))) ->
  (forall warn crit, P (check_cpu w warn crit)) ->
  (forall warn crit, P (check_procs w warn crit)) ->
  (forall warn crit, P (check_load w warn crit)) ->
  (forall warn crit, P (check_threads w warn crit)) ->
  (forall warn crit, P (check_openfiles w warn crit)) ->
  (forall dev warn crit, P (check_diskio w dev warn crit)) ->
  (forall mountpoint warn crit, P (check_disku w mountpoint warn crit)) ->
  (forall warn crit, P (check_memory w warn crit)) ->
  (forall warn crit, P (check_swap w warn crit)) ->
  (forall interface warn crit, P (check_net w interface warn crit)) ->
  forall argv, P (main w argv).
Proof.
  intros Hfall Hexn Hinv Hunk Hcpu Hprocs Hload Hthreads Hfiles Hdiskio Hdisku Hmem Hswap
    Hnet argv.
  destruct argv as [|prog [|command args]]; [exact Hfall..|].
  apply (main_by_command w (fun _ => P)); auto.
Qed.

(** X1.  A command that is none of the ten prints the unknown-command line and
    exits 3, whatever follows it on the command line; the snapshot directory
    is left alone. *)
Theorem unknown_command w prog command args :
  command ∉ commands ->
  main w (prog :: command :: args)
  = Result (Exited 3 ("Plugin Error: Unknown command " +:+ command)) (interim w).
Proof.
  intros Hnot. unfold commands in Hnot.
  repeat (apply not_elem_of_cons in Hnot as [? Hnot]).
  unfold main. by repeat (rewrite decide_False by done).
Qed.

Lemma unknown_command_witness :
  main fresh_host ["check"; "uptime"; "1"; "2"]
  = Result (Exited 3 "Plugin Error: Unknown command uptime") (interim fresh_host).
Proof.
  apply (unknown_command fresh_host "check" "uptime" ["1"; "2"]).
  intros Hin. apply list_elem_of_In in Hin. simpl in Hin. intuition discriminate.
Defined.

(** X2.  The number of arguments.  With no command at all the script ends without
    output.  The commands with array thresholds ([procs], [load], and
    [diskio], [network] after their device or interface) print nothing and
    end without [sys.exit] when the number of arguments fits neither form;
    the commands with scalar thresholds print the invalid-arguments line and
    exit 3. *)
Theorem argument_count w prog :
  main w [prog] = Result Fallthrough (interim w)
  /\ (forall command args,
        command ∈ ["procs"; "load"] ->
        length args ≠ 0%nat -> length args ≠ 2%nat ->
        main w (prog :: command :: args) = Result Fallthrough (interim w))
  /\ (forall command args,
        command ∈ ["diskio"; "network"] ->
        length args ≠ 1%nat -> length args ≠ 3%nat ->
        main w (prog :: command :: args) = Result Fallthrough (interim w))
  /\ (forall command args,
        command ∈ ["cpu"; "threads"; "files"; "memory"; "swap"] ->
        length args ≠ 0%nat -> length args ≠ 2%nat ->
        main w (prog :: command :: args)
        = invalid_arguments w command (prog :: command :: args))
  /\ (forall args,
        length args ≠ 1%nat -> length args ≠ 3%nat ->
        main w (prog :: "disku" :: args)
        = invalid_arguments w "disku" (prog :: "disku" :: args)).
Proof.
  split; [reflexivity|]. split; [|split; [|split]].
  - intros command args Hin H0 H2.
    apply list_elem_of_In in Hin. simpl in Hin.
    destruct args as [|a0 [|a1 [|a2 args]]]; cbn in H0, H2; try lia;
      intuition subst; reflexivity.
  - intros command args Hin H1 H3.
    apply list_elem_of_In in Hin. simpl in Hin.
    destruct args as [|a0 [|a1 [|a2 [|a3 args]]]]; cbn in H1, H3; try lia;
      intuition subst; reflexivity.
  - intros command args Hin H0 H2.
    apply list_elem_of_In in Hin. simpl in Hin.
    destruct args as [|a0 [|a1 [|a2 args]]]; cbn in H0, H2; try lia;
      intuition subst; reflexivity.
  - intros args H1 H3.
    destruct args as [|a0 [|a1 [|a2 [|a3 args]]]]; cbn in H1, H3; try lia; reflexivity.
Qed.

Lemma argument_count_witness :
  main fresh_host ["check"; "procs"; "5,5,5"] = Result Fallthrough (interim fresh_host)
  /\ main fresh_host ["check"; "network"] = Result Fallthrough (interim fresh_host)
  /\ main fresh_host ["check"; "memory"; "80"]
     = Result (Exited 3 "Plugin Error: Invalid arguments for memory: (['check', 'memory', '80'])")
              (interim fresh_host)
  /\ main fresh_host ["check"; "disku"]
     = Result (Exited 3 "Plugin Error: Invalid arguments for disku: (['check', 'disku'])")
              (interim fresh_host).
Proof.
  destruct (argument_count fresh_host "check") as (_ & Hplain & Hentity & Hscalar & Hdisku).
  split; [apply (Hplain "procs" ["5,5,5"]); [apply list_elem_of_here|simpl; lia..]|].
  split; [apply (Hentity "network" []); [apply list_elem_of_further, list_elem_of_here|simpl; lia..]|].
  split; [apply (Hscalar "memory" ["80"]); [do 3 apply list_elem_of_further; apply list_elem_of_here|simpl; lia..]|].
  apply (Hdisku []); simpl; lia.
Defined.

(** ** Thresholds that are accepted *)

Lemma scalar_accepts_true warn crit wv c :
  Num.py_float warn = Ok wv -> Num.py_float crit = Ok c -> (wv < c)%Q ->
  scalar_accepts warn crit = Ok true.
Proof.
  intros Hw Hc Hlt. unfold scalar_accepts. rewrite Hc. res_simpl. rewrite Hw. res_simpl.
  by rewrite gt_true.
Qed.

Lemma scalar_accepts_true_inv warn crit :
  scalar_accepts warn crit = Ok true ->
  exists wv c, Num.py_float warn = Ok wv /\ Num.py_float crit = Ok c /\ (wv < c)%Q.
Proof.
  unfold scalar_accepts.
  destruct (Num.py_float crit) as [c|e]; res_simpl; [|done].
  destruct (Num.py_float warn) as [wv|e]; res_simpl; [|done].
  intros H. injection H as H. exists wv, c. split; [done|]. split; [done|].
  unfold Float.gt in H. apply negb_true_iff in H.
  apply Qnot_le_lt. intros Hle. apply Qle_bool_iff in Hle. congruence.
Qed.



Lemma any_gt_false_inv pairs : any_gt pairs = Ok false -> Forall ordered_pair pairs.
Proof.
  induction pairs as [|[wi ci] pairs IH]; [intros _; apply Forall_nil; done|].
  cbn [any_gt].
  destruct (Num.py_float wi) as [wv|e] eqn:Hw; res_simpl; [|done].
  destruct (Num.py_float ci) as [c|e] eqn:Hc; res_simpl; [|done].
  destruct (Float.gt wv c) eqn:Hgt; [done|].
  intros H. apply Forall_cons. split; [|by apply IH].
  exists wv, c. split; [done|]. split; [done|].
  unfold Float.gt in Hgt. apply negb_false_iff in Hgt. by apply Qle_bool_iff.
Qed.

Lemma tuple_rejects_false_iff warn_arr crit_arr :
  tuple_rejects warn_arr crit_arr = Ok false
  <-> length warn_arr = length crit_arr /\ Forall ordered_pair (zip warn_arr crit_arr).
Proof.
  unfold tuple_rejects. split.
  - case_decide as Hlen; [done|]. intros H. split; [|by apply any_gt_false_inv].
    by destruct (decide (length warn_arr = length crit_arr)).
  - intros [Hlen Hall]. rewrite decide_False by (by intros ?). by apply any_gt_ordered.
Qed.

Lemma ordered_pairs_nonempty warn_arr crit_arr :
  length warn_arr = length crit_arr ->
  Forall ordered_pair (zip warn_arr crit_arr) ->
  ("" ∉ warn_arr) /\ ("" ∉ crit_arr).
Proof.
  revert crit_arr. induction warn_arr as [|wi warn_arr IH]; intros [|ci crit_arr] Hlen Hall;
    try discriminate Hlen.
  - split; apply not_elem_of_nil.
  - cbn [zip zip_with] in Hall. apply Forall_cons in Hall as [(wv & c & Hw & Hc & _) Hall].
    cbn in Hw, Hc. injection Hlen as Hlen. destruct (IH crit_arr Hlen Hall) as [IHw IHc].
    split; apply not_elem_of_cons; (split; [|done]); intros <-; discriminate.
Qed.



(** ** Exit codes *)

(** Inversion of a chain of binds that ended in [Ok]. *)
Ltac bind_inv H :=
  repeat first
    [ match type of H with
      | mbind _ ?m = Ok _ =>
          let E := fresh "E" in
          destruct m eqn:E; cbn [mbind res_bind mret res_ret] in H; [|discriminate H]
      end
    | match type of H with
      | (let '(_, _) := ?p in _) = Ok _ => destruct p
      end ].

Lemma res_fold_invariant {A B} (P : B -> Prop) (f : B -> A -> res B) l :
  (forall b x b', P b -> f b x = Ok b' -> P b') ->
  forall b b', P b -> res_fold f l b = Ok b' -> P b'.
Proof.
  intros Hstep. induction l as [|x l IH]; intros b b' Hb; cbn [res_fold].
  - by intros [= <-].
  - destruct (f b x) as [b1|e] eqn:E; res_simpl; [|done]. apply IH. by eapply Hstep.
Qed.

Lemma scalar_status_range value warn crit outp code outp' :
  scalar_status value warn crit outp = Ok (code, outp') -> 0 <= code <= 2.
Proof.
  unfold scalar_status. destruct warn as [warn|], crit as [crit|]; try (intros [= <- _]; lia).
  destruct (Num.py_float crit) as [c|]; res_simpl; [|done].
  destruct (Float.ge value c); [intros [= <- _]; lia|].
  destruct (Num.py_float warn) as [wv|]; res_simpl; [|done].
  destruct (Float.ge value wv); intros [= <- _]; lia.
Qed.

Lemma threads_status_range running warn crit outp code outp' :
  threads_status running warn crit outp = Ok (code, outp') -> 0 <= code <= 2.
Proof.
  unfold threads_status. destruct warn as [warn|], crit as [crit|]; try (intros [= <- _]; lia).
  destruct (Num.py_int crit) as [c|]; res_simpl; [|done].
  case_decide; [intros [= <- _]; lia|].
  destruct (Num.py_int warn) as [wv|]; res_simpl; [|done].
  case_decide; intros [= <- _]; lia.
Qed.

Lemma load_status_range load_avgs warn crit outp code outp' :
  load_status load_avgs warn crit outp = Ok (code, outp') -> 0 <= code <= 2.
Proof.
  unfold load_status. destruct warn as [warn|], crit as [crit|]; try (intros [= <- _]; lia).
  intros H.
  apply (res_fold_invariant (fun st : Z * string => 0 <= st.1 <= 2) _ _) in H; [done| |cbn; lia].
  clear. intros [code outp] i [code' outp'] Hr. cbn in Hr. unfold load_step.
  destruct (idx crit i) as [ci|]; res_simpl; [|done].
  case_decide; [by intros [= <- <-]|].
  destruct (idx warn i) as [wi|]; res_simpl; [|done].
  case_decide; [by intros [= <- <-]|].
  destruct (idx load_avgs i) as [v|]; res_simpl; [|done].
  destruct (Num.py_float ci) as [c|]; res_simpl; [|done].
  destruct (Float.ge v c); [intros [= <- _]; cbn; lia|].
  destruct (Num.py_float wi) as [wv|]; res_simpl; [|done].
  destruct (Float.ge v wv); [|by intros [= <- _]].
  case_decide; intros [= <- _]; cbn; lia.
Qed.

Lemma procs_status_range p warn crit outp code outp' :
  procs_status p warn crit outp = Ok (code, outp') -> 0 <= code <= 2.
Proof.
  unfold procs_status. destruct warn as [warn|], crit as [crit|]; try (intros [= <- _]; lia).
  intros H.
  apply (res_fold_invariant (fun st : Z * string => 0 <= st.1 <= 2) _ _) in H; [done| |cbn; lia].
  clear. intros [code outp] i [code' outp'] Hr. cbn in Hr. unfold procs_step.
  destruct (idx crit i) as [ci|]; res_simpl; [|done].
  case_decide; [by intros [= <- <-]|].
  destruct (idx warn i) as [wi|]; res_simpl; [|done].
  case_decide; [by intros [= <- <-]|].
  destruct (idx param i) as [name|]; res_simpl; [|done].
  destruct (procs_get p name) as [v|]; res_simpl; [|done].
  destruct (Num.py_float ci) as [c|]; res_simpl; [|done].
  destruct (Float.ge v c); [intros [= <- _]; cbn; lia|].
  destruct (Num.py_float wi) as [wv|]; res_simpl; [|done].
  destruct (Float.ge v wv); [|by intros [= <- _]].
  case_decide; intros [= <- _]; cbn; lia.
Qed.

Lemma diskio_status_range rs ws warn crit outp code outp' :
  diskio_status rs ws warn crit outp = Ok (code, outp') -> 0 <= code <= 2.
Proof.
  unfold diskio_status. destruct warn as [warn|], crit as [crit|]; try (intros [= <- _]; lia).
  destruct (pair_ge rs ws crit) as [[]|]; res_simpl; [intros [= <- _]; lia| |done].
  destruct (pair_ge rs ws warn) as [[]|]; res_simpl; [intros [= <- _]; lia..|done].
Qed.

Lemma net_errors_range int_d outp code outp' pk :
  net_errors int_d outp = Ok (code, outp', pk) -> 0 <= code <= 2.
Proof.
  unfold net_errors. intros H.
  apply (res_fold_invariant (fun st : Z * string * Z => 0 <= st.1.1 <= 2) _ _) in H;
    [done| |cbn; lia].
  clear. intros [[code outp] pk] x [[code' outp'] pk'] Hr. cbn in Hr. unfold net_error_step.
  destruct (getitem int_d x) as [v|]; res_simpl; [|done].
  case_decide; [intros [= <- _ _]; cbn; lia|by intros [= <- _ _]].
Qed.

Lemma net_status_range rx tx warn crit code0 outp0 pk code outp :
  0 <= code0 <= 2 ->
  net_status rx tx warn crit (code0, outp0, pk) = Ok (code, outp) -> 0 <= code <= 2.
Proof.
  intros Hr. unfold net_status.
  destruct warn as [warn|], crit as [crit|]; try (by intros [= <- _]).
  case_decide; [|by intros [= <- _]].
  destruct (pair_ge rx tx crit) as [[]|]; res_simpl; [intros [= <- _]; lia| |done].
  destruct (pair_ge rx tx warn) as [[]|]; res_simpl; [|by intros [= <- _]|done].
  case_decide; intros [= <- _]; lia.
Qed.

Lemma cpu_body_range period line1 line2 warn crit :
  code_in_range (cpu_body period line1 line2 warn crit).
Proof.
  unfold code_in_range.
  destruct (cpu_body period line1 line2 warn crit) as [[[code outp] perf]|] eqn:H; [|done].
  unfold cpu_body in H. bind_inv H. injection H as <- <- <-.
  by eapply scalar_status_range.
Qed.

Lemma load_body_range line warn crit : code_in_range (load_body line warn crit).
Proof.
  unfold code_in_range.
  destruct (load_body line warn crit) as [[[code outp] perf]|] eqn:H; [|done].
  unfold load_body in H. bind_inv H. injection H as <- <- <-.
  by eapply load_status_range.
Qed.

Lemma threads_body_range line warn crit : code_in_range (threads_body line warn crit).
Proof.
  unfold code_in_range.
  destruct (threads_body line warn crit) as [[[code outp] perf]|] eqn:H; [|done].
  unfold threads_body in H. bind_inv H. injection H as <- <- <-.
  by eapply threads_status_range.
Qed.

Lemma openfiles_body_range line warn crit : code_in_range (openfiles_body line warn crit).
Proof.
  unfold code_in_range.
  destruct (openfiles_body line warn crit) as [[[code outp] perf]|] eqn:H; [|done].
  unfold openfiles_body in H. bind_inv H. injection H as <- <- <-.
  by eapply scalar_status_range.
Qed.

Lemma procs_body_range w snapshot period warn crit :
  code_in_range (procs_body w snapshot period warn crit).
Proof.
  unfold code_in_range.
  destruct (procs_body w snapshot period warn crit) as [[[code outp] perf]|] eqn:H; [|done].
  unfold procs_body in H. bind_inv H. injection H as <- <- <-.
  by eapply procs_status_range.
Qed.

Lemma diskio_body_range dev device proc_line interim_line period warn crit :
  code_in_range (diskio_body dev device proc_line interim_line period warn crit).
Proof.
  unfold code_in_range.
  destruct (diskio_body dev device proc_line interim_line period warn crit)
    as [[[code outp] perf]|] eqn:H; [|done].
  unfold diskio_body in H. bind_inv H. injection H as <- <- <-.
  by eapply diskio_status_range.
Qed.

Lemma disku_body_range mountpoint st warn crit :
  code_in_range (disku_body mountpoint st warn crit).
Proof.
  unfold code_in_range.
  destruct (disku_body mountpoint st warn crit) as [[[code outp] perf]|] eqn:H; [|done].
  unfold disku_body in H. bind_inv H. injection H as <- <- <-.
  by eapply scalar_status_range.
Qed.

Lemma memory_body_range content warn crit : code_in_range (memory_body content warn crit).
Proof.
  unfold code_in_range.
  destruct (memory_body content warn crit) as [[[code outp] perf]|] eqn:H; [|done].
  unfold memory_body in H. bind_inv H. injection H as <- <- <-.
  by eapply scalar_status_range.
Qed.

Lemma swap_body_range content warn crit : code_in_range (swap_body content warn crit).
Proof.
  unfold code_in_range.
  destruct (swap_body content warn crit) as [[[code outp] perf]|] eqn:H; [|done].
  unfold swap_body in H. bind_inv H.
  case_decide; [injection H as <- <- <-; lia|].
  bind_inv H. injection H as <- <- <-.
  by eapply scalar_status_range.
Qed.

Lemma net_body_range interface int_d period warn crit :
  code_in_range (net_body interface int_d period warn crit).
Proof.
  unfold code_in_range.
  destruct (net_body interface int_d period warn crit) as [[[code outp] perf]|] eqn:H; [|done].
  unfold net_body in H. bind_inv H. injection H as <- <- <-.
  match goal with
  | Hs : net_status _ _ _ _ ?st = Ok _, He : net_errors _ _ = Ok ?st |- _ =>
      destruct st as [[code0 outp0] pk]; apply net_errors_range in He;
      by eapply net_status_range
  end.
Qed.

Lemma finish_disciplined w save body : code_in_range body -> disciplined (finish w save body).
Proof.
  unfold code_in_range, disciplined, finish.
  destruct body as [[[code outp] perf]|]; cbn; [|done]. by left.
Qed.

Lemma first_run_disciplined w src path msg : disciplined (first_run w src path msg).
Proof. left. cbn. lia. Qed.

Lemma plugin_error_disciplined w rest :
  disciplined (exit_with w 3 ("Plugin Error: " +:+ rest)).
Proof. right. by split. Qed.

(** X5.  Every invocation that reaches [sys.exit] does so with 0, 1 or 2 after a
    measurement or a first run, or with 3 after a line that starts with
    [Plugin Error: ].  The value 3 every probe starts [status_code] with is
    never the exit code of a measurement. *)
Theorem exit_code_discipline w argv : disciplined (main w argv).
Proof.
  apply main_cases.
  - done.
  - done.
  - intros command argv'. apply plugin_error_disciplined.
  - intros command. apply plugin_error_disciplined.
  - intros warn crit. unfold check_cpu.
    destruct (interim w !! _); [apply finish_disciplined, cpu_body_range|apply first_run_disciplined].
  - intros warn crit. unfold check_procs.
    destruct (interim w !! _); [apply finish_disciplined, procs_body_range|apply first_run_disciplined].
  - intros warn crit. apply finish_disciplined, load_body_range.
  - intros warn crit. apply finish_disciplined, threads_body_range.
  - intros warn crit. apply finish_disciplined, openfiles_body_range.
  - intros dev warn crit. unfold check_diskio.
    destruct (diskio_device w dev) as [device|]; [|apply plugin_error_disciplined].
    destruct (find_device _ _) as [[proc_line|]|]; [| apply plugin_error_disciplined | done].
    destruct (interim w !! _); [|apply first_run_disciplined].
    apply finish_disciplined.
    destruct (find_device _ _) as [interim_line|]; res_simpl; [|done].
    apply diskio_body_range.
  - intros mountpoint warn crit. unfold check_disku.
    destruct (mount w mountpoint); [apply finish_disciplined, disku_body_range|].
    apply plugin_error_disciplined.
  - intros warn crit. apply finish_disciplined, memory_body_range.
  - intros warn crit. apply finish_disciplined, swap_body_range.
  - intros interface warn crit. unfold check_net.
    destruct (interim w !! _); [|apply first_run_disciplined].
    destruct (net_read _ _ _) as [[int_t int_d]|]; [|done].
    case_decide; [apply plugin_error_disciplined|apply finish_disciplined, net_body_range].
Qed.

(** ** The snapshot directory *)

Lemma finish_refreshes w src path body :
  code_in_range body -> refreshes w path src (finish w (Some (src, path)) body).
Proof.
  unfold code_in_range, refreshes, finish.
  destruct body as [[[code outp] perf]|]; cbn; [|by split]. by split.
Qed.

Lemma first_run_refreshes w src path msg : refreshes w path src (first_run w src path msg).
Proof. split; [done|]. cbn. lia. Qed.

Lemma uncaught_refreshes w path src e :
  refreshes w path src (Result (Uncaught e) (interim w)).
Proof. by split. Qed.

Lemma fallthrough_refreshes w path src :
  refreshes w path src (Result Fallthrough (interim w)).
Proof. by split. Qed.

Ltac unchanged := first [apply uncaught_refreshes | apply fallthrough_refreshes].

Lemma exit_3_refreshes w path src line : refreshes w path src (exit_with w 3 line).
Proof. split; [|done]. cbn. lia. Qed.

Lemma check_cpu_refreshes w warn crit :
  refreshes w (interim_path "proc_stat") (proc_stat w) (check_cpu w warn crit).
Proof.
  unfold check_cpu. destruct (interim w !! _); [|apply first_run_refreshes].
  apply finish_refreshes, cpu_body_range.
Qed.

Lemma check_procs_refreshes w warn crit :
  refreshes w (interim_path "proc_stat_processes") (proc_stat w) (check_procs w warn crit).
Proof.
  unfold check_procs. destruct (interim w !! _); [|apply first_run_refreshes].
  apply finish_refreshes, procs_body_range.
Qed.

Lemma check_diskio_refreshes w dev warn crit :
  exists name,
    refreshes w (interim_path ("proc_diskstats_" +:+ name)) (proc_diskstats w)
      (check_diskio w dev warn crit).
Proof.
  unfold check_diskio.
  destruct (diskio_device w dev) as [device|]; [|exists ""; apply exit_3_refreshes].
  exists (Str.replace "/" "_" device).
  destruct (find_device _ _) as [[proc_line|]|];
    [|apply exit_3_refreshes|unchanged].
  destruct (interim w !! _); [|apply first_run_refreshes].
  apply finish_refreshes.
  destruct (find_device _ _) as [interim_line|]; res_simpl; [|done].
  apply diskio_body_range.
Qed.

Lemma check_net_refreshes w interface warn crit :
  refreshes w (interim_path ("proc_net_dev_" +:+ interface)) (proc_net_dev w)
    (check_net w interface warn crit).
Proof.
  unfold check_net. destruct (interim w !! _); [|apply first_run_refreshes].
  destruct (net_read _ _ _) as [[int_t int_d]|]; [|unchanged].
  case_decide; [apply exit_3_refreshes|apply finish_refreshes, net_body_range].
Qed.

(** X6.  The four commands that measure a rate keep their baseline in step with
    the outcome.  When the invocation completes (a first run or a
    measurement, exit code 0, 1 or 2) the snapshot directory is what it was
    with the command's own file replaced by the current text of the kernel
    file, stamped with the current time; when it ends in any other way (a
    Plugin Error, a traceback, no output) the directory is unchanged, so the
    next run still measures from the old baseline. *)
Theorem baseline_follows_outcome w prog :
  (forall args,
     refreshes w (interim_path "proc_stat") (proc_stat w) (main w (prog :: "cpu" :: args)))
  /\ (forall args,
        refreshes w (interim_path "proc_stat_processes") (proc_stat w)
          (main w (prog :: "procs" :: args)))
  /\ (forall args, exists name,
        refreshes w (interim_path ("proc_diskstats_" +:+ name)) (proc_diskstats w)
          (main w (prog :: "diskio" :: args)))
  /\ (forall interface thresholds,
        refreshes w (interim_path ("proc_net_dev_" +:+ interface)) (proc_net_dev w)
          (main w (prog :: "network" :: interface :: thresholds))).
Proof.
  split; [|split; [|split]].
  - intros args.
    change (main w (prog :: "cpu" :: args))
      with (scalar_command w "cpu" (prog :: "cpu" :: args) (check_cpu w) args).
    apply scalar_command_cases.
    + intros e; unchanged.
    + apply exit_3_refreshes.
    + apply check_cpu_refreshes.
  - intros args.
    change (main w (prog :: "procs" :: args))
      with (tuple_command w "procs" (prog :: "procs" :: args) (check_procs w) args).
    apply tuple_command_cases.
    + unchanged.
    + intros e; unchanged.
    + apply exit_3_refreshes.
    + apply check_procs_refreshes.
  - intros args.
    assert (forall dev thresholds, exists name,
              refreshes w (interim_path ("proc_diskstats_" +:+ name)) (proc_diskstats w)
                (tuple_command w "diskio" (prog :: "diskio" :: args) (check_diskio w dev)
                   thresholds)) as Hrun.
    { intros dev thresholds. unfold tuple_command.
      destruct thresholds as [|warn [|crit [|extra thresholds]]];
        try (exists ""; unchanged);
        [apply check_diskio_refreshes|].
      destruct (tuple_rejects _ _) as [[|]|e];
        [exists ""; apply exit_3_refreshes
        |apply check_diskio_refreshes
        |exists ""; unchanged]. }
    destruct args as [|dev [|warn [|crit [|extra thresholds]]]];
      try (exists ""; unchanged); apply Hrun.
  - intros interface thresholds.
    destruct thresholds as [|warn [|crit [|extra thresholds]]];
      try (unchanged);
      apply (tuple_command_cases w _ "network" _ (check_net w interface));
      try (unchanged);
      try (intros; unchanged);
      try apply exit_3_refreshes; intros; apply check_net_refreshes.
Qed.

(** *** Whose file a snapshot is *)

Lemma append_inv_head (p a b : string) : p +:+ a = p +:+ b -> a = b.
Proof.
  induction p as [|c p IH]; [done|]. cbn [String.append]. intros [= H]. by apply IH.
Qed.

Lemma interim_path_inj a b : interim_path a = interim_path b -> a = b.
Proof. unfold interim_path. by intros H%append_inv_head%append_inv_head. Qed.

Ltac other_name :=
  let H := fresh in
  intros H%interim_path_inj; cbv beta iota delta [String.append] in H; discriminate H.

Lemma refreshes_other w path src r p :
  refreshes w path src r -> p ≠ path -> (files_of r !! p) = (interim w !! p).
Proof.
  intros [Hdone Hfail] Hne.
  destruct (outcome_of r) as [code line| |]; cbn in Hdone, Hfail.
  - destruct (decide (0 <= code <= 2)) as [Hr|Hr].
    + rewrite Hdone by done. by rewrite lookup_insert_ne.
    + by rewrite Hfail.
  - rewrite Hfail; [done|tauto].
  - rewrite Hfail; [done|tauto].
Qed.

Lemma finish_reads_only w body : files_of (finish w None body) = interim w.
Proof. unfold finish. by destruct body as [[[code outp] perf]|]. Qed.

Lemma check_disku_reads_only w mountpoint warn crit :
  files_of (check_disku w mountpoint warn crit) = interim w.
Proof. unfold check_disku. destruct (mount w mountpoint); [apply finish_reads_only|done]. Qed.

(** A completed or failed run of a probe leaves every file but its own. *)
Ltac keeps Hr :=
  first [ done
        | intros _; apply (refreshes_other _ _ _ _ _ Hr); other_name
        | let name := fresh "name" in
          intros _ name; apply (refreshes_other _ _ _ _ _ Hr); other_name ].

(** The two copies of [/proc/stat]. *)
Lemma main_keeps_stat_baselines w prog command args :
  (command ≠ "cpu" ->
     (files_of (main w (prog :: command :: args)) !! interim_path "proc_stat")
     = (interim w !! interim_path "proc_stat"))
  /\ (command ≠ "procs" ->
        (files_of (main w (prog :: command :: args)) !! interim_path "proc_stat_processes")
        = (interim w !! interim_path "proc_stat_processes")).
Proof.
  revert prog command args.
  apply (main_by_command w (fun command r =>
    (command ≠ "cpu" ->
       (files_of r !! interim_path "proc_stat") = (interim w !! interim_path "proc_stat"))
    /\ (command ≠ "procs" ->
          (files_of r !! interim_path "proc_stat_processes")
          = (interim w !! interim_path "proc_stat_processes"))));
    try (intros; by split).
  - intros warn crit. pose proof (check_cpu_refreshes w warn crit) as Hr.
    split; keeps Hr.
  - intros warn crit. pose proof (check_procs_refreshes w warn crit) as Hr.
    split; keeps Hr.
  - intros warn crit. unfold check_load. rewrite finish_reads_only. by split.
  - intros warn crit. unfold check_threads. rewrite finish_reads_only. by split.
  - intros warn crit. unfold check_openfiles. rewrite finish_reads_only. by split.
  - intros dev warn crit. destruct (check_diskio_refreshes w dev warn crit) as [dname Hr].
    split; keeps Hr.
  - intros mountpoint warn crit. rewrite check_disku_reads_only. by split.
  - intros warn crit. unfold check_memory. rewrite finish_reads_only. by split.
  - intros warn crit. unfold check_swap. rewrite finish_reads_only. by split.
  - intros interface warn crit. pose proof (check_net_refreshes w interface warn crit) as Hr.
    split; keeps Hr.
Qed.

(** X7.  A baseline belongs to one command.  The snapshot of [cpu] is changed by
    no other command, and likewise for [procs] (which reads the same kernel
    file under another name), for [diskio] whatever the device, and for
    [network] whatever the interface; a command that is none of the four
    changes nothing in the snapshot directory, however it ends. *)
Theorem baseline_owned_by_command w prog command args :
  (command ≠ "cpu" ->
     (files_of (main w (prog :: command :: args)) !! interim_path "proc_stat")
     = (interim w !! interim_path "proc_stat"))
  /\ (command ≠ "procs" ->
        (files_of (main w (prog :: command :: args)) !! interim_path "proc_stat_processes")
        = (interim w !! interim_path "proc_stat_processes"))
  /\ (command ≠ "diskio" ->
        forall name,
          (files_of (main w (prog :: command :: args))
             !! interim_path ("proc_diskstats_" +:+ name))
          = (interim w !! interim_path ("proc_diskstats_" +:+ name)))
  /\ (command ≠ "network" ->
        forall name,
          (files_of (main w (prog :: command :: args))
             !! interim_path ("proc_net_dev_" +:+ name))
          = (interim w !! interim_path ("proc_net_dev_" +:+ name)))
  /\ (command ∉ ["cpu"; "procs"; "diskio"; "network"] ->
        files_of (main w (prog :: command :: args)) = interim w).
Proof.
  destruct (main_keeps_stat_baselines w prog command args) as [Hcpu Hprocs].
  split; [exact Hcpu|]. split; [exact Hprocs|].
  clear Hcpu Hprocs. revert prog command args.
  apply (main_by_command w (fun command r =>
    (command ≠ "diskio" ->
       forall name,
         (files_of r !! interim_path ("proc_diskstats_" +:+ name))
         = (interim w !! interim_path ("proc_diskstats_" +:+ name)))
    /\ (command ≠ "network" ->
          forall name,
            (files_of r !! interim_path ("proc_net_dev_" +:+ name))
            = (interim w !! interim_path ("proc_net_dev_" +:+ name)))
    /\ (command ∉ ["cpu"; "procs"; "diskio"; "network"] -> files_of r = interim w)));
    try (intros; by repeat split).
  - intros warn crit. pose proof (check_cpu_refreshes w warn crit) as Hr.
    split; [keeps Hr|]. split; [keeps Hr|].
    intros Hnot. exfalso. apply Hnot, list_elem_of_here.
  - intros warn crit. pose proof (check_procs_refreshes w warn crit) as Hr.
    split; [keeps Hr|]. split; [keeps Hr|].
    intros Hnot. exfalso. apply Hnot, list_elem_of_further, list_elem_of_here.
  - intros warn crit. unfold check_load. rewrite finish_reads_only. by repeat split.
  - intros warn crit. unfold check_threads. rewrite finish_reads_only. by repeat split.
  - intros warn crit. unfold check_openfiles. rewrite finish_reads_only. by repeat split.
  - intros dev warn crit. destruct (check_diskio_refreshes w dev warn crit) as [dname Hr].
    split; [keeps Hr|]. split; [keeps Hr|].
    intros Hnot. exfalso. apply Hnot. do 2 apply list_elem_of_further. apply list_elem_of_here.
  - intros mountpoint warn crit. rewrite check_disku_reads_only. by repeat split.
  - intros warn crit. unfold check_memory. rewrite finish_reads_only. by repeat split.
  - intros warn crit. unfold check_swap. rewrite finish_reads_only. by repeat split.
  - intros interface warn crit.
    pose proof (check_net_refreshes w interface warn crit) as Hr.
    split; [keeps Hr|]. split; [keeps Hr|].
    intros Hnot. exfalso. apply Hnot. do 3 apply list_elem_of_further. apply list_elem_of_here.
Qed.

Lemma baseline_owned_by_command_witness :
  (files_of (main later_host ["check"; "procs"]) !! interim_path "proc_stat")
  = (interim later_host !! interim_path "proc_stat").
Proof.
  apply (proj1 (baseline_owned_by_command later_host "check" "procs" [])). discriminate.
Defined.

(** *** Consecutive runs *)

Lemma completed_cpu_baseline w prog args :
  completed (outcome_of (main w (prog :: "cpu" :: args))) ->
  (files_of (main w (prog :: "cpu" :: args)) !! interim_path "proc_stat")
  = Some (File (proc_stat w) (now w)).
Proof.
  intros Hdone.
  change (main w (prog :: "cpu" :: args))
    with (scalar_command w "cpu" (prog :: "cpu" :: args) (check_cpu w) args) in *.
  revert Hdone. apply scalar_command_cases.
  - intros e [].
  - cbn. lia.
  - intros warn crit Hdone. destruct (check_cpu_refreshes w warn crit) as [Hr _].
    rewrite (Hr Hdone). apply lookup_insert_eq.
Qed.

Lemma completed_procs_baseline w prog args :
  completed (outcome_of (main w (prog :: "procs" :: args))) ->
  (files_of (main w (prog :: "procs" :: args)) !! interim_path "proc_stat_processes")
  = Some (File (proc_stat w) (now w)).
Proof.
  intros Hdone.
  change (main w (prog :: "procs" :: args))
    with (tuple_command w "procs" (prog :: "procs" :: args) (check_procs w) args) in *.
  revert Hdone. apply tuple_command_cases.
  - intros [].
  - intros e [].
  - cbn. lia.
  - intros warn crit Hdone. destruct (check_procs_refreshes w warn crit) as [Hr _].
    rewrite (Hr Hdone). apply lookup_insert_eq.
Qed.

(** X8.  What a measurement spans.  After a completed [cpu] invocation on [w],
    and one invocation of any other command in between, [check_cpu] compares
    the current first line of [/proc/stat] with the one of [w] and reports
    the time since [w] as the sample period; the same holds of [procs],
    which keeps its own copy of [/proc/stat], with [cpu] among the commands
    that may run in between. *)
Theorem measurement_spans_completed_runs w w2 w3 prog args command args2 warn crit :
  interim w3 = files_of (main w2 (prog :: command :: args2)) ->
  (completed (outcome_of (main w (prog :: "cpu" :: args))) ->
   interim w2 = files_of (main w (prog :: "cpu" :: args)) ->
   command ≠ "cpu" ->
   check_cpu w3 warn crit
   = finish w3 (Some (proc_stat w3, interim_path "proc_stat"))
       (cpu_body (now w3 - now w) (Str.readline (proc_stat w)) (Str.readline (proc_stat w3))
          warn crit))
  /\ (forall warns crits,
        completed (outcome_of (main w (prog :: "procs" :: args))) ->
        interim w2 = files_of (main w (prog :: "procs" :: args)) ->
        command ≠ "procs" ->
        check_procs w3 warns crits
        = finish w3 (Some (proc_stat w3, interim_path "proc_stat_processes"))
            (procs_body w3 (proc_stat w) (now w3 - now w) warns crits)).
Proof.
  intros H3. split.
  - intros Hdone H2 Hne.
    pose proof (proj1 (main_keeps_stat_baselines w2 prog command args2) Hne) as Hkeep.
    rewrite <- H3, H2, (completed_cpu_baseline _ _ _ Hdone) in Hkeep.
    unfold check_cpu. by rewrite Hkeep.
  - intros warns crits Hdone H2 Hne.
    pose proof (proj2 (main_keeps_stat_baselines w2 prog command args2) Hne) as Hkeep.
    rewrite <- H3, H2, (completed_procs_baseline _ _ _ Hdone) in Hkeep.
    unfold check_procs. by rewrite Hkeep.
Qed.

Lemma measurement_spans_completed_runs_witness :
  check_cpu
    (with_interim
       (files_of (main (with_interim (files_of (main fresh_host ["check"; "cpu"])) fresh_host)
                       ["check"; "procs"]))
       later_host)
    None None
  = finish
      (with_interim
         (files_of (main (with_interim (files_of (main fresh_host ["check"; "cpu"])) fresh_host)
                         ["check"; "procs"]))
         later_host)
      (Some (stat_after, interim_path "proc_stat"))
      (cpu_body (110 - 100) (Str.readline stat_before) (Str.readline stat_after) None None).
Proof.
  refine (proj1 (measurement_spans_completed_runs fresh_host
                   (with_interim (files_of (main fresh_host ["check"; "cpu"])) fresh_host)
                   (with_interim
                      (files_of (main (with_interim (files_of (main fresh_host ["check"; "cpu"]))
                                         fresh_host) ["check"; "procs"]))
                      later_host)
                   "check" [] "procs" [] None None eq_refl) _ eq_refl _).
  - vm_compute. split; discriminate.
  - discriminate.
Defined.

(** ** An interface that is missing from a reading *)

Lemma net_fill_none prefix store d : net_fill prefix None store d = Ok d.
Proof. done. Qed.

(** The second pass of [check_net] over a line of the snapshot when the
    current file had no line for the interface: the first field raises. *)
Lemma net_fill_without_totals prefix line :
  exists e,
    net_fill prefix (Some line)
      (fun x interim_value d =>
         t ← getitem (∅ : gmap string Z) x; Ok (<[x := t - interim_value]> d)) ∅
    = Raise e
    /\ ((exists v, net_value prefix line 0 = Ok v) -> e = KeyError).
Proof.
  unfold net_fill, net_fields. cbn [res_fold].
  destruct (net_value prefix line 0) as [v|e] eqn:Hv; res_simpl.
  - exists KeyError. by split.
  - exists e. split; [done|]. by intros [v [=]].
Qed.

(** X9.  The interface has no line in the snapshot: the probe cannot complete,
    and it leaves the snapshot as it is, so that every later invocation meets
    the same snapshot again.  When the current line of the interface is well
    formed the invocation ends in the device-not-found error. *)
Theorem net_snapshot_without_interface w interface warn crit snap :
  (interim w !! interim_path ("proc_net_dev_" +:+ interface)) = Some snap ->
  net_line (interface +:+ ":") (f_content snap) = None ->
  ~ completed (outcome_of (check_net w interface warn crit))
  /\ files_of (check_net w interface warn crit) = interim w
  /\ ((exists int_t,
         net_fill (interface +:+ ":") (net_line (interface +:+ ":") (proc_net_dev w))
           (fun x v d => Ok (<[x := v]> d)) ∅ = Ok int_t) ->
      check_net w interface warn crit
      = exit_with w 3 ("Plugin Error: Network device not found: (" +:+ interface +:+ ")")).
Proof.
  intros Hsnap Hnone. unfold check_net. rewrite Hsnap. unfold net_read. rewrite Hnone.
  destruct (net_fill _ (net_line _ (proc_net_dev w)) _ ∅) as [int_t|e]; res_simpl.
  - rewrite net_fill_none. res_simpl. rewrite decide_True by (by right). cbn. split; [lia|]. split; [done|]. done.
  - cbn. split; [tauto|]. split; [done|]. by intros [int_t [=]].
Qed.

(** X10.  The interface had a line when the snapshot was taken and has none now:
    the invocation ends in an uncaught exception, a [KeyError] when the first
    counter of the snapshot line parses, and not in the device-not-found
    error; the snapshot stays. *)
Theorem net_interface_gone w interface warn crit snap line :
  (interim w !! interim_path ("proc_net_dev_" +:+ interface)) = Some snap ->
  net_line (interface +:+ ":") (proc_net_dev w) = None ->
  net_line (interface +:+ ":") (f_content snap) = Some line ->
  exists e,
    check_net w interface warn crit = Result (Uncaught e) (interim w)
    /\ ((exists v, net_value (interface +:+ ":") line 0 = Ok v) -> e = KeyError).
Proof.
  intros Hsnap Hnow Hthen. unfold check_net. rewrite Hsnap. unfold net_read.
  rewrite Hnow, Hthen. rewrite net_fill_none. res_simpl.
  destruct (net_fill_without_totals (interface +:+ ":") line) as (e & -> & He).
  by exists e.
Qed.

Lemma net_snapshot_without_interface_witness :
  check_net wlan0_absent "wlan0" None None
  = exit_with wlan0_absent 3 "Plugin Error: Network device not found: (wlan0)".
Proof.
  apply (net_snapshot_without_interface wlan0_absent "wlan0" None None (File net_before 100)).
  - vm_compute. reflexivity.
  - vm_compute. reflexivity.
  - exists ∅. vm_compute. reflexivity.
Defined.

Lemma net_interface_gone_witness :
  check_net wlan0_gone "wlan0" None None = Result (Uncaught KeyError) (interim wlan0_gone).
Proof.
  destruct (net_interface_gone wlan0_gone "wlan0" None None (File net_with_wlan0 100)
              "wlan0: 1000 10 0 0 0 0 0 0 2000 20 0 0 0 0 0 0") as (e & -> & He).
  - vm_compute. reflexivity.
  - vm_compute. reflexivity.
  - vm_compute. reflexivity.
  - rewrite He; [reflexivity|]. eexists. vm_compute. reflexivity.
Defined.

(** ** The tallies of check_procs, state by state *)

Lemma state_names_setdefault_append sel k v d :
  state_names sel (setdefault_append k v d)
  = state_names sel d + (if sel k then 1 else 0).
Proof.
  induction d as [|[k' l] d IH].
  - unfold state_names. cbn. destruct (sel k); lia.
  - cbn [setdefault_append]. case_decide as Hk.
    + subst k'. unfold state_names. cbn [foldr fst snd]. rewrite length_app. cbn [length].
      destruct (sel k); lia.
    + unfold state_names in *. cbn [foldr fst snd]. rewrite IH. lia.
Qed.

Lemma foldl_tally_step_states d : forall p,
  let p' := foldl tally_step p d in
  p_running p' = p_running p + state_names (is_state "R") d
  /\ p_sleeping p' = p_sleeping p + state_names (is_state "S") d
  /\ p_waiting p' = p_waiting p + state_names (is_state "D") d
  /\ p_zombie p' = p_zombie p + state_names (is_state "Z") d
  /\ p_others p' = p_others p + state_names other_state d.
Proof.
  induction d as [|[state names] d IH]; intros p.
  - unfold state_names. cbn. lia.
  - cbn [foldl]. cbv zeta in IH |- *.
    destruct (IH (tally_step p (state, names))) as (-> & -> & -> & -> & ->).
    unfold state_names, other_state, is_state, tally_step. cbn [foldr fst snd].
    destruct (decide (state = "R")) as [->|HR];
      [|destruct (decide (state = "S")) as [->|HS];
        [|destruct (decide (state = "D")) as [->|HD];
          [|destruct (decide (state = "Z")) as [->|HZ]]]];
      repeat match goal with
             | |- context [bool_decide (?a = ?b)] =>
                 first [rewrite (bool_decide_eq_true_2 (a = b)) by congruence
                       |rewrite (bool_decide_eq_false_2 (a = b)) by congruence]
             end;
      cbn; lia.
Qed.

Lemma procs_scan_step_short total d name line :
  Str.isdigit name = true ->
  (length (Str.words line) < 3)%nat ->
  procs_scan_step (total, d) (name, Some line) = Raise IndexError.
Proof.
  intros Hd Hlen. unfold procs_scan_step. cbn [fst snd]. rewrite Hd.
  destruct (Str.words line) as [|f0 [|f1 [|f2 fs]]]; cbn in Hlen; try lia; reflexivity.
Qed.

Lemma procs_scan_states sel entries : forall total d total' d',
  res_fold procs_scan_step entries (total, d) = Ok (total', d') ->
  state_names sel d' = state_names sel d + in_state sel entries.
Proof.
  induction entries as [|[name r] entries IH]; intros total d total' d'.
  - cbn. intros [= _ <-]. lia.
  - cbn [res_fold in_state].
    destruct (Str.isdigit name) eqn:Hd.
    + destruct r as [line|]; cbn [mbind option_bind].
      * unfold state_of.
        destruct (decide (length (Str.words line) < 3)%nat) as [Hlen|Hlen].
        { by rewrite (procs_scan_step_short _ _ _ _ Hd Hlen). }
        destruct (Str.words line) as [|f0 [|f1 [|f2 fs]]] eqn:Hw; cbn in Hlen; try lia.
        rewrite (procs_scan_step_read _ _ _ _ _ _ _ _ Hd Hw). res_simpl.
        intros H. rewrite (IH _ _ _ _ H), state_names_setdefault_append.
        cbn [lookup list_lookup]. lia.
      * rewrite (procs_scan_step_vanished _ _ _ Hd). res_simpl.
        intros H. rewrite (IH _ _ _ _ H). lia.
    + rewrite (procs_scan_step_other _ _ _ _ Hd). res_simpl.
      intros H. rewrite (IH _ _ _ _ H). lia.
Qed.

(** X11.  When the scan of [/proc] succeeds, each tally is the number of processes
    that were read and whose state, taken as the third white-space field of
    the [stat] line, is the letter of the tally: [R] for running, [S] for
    sleeping, [D] for waiting, [Z] for zombie, anything else for others.  A
    process whose name contains a space has a piece of the name for its
    state, and is counted under others. *)
Theorem procs_tallies_by_state entries total states_procs forks_ps :
  procs_scan entries = Ok (total, states_procs) ->
  p_running (procs_tally total forks_ps states_procs) = in_state (is_state "R") entries
  /\ p_sleeping (procs_tally total forks_ps states_procs) = in_state (is_state "S") entries
  /\ p_waiting (procs_tally total forks_ps states_procs) = in_state (is_state "D") entries
  /\ p_zombie (procs_tally total forks_ps states_procs) = in_state (is_state "Z") entries
  /\ p_others (procs_tally total forks_ps states_procs) = in_state other_state entries.
Proof.
  intros Hscan. unfold procs_scan in Hscan. unfold procs_tally.
  destruct (foldl_tally_step_states states_procs (Procs total forks_ps 0 0 0 0 0))
    as (-> & -> & -> & -> & ->).
  rewrite !(procs_scan_states _ _ _ _ _ _ Hscan). unfold state_names. cbn. lia.
Qed.

Lemma procs_tallies_by_state_witness :
  p_sleeping (procs_tally 2 0 [("S", ["(systemd)"]); ("Content)", ["(Web"])]) = 1
  /\ p_others (procs_tally 2 0 [("S", ["(systemd)"]); ("Content)", ["(Web"])]) = 1.
Proof.
  destruct (procs_tallies_by_state listing_with_space 2
              [("S", ["(systemd)"]); ("Content)", ["(Web"])] 0) as (_ & Hs & _ & _ & Ho).
  - vm_compute. reflexivity.
  - split; [exact Hs|exact Ho].
Defined.

(** ** The percentages of check_cpu add up *)

Lemma sum_cpu_percent total l :
  total ≠ 0 ->
  (sum_Q (cpu_percent total <$> l) == 100 * inject_Z (sum_Z l) / inject_Z total)%Q.
Proof.
  intros Hz. pose proof (inject_Z_nonzero total Hz) as Hq.
  induction l as [|x l IH].
  - unfold sum_Q, sum_Z. cbn. field. done.
  - unfold sum_Q, sum_Z in *. cbn [fmap list_fmap foldr]. rewrite IH.
    unfold cpu_percent. rewrite (cpu_percent_forms total x Hz).
    rewrite inject_Z_plus. field. done.
Qed.

(** X12.  When the tick deltas do not add up to zero, the percentages of all the
    fields of the line add up to 100, so that the [cpu] value, [100 - idle],
    is the share of every field other than idle, the guest fields
    included. *)
Theorem cpu_percentages_add_up deltas :
  sum_Z deltas ≠ 0 ->
  exists percents,
    cpu_percents deltas = Ok percents
    /\ length percents = length deltas
    /\ (sum_Q percents == 100)%Q.
Proof.
  intros Hz. exists (cpu_percent (sum_Z deltas) <$> deltas).
  split; [by apply cpu_percents_map|]. split; [by rewrite length_fmap|].
  rewrite (sum_cpu_percent _ _ Hz). field. by apply inject_Z_nonzero.
Qed.

Lemma cpu_percentages_add_up_witness :
  exists percents,
    cpu_percents spec_deltas = Ok percents
    /\ length percents = length spec_deltas
    /\ (sum_Q percents == 100)%Q.
Proof. apply (cpu_percentages_add_up spec_deltas). vm_compute. discriminate. Defined.

(** ** check_disku *)

Lemma severity_proper v v' wv c : (v == v')%Q -> severity v wv c = severity v' wv c.
Proof.
  intros Hv. unfold severity, Float.ge.
  rewrite (Qleb_comp c c (Qeq_refl c) v v' Hv), (Qleb_comp wv wv (Qeq_refl wv) v v' Hv).
  reflexivity.
Qed.

Lemma GiB_zero bytes : bytes = 0 -> (GiB bytes == 0)%Q.
Proof. intros ->. reflexivity. Qed.

Lemma GiB_nonzero bytes : bytes ≠ 0 -> ~ (GiB bytes == 0)%Q.
Proof.
  intros Hz H. apply (inject_Z_nonzero bytes Hz). unfold GiB in H.
  assert (inject_Z bytes == inject_Z bytes / 1024 / 1024 / 1024 * (1024 * 1024 * 1024))%Q
    as Hb by (field; done).
  rewrite Hb, H. reflexivity.
Qed.



(** X14.  A mount point for which the kernel reports a size of zero, as for the
    pseudo file systems, ends the invocation in an uncaught
    [ZeroDivisionError] whatever the thresholds. *)
Theorem disku_empty_filesystem w mountpoint st warn crit :
  mount w mountpoint = Some st ->
  f_frsize st * f_blocks st = 0 ->
  check_disku w mountpoint warn crit = Result (Uncaught ZeroDivisionError) (interim w).
Proof.
  intros Hm Hz. unfold check_disku. rewrite Hm. unfold disku_body.
  rewrite div_by_zero by (by apply GiB_zero). reflexivity.
Qed.

Lemma disku_empty_filesystem_witness :
  check_disku host_with_proc_mount "/proc" None None
  = Result (Uncaught ZeroDivisionError) (interim host_with_proc_mount).
Proof.
  apply (disku_empty_filesystem host_with_proc_mount "/proc" (Statvfs 4096 0 0 0));
    reflexivity.
Defined.

(** ** Thresholds that pass the command line and fail in the probe *)

(** Replaying in the goal the steps that succeeded in a hypothesis. *)
Ltac bind_replay :=
  cbn [mbind res_bind mret res_ret];
  repeat match goal with
         | E : ?m = Ok _ |- context [mbind _ ?m] =>
             rewrite E; cbn [mbind res_bind mret res_ret]
         end.

Lemma threads_body_bad_crit line warn crit r :
  threads_body line None None = Ok r ->
  Num.py_int crit = Raise ValueError ->
  threads_body line (Some warn) (Some crit) = Raise ValueError.
Proof.
  intros Hr Hc. unfold threads_body in *. bind_inv Hr. bind_replay.
  unfold threads_status. rewrite Hc. reflexivity.
Qed.

(** X15.  The [threads] command checks its bounds with [float] and the probe reads
    them with [int]: a critical bound such as [2.5] passes the command line
    and ends the invocation in an uncaught [ValueError]. *)
Theorem threads_bounds_must_be_integers w prog warn crit :
  scalar_accepts warn crit = Ok true ->
  Num.py_int crit = Raise ValueError ->
  (exists r, threads_body (Str.readline (proc_loadavg w)) None None = Ok r) ->
  main w [prog; "threads"; warn; crit] = Result (Uncaught ValueError) (interim w).
Proof.
  intros Hacc Hc [r Hr].
  change (main w [prog; "threads"; warn; crit])
    with (scalar_command w "threads" [prog; "threads"; warn; crit] (check_threads w)
            [warn; crit]).
  unfold scalar_command. rewrite Hacc. unfold check_threads.
  by rewrite (threads_body_bad_crit _ warn crit r Hr Hc).
Qed.

Lemma threads_bounds_must_be_integers_witness :
  main fresh_host ["check"; "threads"; "1.5"; "2.5"]
  = Result (Uncaught ValueError) (interim fresh_host).
Proof.
  apply (threads_bounds_must_be_integers fresh_host "check" "1.5" "2.5").
  - vm_compute. reflexivity.
  - vm_compute. reflexivity.
  - eexists. vm_compute. reflexivity.
Defined.

(** *** More than three positions *)

Section FourthPosition.
Variables warn crit : list string.
Hypothesis Hlen : length warn = length crit.
Hypothesis Hall : Forall ordered_pair (zip warn crit).
Hypothesis Hfour : (4 <= length warn)%nat.

Lemma position_parses i :
  (i < length warn)%nat ->
  exists wi ci wv c,
    (warn !! i) = Some wi /\ (crit !! i) = Some ci /\ wi ≠ "" /\ ci ≠ ""
    /\ Num.py_float wi = Ok wv /\ Num.py_float ci = Ok c.
Proof.
  intros Hi.
  destruct (lookup_lt_is_Some_2 warn i Hi) as [wi Hwi].
  destruct (lookup_lt_is_Some_2 crit i ltac:(lia)) as [ci Hci].
  assert ((zip warn crit !! i) = Some (wi, ci)) as Hz.
  { by apply lookup_zip_Some. }
  destruct (proj1 (Forall_lookup _ _) Hall i _ Hz) as (wv & c & Hw & Hc & _).
  cbn in Hw, Hc. exists wi, ci, wv, c.
  repeat split; try done; by eapply py_float_nonempty.
Qed.

Lemma load_step_parses load_avgs st i :
  (i < 3)%nat -> length load_avgs = 3%nat ->
  exists st', load_step load_avgs warn crit st i = Ok st'.
Proof.
  intros Hi Hl. destruct st as [code outp].
  destruct (position_parses i ltac:(lia)) as (wi & ci & wv & c & Hwi & Hci & Hwn & Hcn & Hw & Hc).
  destruct (lookup_lt_is_Some_2 load_avgs i ltac:(lia)) as [v Hv].
  unfold load_step. rewrite (idx_lookup _ _ _ Hci). res_simpl.
  rewrite decide_False by done. rewrite (idx_lookup _ _ _ Hwi). res_simpl.
  rewrite decide_False by done. rewrite (idx_lookup _ _ _ Hv). res_simpl.
  rewrite Hc. res_simpl. destruct (Float.ge v c); [by eexists|].
  rewrite Hw. res_simpl. destruct (Float.ge v wv); by eexists.
Qed.

Lemma load_status_fourth load_avgs outp :
  length load_avgs = 3%nat ->
  load_status load_avgs (Some warn) (Some crit) outp = Raise IndexError.
Proof.
  intros Hl. unfold load_status.
  replace (length warn) with (S (S (S (S (length warn - 4))))) by lia.
  cbn [seq res_fold].
  destruct (load_step_parses load_avgs (0, outp) 0 ltac:(lia) Hl) as [st0 ->]. res_simpl.
  destruct (load_step_parses load_avgs st0 1 ltac:(lia) Hl) as [st1 ->]. res_simpl.
  destruct (load_step_parses load_avgs st1 2 ltac:(lia) Hl) as [[code2 outp2] ->]. res_simpl.
  destruct (position_parses 3 ltac:(lia)) as (wi & ci & wv & c & Hwi & Hci & Hwn & Hcn & Hw & Hc).
  unfold load_step. rewrite (idx_lookup _ _ _ Hci). res_simpl.
  rewrite decide_False by done. rewrite (idx_lookup _ _ _ Hwi). res_simpl.
  rewrite decide_False by done.
  unfold idx. rewrite (lookup_ge_None_2 load_avgs 3) by lia. reflexivity.
Qed.

Lemma procs_step_parses p st i :
  (i < 3)%nat ->
  exists st', procs_step p warn crit st i = Ok st'.
Proof.
  intros Hi. destruct st as [code outp].
  destruct (position_parses i ltac:(lia)) as (wi & ci & wv & c & Hwi & Hci & Hwn & Hcn & Hw & Hc).
  unfold procs_step. rewrite (idx_lookup _ _ _ Hci). res_simpl.
  rewrite decide_False by done. rewrite (idx_lookup _ _ _ Hwi). res_simpl.
  rewrite decide_False by done.
  assert (exists name v, idx param i = Ok name /\ procs_get p name = Ok v) as (name & v & -> & Hv).
  { destruct i as [|[|[|i]]]; [..|lia]; eexists _, _; split; reflexivity. }
  res_simpl. rewrite Hv. res_simpl.
  rewrite Hc. res_simpl. destruct (Float.ge v c); [by eexists|].
  rewrite Hw. res_simpl. destruct (Float.ge v wv); by eexists.
Qed.

Lemma procs_status_fourth p outp :
  procs_status p (Some warn) (Some crit) outp = Raise IndexError.
Proof.
  unfold procs_status.
  replace (length warn) with (S (S (S (S (length warn - 4))))) by lia.
  cbn [seq res_fold].
  destruct (procs_step_parses p (0, outp) 0 ltac:(lia)) as [st0 ->]. res_simpl.
  destruct (procs_step_parses p st0 1 ltac:(lia)) as [st1 ->]. res_simpl.
  destruct (procs_step_parses p st1 2 ltac:(lia)) as [[code2 outp2] ->]. res_simpl.
  destruct (position_parses 3 ltac:(lia)) as (wi & ci & wv & c & Hwi & Hci & Hwn & Hcn & Hw & Hc).
  unfold procs_step. rewrite (idx_lookup _ _ _ Hci). res_simpl.
  rewrite decide_False by done. rewrite (idx_lookup _ _ _ Hwi). res_simpl.
  rewrite decide_False by done. reflexivity.
Qed.
End FourthPosition.

Lemma res_map_length {A B} (f : A -> res B) l ys :
  res_map f l = Ok ys -> length ys = length l.
Proof.
  revert ys. induction l as [|x l IH]; intros ys; cbn [res_map]; [by intros [= <-]|].
  destruct (f x); res_simpl; [|done].
  destruct (res_map f l) as [ys'|]; res_simpl; [|done].
  intros [= <-]. cbn. by rewrite (IH ys').
Qed.

Lemma idx_length {A} (l : list A) i x : idx l i = Ok x -> (i < length l)%nat.
Proof.
  unfold idx. destruct (l !! i) eqn:E; [|done]. intros _. by eapply lookup_lt_Some.
Qed.

Lemma load_body_fourth line warn crit r :
  length warn = length crit -> Forall ordered_pair (zip warn crit) ->
  (4 <= length warn)%nat ->
  load_body line None None = Ok r ->
  load_body line (Some warn) (Some crit) = Raise IndexError.
Proof.
  intros Hlen Hall Hfour Hr. unfold load_body in *. bind_inv Hr.
  match goal with
  | Hm : res_map _ _ = Ok ?l, H2 : idx ?l 2 = Ok _ |- _ =>
      assert (length l = 3%nat) as Hl
        by (apply res_map_length in Hm as Hlen3; rewrite length_take in Hlen3;
            apply idx_length in H2 as Hlt; lia)
  end.
  bind_replay.
  rewrite (load_status_fourth warn crit Hlen Hall Hfour _ _ Hl). reflexivity.
Qed.

Lemma procs_body_fourth w snapshot period warn crit r :
  length warn = length crit -> Forall ordered_pair (zip warn crit) ->
  (4 <= length warn)%nat ->
  procs_body w snapshot period None None = Ok r ->
  procs_body w snapshot period (Some warn) (Some crit) = Raise IndexError.
Proof.
  intros Hlen Hall Hfour Hr. unfold procs_body in *. bind_inv Hr. bind_replay.
  rewrite (procs_status_fourth warn crit Hlen Hall Hfour). reflexivity.
Qed.

(** X16.  The commands [load] and [procs] accept threshold arrays of any length,
    and their probes have three values to compare: with four positions or
    more, on a machine where the probe works without thresholds, the
    invocation ends in an uncaught [IndexError], and [procs] does not renew
    its snapshot. *)
Theorem fourth_threshold_position w prog warn crit :
  tuple_rejects (Str.split "," warn) (Str.split "," crit) = Ok false ->
  (4 <= length (Str.split "," warn))%nat ->
  ((exists r, load_body (Str.readline (proc_loadavg w)) None None = Ok r) ->
   main w [prog; "load"; warn; crit] = Result (Uncaught IndexError) (interim w))
  /\ (forall snap,
        (interim w !! interim_path "proc_stat_processes") = Some snap ->
        (exists r, procs_body w (f_content snap) (now w - f_mtime snap) None None = Ok r) ->
        main w [prog; "procs"; warn; crit] = Result (Uncaught IndexError) (interim w)).
Proof.
  intros Hacc Hfour. destruct (proj1 (tuple_rejects_false_iff _ _) Hacc) as [Hlen Hall].
  split.
  - intros [r Hr].
    change (main w [prog; "load"; warn; crit])
      with (tuple_command w "load" [prog; "load"; warn; crit] (check_load w) [warn; crit]).
    unfold tuple_command. rewrite Hacc. unfold check_load.
    by rewrite (load_body_fourth _ _ _ r Hlen Hall Hfour Hr).
  - intros snap Hsnap [r Hr].
    change (main w [prog; "procs"; warn; crit])
      with (tuple_command w "procs" [prog; "procs"; warn; crit] (check_procs w) [warn; crit]).
    unfold tuple_command. rewrite Hacc. unfold check_procs. rewrite Hsnap.
    by rewrite (procs_body_fourth _ _ _ _ _ r Hlen Hall Hfour Hr).
Qed.

Lemma fourth_threshold_position_witness :
  main fresh_host ["check"; "load"; "1,1,1,1"; "2,2,2,2"]
  = Result (Uncaught IndexError) (interim fresh_host).
Proof.
  apply (fourth_threshold_position fresh_host "check" "1,1,1,1" "2,2,2,2").
  - vm_compute. reflexivity.
  - vm_compute. lia.
  - eexists. vm_compute. reflexivity.
Defined.

(** *** Arrays of one position for diskio and network *)

Lemma pair_suffix_short warn crit :
  (length warn < 2 \/ length crit < 2)%nat ->
  exists e, pair_suffix (Some warn) (Some crit) 1 = Raise e.
Proof.
  intros Hshort. unfold pair_suffix, idx.
  destruct warn as [|w0 [|w1 ws]]; cbn; try (by eexists).
  destruct crit as [|c0 [|c1 cs]]; cbn; try (by eexists).
  cbn in Hshort. lia.
Qed.

Lemma diskio_body_short dev device proc_line interim_line period warn crit :
  (length warn < 2 \/ length crit < 2)%nat ->
  exists e,
    diskio_body dev device proc_line interim_line period (Some warn) (Some crit) = Raise e.
Proof.
  intros Hshort. destruct (pair_suffix_short warn crit Hshort) as [e1 H1].
  unfold diskio_body.
  repeat match goal with
         | |- context [mbind _ (diskio_rate ?a ?b ?c ?i)] =>
             destruct (diskio_rate a b c i) as [?v|?e]; res_simpl; [|by eexists]
         end.
  destruct (diskio_status _ _ _ _ _) as [[code outp]|]; res_simpl; [|by eexists].
  set (d := <["write_time" := _]> _).
  cbn [res_fold].
  rewrite (getitem_lookup d "read_operations" _ eq_refl). res_simpl.
  rewrite (decide_False (P := "read_operations" = "read_sectors")) by discriminate.
  rewrite (decide_False (P := "read_operations" = "write_sectors")) by discriminate.
  res_simpl.
  rewrite (getitem_lookup d "read_sectors" _ eq_refl). res_simpl.
  rewrite (decide_True (P := "read_sectors" = "read_sectors")) by reflexivity.
  destruct (pair_suffix (Some warn) (Some crit) 0) as [s0|]; res_simpl; [|by eexists].
  rewrite (getitem_lookup d "read_time" _ eq_refl). res_simpl.
  rewrite (decide_False (P := "read_time" = "read_sectors")) by discriminate.
  rewrite (decide_False (P := "read_time" = "write_sectors")) by discriminate.
  res_simpl.
  rewrite (getitem_lookup d "write_operations" _ eq_refl). res_simpl.
  rewrite (decide_False (P := "write_operations" = "read_sectors")) by discriminate.
  rewrite (decide_False (P := "write_operations" = "write_sectors")) by discriminate.
  res_simpl.
  rewrite (getitem_lookup d "write_sectors" _ eq_refl). res_simpl.
  rewrite (decide_False (P := "write_sectors" = "read_sectors")) by discriminate.
  rewrite (decide_True (P := "write_sectors" = "write_sectors")) by reflexivity.
  rewrite H1. res_simpl. by eexists.
Qed.

Lemma net_body_short interface int_d period warn crit :
  (length warn < 2 \/ length crit < 2)%nat ->
  exists e, net_body interface int_d period (Some warn) (Some crit) = Raise e.
Proof.
  intros Hshort. destruct (pair_suffix_short warn crit Hshort) as [e1 H1].
  unfold net_body.
  repeat match goal with
         | |- context [mbind _ (getitem int_d ?k)] =>
             destruct (getitem int_d k) as [?v|?e]; res_simpl; [|by eexists]
         | |- context [mbind _ (Float.div ?a ?b)] =>
             destruct (Float.div a b) as [?q|?e]; res_simpl; [|by eexists]
         end.
  destruct (net_errors _ _) as [[[code0 outp0] pk]|]; res_simpl; [|by eexists].
  destruct (net_status _ _ _ _ _) as [[code outp]|]; res_simpl; [|by eexists].
  set (rates := <["PK_ERRORS" := _]> _).
  cbn [res_fold].
  rewrite (getitem_lookup rates "RX_MBps" _ eq_refl). res_simpl.
  rewrite (decide_True (P := "RX_MBps" = "RX_MBps")) by reflexivity.
  destruct (pair_suffix (Some warn) (Some crit) 0) as [s0|]; res_simpl; [|by eexists].
  rewrite (getitem_lookup rates "RX_PKps" _ eq_refl). res_simpl.
  rewrite (decide_False (P := "RX_PKps" = "RX_MBps")) by discriminate.
  rewrite (decide_False (P := "RX_PKps" = "TX_MBps")) by discriminate.
  res_simpl.
  rewrite (getitem_lookup rates "TX_MBps" _ eq_refl). res_simpl.
  rewrite (decide_False (P := "TX_MBps" = "RX_MBps")) by discriminate.
  rewrite (decide_True (P := "TX_MBps" = "TX_MBps")) by reflexivity.
  rewrite H1. res_simpl. by eexists.
Qed.

(** X17.  The commands [diskio] and [network] accept threshold arrays of one
    position, and their probes print the second position of both arrays:
    once the snapshot exists, such an invocation never completes and never
    renews the snapshot. *)
Theorem single_threshold_never_measures warn crit :
  (length warn < 2 \/ length crit < 2)%nat ->
  (forall w dev device snap,
     diskio_device w dev = Some device ->
     (interim w !! interim_path ("proc_diskstats_" +:+ Str.replace "/" "_" device))
     = Some snap ->
     ~ completed (outcome_of (check_diskio w dev (Some warn) (Some crit)))
     /\ files_of (check_diskio w dev (Some warn) (Some crit)) = interim w)
  /\ (forall w interface snap,
        (interim w !! interim_path ("proc_net_dev_" +:+ interface)) = Some snap ->
        ~ completed (outcome_of (check_net w interface (Some warn) (Some crit)))
        /\ files_of (check_net w interface (Some warn) (Some crit)) = interim w).
Proof.
  intros Hshort. split.
  - intros w dev device snap Hdev Hsnap. unfold check_diskio. rewrite Hdev.
    destruct (find_device _ (Str.splitlines (proc_diskstats w))) as [[proc_line|]|];
      [|cbn; split; [lia|done]|cbn; split; [tauto|done]].
    rewrite Hsnap.
    destruct (find_device _ (Str.splitlines (f_content snap))) as [interim_line|]; res_simpl;
      [|cbn; split; [tauto|done]].
    destruct (diskio_body_short dev device proc_line interim_line
                (now w - f_mtime snap) warn crit Hshort) as [e ->].
    cbn. split; [tauto|done].
  - intros w interface snap Hsnap. unfold check_net. rewrite Hsnap.
    destruct (net_read _ _ _) as [[int_t int_d]|]; [|cbn; split; [tauto|done]].
    case_decide; [cbn; split; [lia|done]|].
    destruct (net_body_short interface int_d (now w - f_mtime snap) warn crit Hshort)
      as [e ->].
    cbn. split; [tauto|done].
Qed.

Lemma single_threshold_never_measures_witness :
  ~ completed (outcome_of (check_diskio later_host "sda" (Some ["5"]) (Some ["10"])))
  /\ files_of (check_diskio later_host "sda" (Some ["5"]) (Some ["10"])) = interim later_host.
Proof.
  refine (proj1 (single_threshold_never_measures ["5"] ["10"] _) later_host "sda" "sda"
            (File diskstats_before 100) eq_refl _).
  - left. simpl. lia.
  - vm_compute. reflexivity.
Defined.

(** ** Without thresholds *)

Lemma finish_body_code w save body code line :
  outcome_of (finish w save body) = Exited code line -> body_code body = Ok code.
Proof.
  unfold finish, body_code. destruct body as [[[c outp] perf]|]; cbn; [|done].
  by intros [= -> _].
Qed.

Ltac body_code_zero body Hb :=
  let H := fresh "H" in
  intros ? H; unfold body_code in H;
  match type of H with
  | mbind _ ?b = _ => destruct b as [[[? ?] ?]|] eqn:Hb; res_simpl; [|discriminate H]
  end;
  injection H as <-; unfold body in Hb; bind_inv Hb.

Lemma cpu_body_plain period line1 line2 code :
  body_code (cpu_body period line1 line2 None None) = Ok code -> code = 0.
Proof.
  revert code. body_code_zero cpu_body Hb.
  match goal with E : scalar_status _ None None _ = Ok _ |- _ => injection E as <- _ end.
  by injection Hb as <- _ _.
Qed.

Lemma load_body_plain line code :
  body_code (load_body line None None) = Ok code -> code = 0.
Proof.
  revert code. body_code_zero load_body Hb.
  match goal with E : load_status _ None None _ = Ok _ |- _ => injection E as <- _ end.
  by injection Hb as <- _ _.
Qed.

Lemma threads_body_plain line code :
  body_code (threads_body line None None) = Ok code -> code = 0.
Proof.
  revert code. body_code_zero threads_body Hb.
  match goal with E : threads_status _ None None _ = Ok _ |- _ => injection E as <- _ end.
  by injection Hb as <- _ _.
Qed.

Lemma openfiles_body_plain line code :
  body_code (openfiles_body line None None) = Ok code -> code = 0.
Proof.
  revert code. body_code_zero openfiles_body Hb.
  match goal with E : scalar_status _ None None _ = Ok _ |- _ => injection E as <- _ end.
  by injection Hb as <- _ _.
Qed.

Lemma procs_body_plain w snapshot period code :
  body_code (procs_body w snapshot period None None) = Ok code -> code = 0.
Proof.
  revert code. body_code_zero procs_body Hb.
  match goal with E : procs_status _ None None _ = Ok _ |- _ => injection E as <- _ end.
  by injection Hb as <- _ _.
Qed.

Lemma diskio_body_plain dev device proc_line interim_line period code :
  body_code (diskio_body dev device proc_line interim_line period None None) = Ok code ->
  code = 0.
Proof.
  revert code. body_code_zero diskio_body Hb.
  match goal with E : diskio_status _ _ None None _ = Ok _ |- _ => injection E as <- _ end.
  by injection Hb as <- _ _.
Qed.

Lemma disku_body_plain mountpoint st code :
  body_code (disku_body mountpoint st None None) = Ok code -> code = 0.
Proof.
  revert code. body_code_zero disku_body Hb.
  match goal with E : scalar_status _ None None _ = Ok _ |- _ => injection E as <- _ end.
  by injection Hb as <- _ _.
Qed.

Lemma memory_body_plain content code :
  body_code (memory_body content None None) = Ok code -> code = 0.
Proof.
  revert code. body_code_zero memory_body Hb.
  match goal with E : scalar_status _ None None _ = Ok _ |- _ => injection E as <- _ end.
  by injection Hb as <- _ _.
Qed.

Lemma swap_body_plain content code :
  body_code (swap_body content None None) = Ok code -> code = 0.
Proof.
  revert code. body_code_zero swap_body Hb.
  case_decide; [by injection Hb as <- _ _|].
  bind_inv Hb.
  match goal with E : scalar_status _ None None _ = Ok _ |- _ => injection E as <- _ end.
  by injection Hb as <- _ _.
Qed.

(** X18.  Without thresholds no command but [network] ever alerts: an invocation
    with at most one argument after the command (there is no room for two
    bounds) that reaches [sys.exit] exits with 0, or with 3 after a Plugin
    Error. *)
Theorem no_thresholds_no_alert w prog command args code line :
  command ≠ "network" -> (length args <= 1)%nat ->
  outcome_of (main w (prog :: command :: args)) = Exited code line ->
  code = 0 \/ code = 3.
Proof.
  intros Hnet Hlen.
  destruct args as [|a [|b rest]]; [| |cbn in Hlen; lia]; unfold main;
    repeat case_decide; subst; try done;
    cbn [scalar_command tuple_command invalid_arguments exit_with outcome_of];
    try (intros [= <- _]; by right);
    try discriminate.
  - unfold check_cpu. destruct (interim w !! _); [|intros [= <- _]; by left].
    intros Hrun%finish_body_code%cpu_body_plain. by left.
  - unfold check_procs. destruct (interim w !! _); [|intros [= <- _]; by left].
    intros Hrun%finish_body_code%procs_body_plain. by left.
  - intros Hrun%finish_body_code%load_body_plain. by left.
  - intros Hrun%finish_body_code%threads_body_plain. by left.
  - intros Hrun%finish_body_code%openfiles_body_plain. by left.
  - intros Hrun%finish_body_code%memory_body_plain. by left.
  - intros Hrun%finish_body_code%swap_body_plain. by left.
  - unfold check_diskio.
    destruct (diskio_device w a) as [device|]; [|intros [= <- _]; by right].
    destruct (find_device _ _) as [[proc_line|]|]; [|intros [= <- _]; by right|done].
    destruct (interim w !! _); [|intros [= <- _]; by left].
    destruct (find_device _ _) as [interim_line|]; res_simpl; [|done].
    intros Hrun%finish_body_code%diskio_body_plain. by left.
  - unfold check_disku. destruct (mount w a); [|intros [= <- _]; by right].
    intros Hrun%finish_body_code%disku_body_plain. by left.
Qed.

Lemma no_thresholds_no_alert_witness :
  (0 = 0 \/ 0 = 3)
  /\ outcome_of (main fresh_host ["check"; "load"])
     = Exited 0 "Load1: 0.50 Load5: 1.25 Load15: 2.00 | load1=0.50 load5=1.25 load15=2.00".
Proof.
  assert (outcome_of (main fresh_host ["check"; "load"])
          = Exited 0 "Load1: 0.50 Load5: 1.25 Load15: 2.00 | load1=0.50 load5=1.25 load15=2.00")
    as Hrun by (vm_compute; reflexivity).
  split; [|exact Hrun].
  apply (no_thresholds_no_alert fresh_host "check" "load" [] 0 _ ltac:(discriminate)
           ltac:(simpl; lia) Hrun).
Defined.

(** ** The device of check_diskio *)

Lemma find_device_none sep lines :
  find_device sep lines = Ok None
  <-> Forall (fun line => Str.contains sep line = false) lines.
Proof.
  induction lines as [|line lines IH]; cbn [find_device].
  - split; [intros _; by apply Forall_nil|done].
  - destruct (Str.contains sep line) eqn:Hc.
    + split.
      * destruct (idx _ 1); res_simpl; discriminate.
      * intros [Hf _]%Forall_cons. congruence.
    + rewrite IH. split; [intros H; by apply Forall_cons|by intros [_ H]%Forall_cons].
Qed.

(** X19.  [check_diskio] reports that the block device is not found exactly when
    no line of [/proc/diskstats] contains the device name followed by a
    space.  The name is looked for anywhere in the line: a name that ends
    the name of a listed device counts as found. *)
Theorem diskio_device_not_listed w dev device warn crit :
  diskio_device w dev = Some device ->
  Forall (fun line => Str.contains (device +:+ " ") line = false)
         (Str.splitlines (proc_diskstats w))
  <-> check_diskio w dev warn crit
      = exit_with w 3 ("Plugin Error: Block device not found: (" +:+ device +:+ ")").
Proof.
  intros Hdev. rewrite <- find_device_none. unfold check_diskio. rewrite Hdev.
  destruct (find_device _ (Str.splitlines (proc_diskstats w))) as [[proc_line|]|e].
  - split; [done|]. intros H. exfalso. revert H.
    destruct (interim w !! _) as [snap|]; [|discriminate].
    pose proof (diskio_body_range dev device proc_line) as Hrange.
    destruct (find_device _ (Str.splitlines (f_content snap))) as [interim_line|];
      res_simpl; [|discriminate].
    specialize (Hrange interim_line (now w - f_mtime snap)%Q warn crit).
    destruct (diskio_body _ _ _ _ _ _ _) as [[[code outp] perf]|]; cbn in *; [|discriminate].
    intros [= -> _]. lia.
  - done.
  - split; discriminate.
Qed.

Lemma diskio_device_not_listed_witness :
  check_diskio fresh_host "sdb" None None
  = exit_with fresh_host 3 "Plugin Error: Block device not found: (sdb)".
Proof.
  apply (diskio_device_not_listed fresh_host "sdb" "sdb" None None eq_refl).
  vm_compute. repeat constructor.
Defined.

(** ** PK_ERRORS *)

Lemma increase_nonneg int_d x : 0 <= increase int_d x.
Proof. unfold increase. lia. Qed.

Lemma increases_nonneg int_d fields : 0 <= increases int_d fields.
Proof.
  induction fields as [|x fields IH]; unfold increases in *; cbn [foldr]; [lia|].
  pose proof (increase_nonneg int_d x). lia.
Qed.

Lemma increases_cons int_d x fields :
  increases int_d (x :: fields) = increase int_d x + increases int_d fields.
Proof. reflexivity. Qed.

Lemma net_error_step_missing int_d acc x :
  (int_d !! x) = None -> net_error_step int_d acc x = Raise KeyError.
Proof.
  intros Hx. destruct acc as [[code outp] pk]. unfold net_error_step, getitem.
  by rewrite Hx.
Qed.

Lemma net_errors_from int_d fields : forall code outp pk code' outp' pk',
  res_fold (net_error_step int_d) fields (code, outp, pk) = Ok (code', outp', pk') ->
  pk' = pk + increases int_d fields
  /\ code' = (if decide (0 < increases int_d fields) then 2 else code).
Proof.
  induction fields as [|x fields IH]; intros code outp pk code' outp' pk'.
  - cbn. intros [= <- _ <-]. split; [lia|done].
  - cbn [res_fold]. rewrite increases_cons.
    pose proof (increases_nonneg int_d fields) as Hnn.
    destruct (int_d !! x) as [v|] eqn:Hx.
    + assert (increase int_d x = Z.max 0 v) as -> by (unfold increase; by rewrite Hx).
      destruct (decide (0 < v)) as [Hv|Hv].
      * rewrite (net_error_step_up int_d _ _ _ _ _ Hx Hv). res_simpl.
        intros [-> ->]%IH. split; [lia|].
        rewrite (decide_True (P := 0 < Z.max 0 v + _)) by lia. by case_decide.
      * rewrite (net_error_step_not_up int_d _ _ _ _ _ Hx Hv). res_simpl.
        intros [-> ->]%IH. split; [lia|]. replace (Z.max 0 v) with 0 by lia.
        by rewrite Z.add_0_l.
    + by rewrite (net_error_step_missing _ _ _ Hx).
Qed.

(** X20.  When the loop over the hard-error counters succeeds, [PK_ERRORS] is the
    sum of what the nine counters went up by, a counter that went down
    adding nothing, and the status code the loop leaves is 2 when that sum
    is positive and 0 otherwise. *)
Theorem pk_errors_counts_increases int_d outp code outp' pk :
  net_errors int_d outp = Ok (code, outp', pk) ->
  pk = increases int_d net_error_fields
  /\ code = (if decide (0 < pk) then 2 else 0).
Proof.
  unfold net_errors. intros [-> ->]%net_errors_from. split; [lia|].
  rewrite Z.add_0_l. done.
Qed.

Lemma pk_errors_counts_increases_witness :
  exists outp', net_errors eth0_deltas "" = Ok (2, outp', 2).
Proof.
  destruct (net_errors eth0_deltas "") as [[[code outp'] pk]|] eqn:Hrun;
    [|vm_compute in Hrun; discriminate Hrun].
  destruct (pk_errors_counts_increases eth0_deltas "" code outp' pk Hrun) as [-> ->].
  exists outp'. vm_compute. reflexivity.
Defined.
